(** * vito.py: VITO inventory to WRF-Chem hourly emissions

    A shallow embedding of [XZ_model/MEIC/src/vito.py] and the properties
    of its numerical pipeline: spherical cell areas ([calc_area]), unit
    conversion and hourly disaggregation ([get_ds]), the hourly factor
    table, resampling ([resample_WRF]) and the patching of the two
    12-hour [wrfchemi] files ([replace_var]).

    Conventions of the embedding.
    - A float is an ideal real number ([R]); rounding and overflow are not
      modelled.  An array element is a [cell]: [Some r] is the finite
      value [r], [None] is a non-finite float (NaN, which is how xarray's
      [where] marks a masked element, or the result of dividing by zero).
      Every operation the program applies to array elements keeps a
      non-finite operand non-finite, which is what [None] propagating
      through [cadd], [cmul] and [cdiv] expresses.
    - A Python exception is a [Raise e] result; the program's functions
      live in the [result] monad.
    - The functions of pyresample, and the formatting of a datetime, are
      parameters of the embedding. *)

From Stdlib Require Import Reals Lra Lia ZArith String Ascii.
From stdpp Require Import gmap strings list.

Local Open Scope string_scope.

(** ** Python exceptions and the result monad *)

Inductive PyError : Type :=
  | KeyError (key : string)
  | ValueError (what : string)
  | IndexError
  | OSError
  | PermissionError.

Inductive result (A : Type) : Type :=
  | Return (a : A)
  | Raise (e : PyError).
Arguments Return {A} a.
Arguments Raise {A} e.

#[global] Instance result_ret : MRet result := fun _ a => Return a.
#[global] Instance result_bind : MBind result := fun _ _ f m =>
  match m with
  | Return a => f a
  | Raise e => Raise e
  end.
#[global] Instance result_fmap : FMap result := fun _ _ f m =>
  match m with
  | Return a => Return (f a)
  | Raise e => Raise e
  end.

(** [d[key]] on a dict: a [KeyError] when the key is missing. *)
Definition getitem {V} (d : gmap string V) (key : string) : result V :=
  match d !! key with
  | Some v => Return v
  | None => Raise (KeyError key)
  end.

(** [for x in xs: acc = f acc x], stopping at the first exception. *)
Fixpoint foldM {A B} (f : B -> A -> result B) (acc : B) (xs : list A) : result B :=
  match xs with
  | [] => Return acc
  | x :: xs' => acc' ← f acc x; foldM f acc' xs'
  end.

(** [[f x for x in xs]], stopping at the first exception. *)
Fixpoint mapR {A B} (f : A -> result B) (xs : list A) : result (list B) :=
  match xs with
  | [] => Return []
  | x :: xs' => y ← f x; ys ← mapR f xs'; Return (y :: ys)
  end.

(** ** Strings: the slices and splits used to build variable names *)

(** [s[n:]] *)
Fixpoint py_from (n : nat) (s : string) : string :=
  match n, s with
  | O, _ => s
  | S n', String _ s' => py_from n' s'
  | S _, EmptyString => EmptyString
  end.

(** [s.split(c)]: the pieces of [s] between occurrences of [c]. *)
Fixpoint py_split (c : ascii) (s : string) : list string :=
  match s with
  | EmptyString => [EmptyString]
  | String a s' =>
      if Ascii.eqb a c then EmptyString :: py_split c s'
      else match py_split c s' with
           | [] => [String a EmptyString]
           | p :: ps => String a p :: ps
           end
  end.

(** [l[-1]] and [l[-2]] *)
Definition py_last {A} (l : list A) : result A :=
  match reverse l with
  | x :: _ => Return x
  | [] => Raise IndexError
  end.
Definition py_last2 {A} (l : list A) : result A :=
  match reverse l with
  | _ :: x :: _ => Return x
  | _ => Raise IndexError
  end.

(** [sub in s] *)
Fixpoint py_in (sub s : string) : bool :=
  String.prefix sub s ||
  match s with
  | EmptyString => false
  | String _ s' => py_in sub s'
  end.

(** ** Array elements *)

Abbreviation cell := (option R).

Definition cadd (x y : cell) : cell :=
  match x, y with
  | Some a, Some b => Some (a + b)%R
  | _, _ => None
  end.

Definition cmul (x y : cell) : cell :=
  match x, y with
  | Some a, Some b => Some (a * b)%R
  | _, _ => None
  end.

Definition cdiv (x y : cell) : cell :=
  match x, y with
  | Some a, Some b => if Req_dec_T b 0 then None else Some (a / b)%R
  | _, _ => None
  end.

(** A 2-D array, [lat] by [lon] (or [south_north] by [west_east]). *)
Abbreviation field := (list (list cell)).

(** Element-wise operations of two arrays of the same dimensions, and of
    an array and a scalar. *)
Definition zip2d {A B C} (f : A -> B -> C) (a : list (list A)) (b : list (list B))
  : list (list C) :=
  zip_with (zip_with f) a b.
Definition map2d {A B} (f : A -> B) (a : list (list A)) : list (list B) :=
  (fun row : list A => f <$> row) <$> a.

(** [a[j, i]] as an optional value. *)
Definition at2 {A} (a : list (list A)) (j i : nat) : option A :=
  a !! j ≫= fun row => row !! i.

(** [np.full((n, m), v)] *)
Definition full {A} (n m : nat) (v : A) : list (list A) :=
  replicate n (replicate m v).

(** Sum of the elements of a list of reals and of a 2-D array of reals. *)
Definition Rsum (l : list R) : R := foldr Rplus 0%R l.
Definition Rsum2 (a : list (list R)) : R := Rsum (Rsum <$> a).

(** Sum of a list of cells; any non-finite element makes it non-finite. *)
Definition csum (l : list cell) : cell := foldr cadd (Some 0%R) l.

(** ** The datasets *)

(** A variable of the inventory: dimensions [time], [lat], [lon].  Its
    attributes are the numeric ones ([attrs], among them [MissingValue])
    and the string attribute [units], if it has one. *)
Record DataArray : Type := mkDataArray {
  values : list field;
  attrs : gmap string R;
  units_attr : option string
}.

(** The inventory, or a selection of its variables.  [var_names] is
    [list(ds.data_vars)]: the names of the data variables in their
    order. *)
Record Dataset : Type := mkDataset {
  ds_attrs : gmap string R;
  time_month : list Z;
  lat : list R;
  lon : list R;
  data_vars : gmap string DataArray;
  var_names : list string
}.

(** A species variable made by [get_ds]: dimensions [hour], [lat], [lon]. *)
Record HourlyVar : Type := mkHourlyVar {
  hv_values : list field;
  hv_units : option string
}.

(** The dataset [self.emi]; its species variables in insertion order. *)
Record EmiDataset : Type := mkEmi {
  emi_vars : list (string * HourlyVar);
  longitude : list (list R);
  latitude : list (list R)
}.

(** ** Module-level configuration *)

Record Config : Type := mkConfig {
  yyyy : Z;
  mm : Z;
  dd : Z;
  resample_method : string;
  domain : string;
  output_dir : string
}.

(** [calendar.monthrange(yyyy, mm)[1]] *)
Definition isleap (y : Z) : bool :=
  ((y mod 4 =? 0) && (negb (y mod 100 =? 0) || (y mod 400 =? 0)))%Z.

Definition monthrange_days (y m : Z) : result Z :=
  if ((1 <=? m) && (m <=? 12))%Z then
    Return (if (m =? 2)%Z then (if isleap y then 29 else 28)
            else if ((m =? 4) || (m =? 6) || (m =? 9) || (m =? 11))%Z then 30
            else 31)%Z
  else Raise (ValueError "bad month number; must be 1-12").

(** ** calc_area *)

Definition EARTH_RADIUS : R := 6370000.0.
Definition Rad_per_Deg : R := PI / 180.0.

(** [np.linspace(start, stop, num)] *)
Definition linspace (start stop : R) (num : nat) : list R :=
  (fun i => start + INR i * ((stop - start) / INR (num - 1)))%R <$> seq 0 num.

(** [np.meshgrid(x, y)] *)
Definition meshgrid (x y : list R) : list (list R) * list (list R) :=
  ((fun _ => x) <$> y, (fun yv => (fun _ => yv) <$> x) <$> y).

(** [a[j, i]] where the loop bounds keep the indices in range. *)
Definition idx2 (a : list (list R)) (j i : nat) : R :=
  nth i (nth j a []) 0%R.

(** The body of the double loop: the area of the cell between two
    longitude edges and two latitude edges. *)
Definition cap_area (ylat : R) : R :=
  let cap_ht := (EARTH_RADIUS * (1 - sin (ylat * Rad_per_Deg)))%R in
  (2 * PI * EARTH_RADIUS * cap_ht)%R.

Definition cell_area (xlon1 xlon2 ylat1 ylat2 : R) : R :=
  (Rabs (cap_area ylat1 - cap_area ylat2) * Rabs (xlon1 - xlon2) / 360.0)%R.

Definition area_loop (lon_bounds2d lat_bounds2d : list (list R)) : list (list R) :=
  let ydim := (length lon_bounds2d - 1)%nat in
  let xdim := (length (nth 0 lon_bounds2d []) - 1)%nat in
  (fun j =>
     (fun i =>
        let xlon1 := idx2 lon_bounds2d j i in
        let xlon2 := idx2 lon_bounds2d j (i + 1) in
        let ylat1 := idx2 lat_bounds2d j i in
        let ylat2 := idx2 lat_bounds2d (j + 1) i in
        cell_area xlon1 xlon2 ylat1 ylat2) <$> seq 0 xdim) <$> seq 0 ydim.

(** What [calc_area] stores on [self]. *)
Record Geometry : Type := mkGeometry {
  emi_lon_b : list R;
  emi_lat_b : list R;
  emi_lon : list R;
  emi_lat : list R;
  emi_area : list (list R)
}.

Definition calc_area (ds : Dataset) : result Geometry :=
  let attrs := ds_attrs ds in
  westb ← getitem attrs "grid_westb";
  eastb ← getitem attrs "grid_eastb";
  let lon_b := linspace westb eastb (length (lon ds) + 1) in
  northb ← getitem attrs "grid_northb";
  southb ← getitem attrs "grid_southb";
  let lat_b := linspace northb southb (length (lat ds) + 1) in
  let '(lon_bounds2d, lat_bounds2d) := meshgrid lon_b lat_b in
  let area := area_loop lon_bounds2d lat_bounds2d in
  Return {| emi_lon_b := lon_b; emi_lat_b := lat_b;
            emi_lon := lon ds; emi_lat := lat ds;
            emi_area := area |}.

(** ** get_ds *)

(** The records of the [logging] module. *)
Inductive Level : Type := DEBUG | INFO | WARNING | ERROR | CRITICAL.
Record LogRecord : Type := mkLog { levelname : Level; message : string }.

(** A dict in insertion order, as [var_dict]: [d[key]] and [d[key] = v]. *)
Fixpoint dict_get {V} (d : list (string * V)) (key : string) : result V :=
  match d with
  | [] => Raise (KeyError key)
  | (k, v) :: d' => if String.eqb k key then Return v else dict_get d' key
  end.

Fixpoint dict_set {V} (d : list (string * V)) (key : string) (v : V)
  : list (string * V) :=
  match d with
  | [] => [(key, v)]
  | (k, w) :: d' =>
      if String.eqb k key then (k, v) :: d' else (k, w) :: dict_set d' key v
  end.

(** [ds.where(ds != missing)] on one element: an element equal to the
    sentinel becomes NaN, any other element (NaN included) is kept. *)
Definition where_ne (missing : R) (v : cell) : cell :=
  match v with
  | Some r => if Req_dec_T r missing then None else Some r
  | None => None
  end.

(** [ds.where(ds['time.month'] == mm, drop=True)] on one variable: the
    time steps of month [mm]. *)
Definition where_month {A} (months : list Z) (mm : Z) (vals : list A) : list A :=
  snd <$> filter (fun p => p.1 = mm) (zip months vals).

(** [ds.where(cond)] on one variable: the values are masked, the
    attributes are kept. *)
Definition map_values (f : field -> field) (da : DataArray) : DataArray :=
  {| values := f <$> values da; attrs := attrs da; units_attr := units_attr da |}.

(** [ds.where(ds['time.month'] == mm, drop=True)] on one variable. *)
Definition sel_month (months : list Z) (mm : Z) (da : DataArray) : DataArray :=
  {| values := where_month months mm (values da); attrs := attrs da;
     units_attr := units_attr da |}.

(** Arithmetic on one variable: xarray drops the attributes of the
    operands. *)
Definition arith (f : field -> field) (da : DataArray) : DataArray :=
  {| values := f <$> values da; attrs := ∅; units_attr := None |}.

(** The unit conversion of one element for [E_NO] and [E_SO2]:
    [v*1e9/(area/1e6)/(hours*weight)]. *)
Definition to_mol_km2_hr (hours weight : Z) (v : cell) (area : R) : cell :=
  cdiv (cdiv (cmul v (Some 1e9%R)) (cdiv (Some area) (Some 1e6%R)))
       (Some (IZR (hours * weight))).

(** The unit conversion of one element for [E_PM25]:
    [v*1e15/area/(seconds*weight)]. *)
Definition to_ug_m2_s (seconds weight : Z) (v : cell) (area : R) : cell :=
  cdiv (cdiv (cmul v (Some 1e15%R)) (Some area))
       (Some (IZR (seconds * weight))).

(** The order of the columns of [hourly_factor.csv]. *)
Definition kind : list string :=
  ["Fires"; "Industry"; "Energy"; "Residential"; "Traffic"].

(** [xr.DataArray(rows, dims=['hour','kind'], coords={'hour': 0..23, 'kind': kind})]:
    the rows must be 24 by 5. *)
Definition table_shape_ok (rows : list (list R)) : bool :=
  (length rows =? 24)%nat && forallb (fun r => (length r =? 5)%nat) rows.

(** Column [c] of a table. *)
Definition column {A} (d : A) (c : nat) (t : list (list A)) : list A :=
  (fun row => nth c row d) <$> t.

(** [table/(table.sum(dim='hour')/24)] *)
Definition normalize (rows : list (list R)) : list (list cell) :=
  (fun row =>
     imap (fun c x => cdiv (Some x)
                        (cdiv (Some (Rsum (column 0%R c rows))) (Some 24%R))) row)
  <$> rows.

(** The [try ... except OSError] that reads the factor table.  [csv] is
    what [np.genfromtxt] parses from [./hourly_factor.csv]: [None] when
    the file cannot be opened. *)
Definition read_table (csv : option (list (list R)))
  : result (list (list cell) * list LogRecord) :=
  match csv with
  | Some rows =>
      if table_shape_ok rows then Return (normalize rows, [])
      else Raise (ValueError "conflicting sizes for dimensions")
  | None =>
      Return (full 24 5 (Some 1%R),
              [mkLog INFO "        hourly_factor.csv does not exist, use 1 instead"])
  end.

(** [table.sel(kind=k)] *)
Definition sel_kind (table : list (list cell)) (k : string) : result (list cell) :=
  match list_find (fun x => x = k) kind with
  | Some (c, _) => Return (column None c table)
  | None => Raise (KeyError k)
  end.

(** [.squeeze('time')]: an axis longer than one is refused, and then
    index 0 of the axis is selected, which an empty axis does not have. *)
Definition squeeze_time (vals : list field) : result field :=
  match vals with
  | [] => Raise IndexError
  | [f] => Return f
  | _ => Raise (ValueError "cannot select a dimension to squeeze out which has length greater than one")
  end.

(** [total += sector * factors]: [total] has dimensions [hour], [lat],
    [lon], [sector] has [lat], [lon] and [factors] has [hour]. *)
Definition add_scaled (total : list field) (sector : field) (factors : list cell)
  : list field :=
  zip_with (fun total_h f => zip2d cadd total_h (map2d (fun v => cmul v f) sector))
           total factors.

(** The species-dependent unit conversion of the monthly dataset:
    the [if name == 'E_PM25' ... elif name in ['E_NO', 'E_SO2']] of
    [get_ds]. *)
Definition convert_units (days : Z) (area : list (list R)) (name : string)
    (var_dict : list (string * Z)) (vars : gmap string DataArray)
  : result (gmap string DataArray) :=
  let seconds := (days * 24 * 3600)%Z in
  let hours := (days * 24)%Z in
  if String.eqb name "E_PM25" then
    (* WRF-Chem unit: ug/m3 m/s *)
    weight ← dict_get var_dict name;
    Return (arith (fun f => zip2d (to_ug_m2_s seconds weight) f area) <$> vars)
  else if String.eqb name "E_NO" || String.eqb name "E_SO2" then
    (* WRF-Chem unit: mol km-2 hr-1 *)
    weight ← dict_get var_dict name;
    Return (arith (fun f => zip2d (to_mol_km2_hr hours weight) f area) <$> vars)
  else Return vars.

(** The loop [for k in kind: ds[name] += (ds[prefix_k] * table.sel(kind=k))
    .squeeze('time')], started from the array of zeros. *)
Definition disaggregate (vars : gmap string DataArray) (prefix : string)
    (table : list (list cell)) (zeros : list field) : result (list field) :=
  foldM (fun total k =>
           da ← getitem vars (prefix +:+ "_" +:+ k);
           factors ← sel_kind table k;
           sector ← squeeze_time (values da);
           Return (add_scaled total sector factors))
        zeros kind.

(** The data variables of the converted dataset as variables of the
    result, in their order, and the [drop_vars] of those whose name does
    not contain [E_]. *)
Definition as_hourly (da : DataArray) : HourlyVar :=
  mkHourlyVar (values da) (units_attr da).

Definition variables (names : list string) (vars : gmap string DataArray)
  : list (string * HourlyVar) :=
  omap (fun key => (fun da => (key, as_hourly da)) <$> vars !! key) names.

Definition drop_vars_without_E (d : list (string * HourlyVar))
  : list (string * HourlyVar) :=
  List.filter (fun kv => py_in "E_" kv.1) d.

Definition get_ds (days : Z) (csv : option (list (list R))) (area : list (list R))
    (ds : Dataset) (name : string) (var_dict : list (string * Z)) (mm : Z)
  : result (EmiDataset * list LogRecord) :=
  (* the fill value is read from the industry variable *)
  last ← py_last (py_split "_" name);
  let varname := if String.eqb name "E_NO" then last +:+ "x_Industry"
                 else last +:+ "_Industry" in
  (* subset data to selected month *)
  industry ← getitem (data_vars ds) varname;
  missing ← getitem (attrs industry) "MissingValue";
  let vars := map_values (map2d (where_ne missing)) <$> data_vars ds in
  let vars := sel_month (time_month ds) mm <$> vars in
  vars ← convert_units days area name var_dict vars;
  (* read hourly factor table *)
  '(table, log) ← read_table csv;
  let zeros := replicate 24 (full (length (lat ds)) (length (lon ds)) (Some 0%R)) in
  (* multiply data by hourly factor and sum to total *)
  prefix ← py_last2 (py_split "_" varname);
  total ← disaggregate vars prefix table zeros;
  (* drop 'kind' variables *)
  let units := if String.eqb name "E_PM25" then Some "ug/m3 m/s"
               else if String.eqb name "E_NO" || String.eqb name "E_SO2"
                    then Some "mol km-2 hr-1"
               else None in
  let kept := drop_vars_without_E
                (dict_set (variables (var_names ds) vars) name
                          (mkHourlyVar total units)) in
  let '(lon2d, lat2d) := meshgrid (lon ds) (lat ds) in
  Return ({| emi_vars := kept; longitude := lon2d; latitude := lat2d |}, log).

(** ** get_info *)

Definition wrf_projs : list (Z * string) :=
  [(1, "lcc"); (2, "npstere"); (3, "merc"); (6, "eqc")]%Z.

Fixpoint wrf_projs_get (d : list (Z * string)) (key : Z) : result string :=
  match d with
  | [] => Raise (KeyError "MAP_PROJ")
  | (k, v) :: d' => if (k =? key)%Z then Return v else wrf_projs_get d' key
  end.

(** The global attributes of [geo_em.d<domain>.nc] that [get_info] reads. *)
Record GeoAttrs : Type := mkGeo {
  i_parent_end : Z;
  j_parent_end : Z;
  DX : R;
  DY : R;
  MAP_PROJ : Z;
  MOAD_CEN_LAT : R;
  STAND_LON : R;
  TRUELAT1 : R;
  TRUELAT2 : R
}.

(** The arguments of [AreaDefinition.from_circle]. *)
Record AreaDefinition : Type := mkArea {
  area_id : string;
  proj : string;
  lat_0 : R;
  lon_0 : R;
  lat_1 : R;
  lat_2 : R;
  proj_a : R;
  proj_b : R;
  center : R * R;
  radius : R * R;
  shape : Z * Z
}.

Definition get_info (geo : GeoAttrs) : result AreaDefinition :=
  let i := i_parent_end geo in
  let j := j_parent_end geo in
  let shape := (j, i) in
  let radius := (IZR i * DX geo / 2, IZR j * DY geo / 2)%R in
  p ← wrf_projs_get wrf_projs (MAP_PROJ geo);
  Return {| area_id := "wrf_circle"; proj := p;
            lat_0 := MOAD_CEN_LAT geo; lon_0 := STAND_LON geo;
            lat_1 := TRUELAT1 geo; lat_2 := TRUELAT2 geo;
            proj_a := 6370000; proj_b := 6370000;
            center := (0, 0)%R; radius := radius; shape := shape |}.

(** ** read_vito *)

(** [ds[names]]: the dataset restricted to the listed variables. *)
Definition select (ds : Dataset) (names : list string) : result Dataset :=
  vars ← mapR (fun n => da ← getitem (data_vars ds) n; Return (n, da)) names;
  Return {| ds_attrs := ds_attrs ds; time_month := time_month ds;
            lat := lat ds; lon := lon ds;
            data_vars := list_to_map vars; var_names := names |}.

Definition types : list string :=
  ["Industry"; "Energy"; "Traffic"; "Residential"; "Fires"].

(** molecular weights *)
Definition var_dict : list (string * Z) := [("E_NO", 14%Z); ("E_SO2", 64%Z)].

(** The name of the variable of sector [k] for a species: the list
    comprehensions of [read_vito]. *)
Definition sector_key (name k : string) : string :=
  if String.eqb name "E_NO" then py_from 2 name +:+ "x_" +:+ k
  else py_from 2 name +:+ "_" +:+ k.

(** The statistics of the debug records: [a.min()], [a.max()] and
    [a.mean()] skip the elements that are NaN, and [a.min()] raises on
    an array without elements. *)
Definition flat (a : list field) : list cell := concat (concat a).

Definition nanmin (l : list cell) : cell :=
  foldr (fun x acc => match x, acc with
                      | Some a, Some b => Some (Rmin a b)
                      | Some a, None => Some a
                      | None, _ => acc
                      end) None l.

Definition nanmax (l : list cell) : cell :=
  foldr (fun x acc => match x, acc with
                      | Some a, Some b => Some (Rmax a b)
                      | Some a, None => Some a
                      | None, _ => acc
                      end) None l.

Definition nanmean (l : list cell) : cell :=
  match omap (fun x : cell => x) l with
  | [] => None
  | xs => Some (Rsum xs / INR (length xs))%R
  end.

Section Logging.

(** [str] of a float, as it appears in a log message. *)
Variable float_str : cell -> string.

(** [' '*8 + ' min: ' + str(a.min().values) + ' max: ' +
    str(a.max().values) + ' mean ' + str(a.mean().values)] *)
Definition stats_message (a : list field) : result string :=
  match flat a with
  | [] => Raise (ValueError "zero-size array to reduction operation fmin which has no identity")
  | l => Return ("        " +:+ " min: " +:+ float_str (nanmin l) +:+
                 " max: " +:+ float_str (nanmax l) +:+
                 " mean " +:+ float_str (nanmean l))
  end.


(** One pass of the loop over the species of [var_dict].  The state is
    what [self] holds of [calc_area] and [get_ds] so far, and the log
    records so far. *)
Definition read_species (days : Z) (csv : option (list (list R))) (mm : Z)
    (ds : Dataset) (self : option (Geometry * EmiDataset) * list LogRecord)
    (name : string)
  : result (option (Geometry * EmiDataset) * list LogRecord) :=
  let info := mkLog INFO ("        Map to " +:+ name +:+ " species") in
  let species := sector_key name <$> types in
  ds_var ← select ds species;
  '(geom, emi, log) ←
    match self.1 with
    | None =>
        (* just read lon/lat once *)
        geom ← calc_area ds_var;
        '(emi, log) ← get_ds days csv (emi_area geom) ds_var name var_dict mm;
        Return (geom, emi, log)
    | Some (geom, emi) =>
        '(new, log) ← get_ds days csv (emi_area geom) ds_var name var_dict mm;
        v ← dict_get (emi_vars new) name;
        Return (geom, {| emi_vars := dict_set (emi_vars emi) name v;
                         longitude := longitude emi;
                         latitude := latitude emi |}, log)
    end;
  v ← dict_get (emi_vars emi) name;
  stats ← stats_message (hv_values v);
  Return (Some (geom, emi), (self.2 ++ info :: log ++ [mkLog DEBUG stats])%list).

Definition read_vito (days : Z) (csv : option (list (list R))) (mm : Z)
    (ds : Dataset)
  : result (option (Geometry * EmiDataset) * list LogRecord) :=
  foldM (read_species days csv mm ds) (None, []) (fst <$> var_dict).

End Logging.

(** ** The variables of [self.chemi] and of the [wrfchemi] files *)

Inductive AttrValue : Type := AInt (z : Z) | AStr (s : string).

(** A variable of a WRF-Chem emission file: the character variable
    [Times], or a field with dimensions [Time], [emissions_zdim],
    [south_north], [west_east]. *)
Inductive NcVariable : Type :=
  | TimesVar (stamps : list string)
  | FieldVar (data : list (list field)) (vattrs : list (string * AttrValue)).

Definition dims (v : NcVariable) : list (string * nat) :=
  match v with
  | TimesVar stamps => [("Time", length stamps)]
  | FieldVar data _ =>
      let lev := default [] (head data) in
      let rows := default [] (head lev) in
      [("Time", length data); ("emissions_zdim", length lev);
       ("south_north", length rows); ("west_east", length (default [] (head rows)))]
  end.

(** Two variables of one dataset give the same size to a dimension they
    share. *)
Definition sizes_agree (v w : NcVariable) : bool :=
  forallb (fun dv =>
             forallb (fun dw => negb (String.eqb dv.1 dw.1) || (dv.2 =? dw.2)%nat)
                     (dims w))
          (dims v).

(** [ds[name] = v]: xarray refuses a variable whose dimension sizes
    conflict with those of the variables of the dataset, the one it
    replaces included. *)
Definition setitem (ds : gmap string NcVariable) (name : string) (v : NcVariable)
  : result (gmap string NcVariable) :=
  if decide (map_Forall (fun _ w => sizes_agree v w = true) ds)
  then Return (<[name := v]> ds)
  else Raise (ValueError "conflicting sizes for dimension").

(** [l[idx]] with an array of indices: an [IndexError] out of range. *)
Definition take_indices {A} (l : list A) (idx : list nat) : result (list A) :=
  mapR (fun i => match l !! i with
                 | Some x => Return x
                 | None => Raise IndexError
                 end) idx.

(** [v.isel(Time=idx)] *)
Definition isel_Time (v : NcVariable) (idx : list nat) : result NcVariable :=
  match v with
  | TimesVar stamps => TimesVar <$> take_indices stamps idx
  | FieldVar data at_ => (fun d => FieldVar d at_) <$> take_indices data idx
  end.

(** ** resample_WRF *)

Record SwathDefinition : Type := mkSwath {
  lons : list (list R);
  lats : list (list R)
}.

(** [timedelta(hours=1)], a datetime being a count of microseconds. *)
Definition one_hour : Z := 3600000000.

(** [datetime.min] and [datetime.max], as microseconds since
    0001-01-01 00:00:00: the 3652059 days of the years 1 to 9999.  The
    generator below is the source's for as long as [curr += delta] stays
    between them; outside, the source raises [OverflowError]. *)
Definition datetime_min : Z := 0.
Definition datetime_max : Z := 3652059 * 24 * one_hour - 1.

(** The generator [perdelta], run to its end: [None] when [fuel]
    iterations of the [while] loop do not reach it. *)
Fixpoint perdelta (fuel : nat) (start end_ delta : Z) : option (list Z) :=
  match fuel with
  | O => None
  | S fuel' =>
      let curr := start in
      if (curr <=? end_)%Z
      then cons curr <$> perdelta fuel' (curr + delta)%Z end_ delta
      else Some []
  end.

(** The files the program reads and writes. *)
Record FileSystem : Type := mkFS {
  dirs : gset string;
  files : gmap string (gmap string NcVariable)
}.

Record World : Type := mkWorld {
  geo_em : option GeoAttrs;
  vito_nc : option Dataset;
  hourly_factor_csv : option (list (list R));
  fs : FileSystem
}.

Section Pipeline.

(** [strftime(format, t.timetuple())] *)
Variable strftime : string -> Z -> string.

(** [str] of a float, as it appears in a log message. *)
Variable float_str : cell -> string.

(** pyresample: [resample_nearest(source, data, target,
    radius_of_influence, fill_value)], [resample_custom(source, data,
    target, radius_of_influence, neighbours, weight_funcs, fill_value)]
    and [resample_bilinear(data, source, target, radius, neighbours,
    nprocs, reduce_data, segments, fill_value, epsilon)]. *)
Variable resample_nearest :
  SwathDefinition -> field -> AreaDefinition -> R -> R -> result field.
Variable resample_custom :
  SwathDefinition -> field -> AreaDefinition -> R -> Z -> (cell -> cell) -> R
  -> result field.
Variable resample_bilinear :
  field -> SwathDefinition -> AreaDefinition -> R -> Z -> Z -> bool ->
  option Z -> R -> R -> result field.

Variable cfg : Config.

(** One hour slice through the configured method; [None] when the
    method is none of the three, in which case nothing is appended. *)
Definition resample_slice (orig_def : SwathDefinition) (area_def : AreaDefinition)
    (slice : field) : result (option field) :=
  if String.eqb (resample_method cfg) "nearest" then
    Some <$> resample_nearest orig_def slice area_def 100000%R 0%R
  else if String.eqb (resample_method cfg) "idw" then
    Some <$> resample_custom orig_def slice area_def 100000%R 10%Z
               (fun r => cdiv (Some 1%R) (cmul r r)) 0%R
  else if String.eqb (resample_method cfg) "bilinear" then
    Some <$> resample_bilinear slice orig_def area_def 100000%R 10%Z 4%Z true
               None 0%R 0%R
  else Return None.

(** The loop over the species of [self.emi]. *)
Definition resample_species (orig_def : SwathDefinition) (area_def : AreaDefinition)
    (emi : EmiDataset) (chemi : gmap string NcVariable) (item : string * HourlyVar)
  : result (gmap string NcVariable) :=
  let '(vname, hv) := item in
  if py_in "E_" vname then
    slices ← mapR (resample_slice orig_def area_def) (hv_values hv);
    let resampled_list := omap (fun s : option field => s) slices in
    (* combine 2d array list to one 3d, flip it, add the level axis *)
    if decide (resampled_list = []) then
      Raise (ValueError "need at least one array to concatenate")
    else
      let resampled_data := (fun sl : field => [reverse sl]) <$> resampled_list in
      chemi ← setitem chemi vname (FieldVar resampled_data []);
      hv' ← dict_get (emi_vars emi) vname;
      units ← match hv_units hv' with
              | Some u => Return u
              | None => Raise (KeyError "units")
              end;
      let v_attrs := [("FieldType", AInt 104); ("MemoryOrder", AStr "XYZ");
                      ("description", AStr vname); ("stagger", AStr "");
                      ("coordinates", AStr "XLONG XLAT"); ("units", AStr units)] in
      Return (<[vname := FieldVar resampled_data v_attrs]> chemi)
  else Return chemi.

Definition resample_WRF (fuel : nat) (area_def : AreaDefinition) (emi : EmiDataset)
    (st et delta : Z) : option (result (gmap string NcVariable)) :=
  (* generate date every hour *)
  datetime_list ← perdelta fuel st et one_hour;
  let t_format := "%Y-%m-%d_%H:%M:%S" in
  let Times := strftime t_format <$> datetime_list in
  let chemi : gmap string NcVariable := {[ "Times" := TimesVar Times ]} in
  (* resample *)
  let orig_def := {| lons := longitude emi; lats := latitude emi |} in
  Some (foldM (resample_species orig_def area_def emi) chemi (emi_vars emi)).

(** ** replace_var *)

(** two period *)
Definition tindex : list (list nat) := [seq 0 12; seq 12 12].

(** [ds.to_netcdf(file)].  [opened] are the files that datasets read
    with [xr.open_dataset] still hold open: a dataset is loaded lazily,
    and a file that is open for reading cannot be written. *)
Definition to_netcdf (fs : FileSystem) (opened : list string) (file : string)
    (ds : gmap string NcVariable) : result FileSystem :=
  if decide (file ∈ opened) then Raise PermissionError
  else Return {| dirs := dirs fs; files := <[file := ds]> (files fs) |}.

Definition replace_file (chemi : gmap string NcVariable)
    (state : FileSystem * list string) (item : nat * string)
  : result (FileSystem * list string) :=
  let '(index, file) := item in
  let '(fs, stdout) := state in
  match files fs !! file with
  | Some ds =>
      (* ds = xr.open_dataset(file) *)
      let opened := [file] in
      window ← match tindex !! index with
               | Some w => Return w
               | None => Raise IndexError
               end;
      no ← getitem chemi "E_NO";
      no ← isel_Time no window;
      ds ← setitem ds "E_NO" no;
      so2 ← getitem chemi "E_SO2";
      so2 ← isel_Time so2 window;
      ds ← setitem ds "E_SO2" so2;
      fs ← to_netcdf fs opened file ds;
      Return (fs, stdout)
  | None =>
      Return (fs, (stdout ++ ["!!! Please run mozcart.py first !!!"])%list)
  end.

Definition replace_var (chemi : gmap string NcVariable) (fs : FileSystem)
  : result (FileSystem * list string) :=
  let fs := if decide (output_dir cfg ∈ dirs fs) then fs
            else {| dirs := {[ output_dir cfg ]} ∪ dirs fs; files := files fs |} in
  foldM (replace_file chemi) (fs, [])
        (zip (seq 0 2) [output_dir cfg +:+ "wrfchemi_00z_" +:+ domain cfg;
                        output_dir cfg +:+ "wrfchemi_12z_" +:+ domain cfg]).

(** ** __init__ *)

(** [days], the module-level [monthrange(yyyy, mm)[1]], is read by
    [get_ds]. *)
Definition vito_init (fuel : nat) (days : Z) (world : World) (st et delta : Z)
  : option (result (FileSystem * list string)) :=
  let before :=
    geo ← match geo_em world with Some g => Return g | None => Raise OSError end;
    area_def ← get_info geo;
    ds ← match vito_nc world with Some d => Return d | None => Raise OSError end;
    self ← read_vito float_str days (hourly_factor_csv world) (mm cfg) ds;
    match self.1 with
    | Some (_, emi) => Return (area_def, emi)
    | None => Raise (KeyError "emi")
    end in
  match before with
  | Raise e => Some (Raise e)
  | Return (area_def, emi) =>
      chemi ← resample_WRF fuel area_def emi st et delta;
      Some (chemi ← chemi; replace_var chemi (fs world))
  end.

End Pipeline.

(** Sample [j] of [np.linspace(a, b, n + 1)]. *)
Definition lin (a b : R) (n j : nat) : R := (a + INR j * ((b - a) / INR n))%R.

(** ** Example inputs *)

(** The global attributes of an inventory bounded by the given edges. *)
Definition band_attrs (westb eastb northb southb : R) : gmap string R :=
  <["grid_westb" := westb]> (<["grid_eastb" := eastb]>
    (<["grid_northb" := northb]> (<["grid_southb" := southb]> ∅))).

Definition ds_band : Dataset :=
  {| ds_attrs := band_attrs 100 102 31 30; time_month := [7%Z];
     lat := [30.75%R; 30.25%R]; lon := [100.5%R; 101.5%R];
     data_vars := ∅; var_names := [] |}.

Definition ds_flat : Dataset :=
  {| ds_attrs := band_attrs 100 100 31 30; time_month := [7%Z];
     lat := [30.75%R; 30.25%R]; lon := [100%R; 100%R];
     data_vars := ∅; var_names := [] |}.

(** The mean of the 24 hourly factors of a sector. *)
Definition mean24 (l : list cell) : cell := cdiv (csum l) (Some 24%R).

(** A raw table with column [k] multiplied by [c]. *)
Definition scale_column (c : R) (k : nat) (rows : list (list R)) : list (list R) :=
  (fun row => alter (Rmult c) k row) <$> rows.

(** A raw factor table whose sectors have different scales. *)
Definition raw_table : list (list R) := replicate 24 [2; 4; 6; 8; 10]%R.

(** The configuration of the source file, a resampled dataset of 24
    hours on a grid of one cell, a baseline file of 12 hours on the same
    grid, and two file systems: one with the first baseline file, one
    with none. *)
Definition cfg0 : Config :=
  {| yyyy := 2019; mm := 7; dd := 25; resample_method := "bilinear";
     domain := "d01"; output_dir := "../output_files/" |}.

Definition chemi0 : gmap string NcVariable :=
  <["E_NO" := FieldVar (replicate 24 [[[Some 1%R]]]) []]>
    (<["E_SO2" := FieldVar (replicate 24 [[[Some 2%R]]]) []]>
       {[ "Times" := TimesVar (replicate 24 "2019-07-25") ]}).

Definition baseline0 : gmap string NcVariable :=
  <["E_CO" := FieldVar (replicate 12 [[[Some 5%R]]]) []]>
    (<["E_NO" := FieldVar (replicate 12 [[[Some 7%R]]]) []]>
       {[ "Times" := TimesVar (replicate 12 "2019-07-25") ]}).

Definition fs_baseline : FileSystem :=
  {| dirs := {[ "../output_files/" ]};
     files := {[ "../output_files/wrfchemi_00z_d01" := baseline0 ]} |}.

Definition fs_empty : FileSystem := {| dirs := ∅; files := ∅ |}.

(** The datetimes [start, start + delta, ...] not after [end_]. *)
Definition datetimes (start end_ delta : Z) : list Z :=
  if (start <=? end_)%Z
  then (fun i => start + Z.of_nat i * delta)%Z
       <$> seq 0 (Z.to_nat ((end_ - start) / delta) + 1)
  else [].

(** [a[h, j, i]] as an optional value. *)
Definition at3 {A} (a : list (list (list A))) (h j i : nat) : option A :=
  a !! h ≫= fun f => at2 f j i.

(** The factor of sector [k] at hour [h] in a table. *)
Definition factor (table : list (list cell)) (h : nat) (k : string) : cell :=
  match list_find (fun x => x = k) kind with
  | Some (c, _) => nth c (nth h table []) None
  | None => None
  end.

(** The sum over the sectors [ks], in the order of the loop and started
    from [x], of value times factor. *)
Definition sector_sum (x : cell) (c t : string -> cell) (ks : list string) : cell :=
  foldl (fun acc k => cadd acc (cmul (c k) (t k))) x ks.

(** Five converted sector variables on a grid of one cell: the value 10
    for [Industry] and 0 for the other sectors. *)
Definition one_cell (v : R) : DataArray :=
  {| values := [[[Some v]]]; attrs := {[ "MissingValue" := (-999)%R ]};
     units_attr := None |}.

Definition vars_industry : gmap string DataArray :=
  list_to_map [("NOx_Industry", one_cell 10); ("NOx_Energy", one_cell 0);
               ("NOx_Traffic", one_cell 0); ("NOx_Residential", one_cell 0);
               ("NOx_Fires", one_cell 0)].

Definition value_industry (k : string) : R :=
  if String.eqb k "Industry" then 10%R else 0%R.

Definition sector_industry (k : string) : field := [[Some (value_industry k)]].

(** One element through the masking and the unit conversion of [get_ds]. *)
Definition converted (days weight : Z) (missing : R) (area : list (list R))
    (f : field) : field :=
  zip2d (to_mol_km2_hr (days * 24) weight) (map2d (where_ne missing) f) area.

(** The molecular weights that [read_vito] gives to [get_ds]. *)
Definition species_weight (name : string) (weight : Z) : Prop :=
  (name = "E_NO" /\ weight = 14%Z) \/ (name = "E_SO2" /\ weight = 64%Z).

(** The variables of the inventory through the masking, the selection
    of the month and the unit conversion of [get_ds] for a species of
    weight [weight]; and the variables that [get_ds] returns for the
    species [name] with the hourly array [total]: [name] and every other
    variable whose name contains [E_], in the order of the dataset. *)
Definition converted_vars (days weight : Z) (missing : R) (area : list (list R))
    (ds : Dataset) (mm : Z) : gmap string DataArray :=
  arith (fun f => zip2d (to_mol_km2_hr (days * 24) weight) f area) <$>
    (sel_month (time_month ds) mm <$>
       (map_values (map2d (where_ne missing)) <$> data_vars ds)).

Definition kept_vars (days weight : Z) (missing : R) (area : list (list R))
    (ds : Dataset) (mm : Z) (name : string) (total : list field)
  : list (string * HourlyVar) :=
  drop_vars_without_E
    (dict_set (variables (var_names ds) (converted_vars days weight missing area ds mm))
              name (mkHourlyVar total (Some "mol km-2 hr-1"))).

(** The shape of a successful [get_ds] for a species named [name],
    whose weight is [weight]. *)
Definition get_ds_returns (days : Z) (csv : option (list (list R)))
    (area : list (list R)) (ds : Dataset) (name : string) (weight : Z) (mm : Z)
    (missing : R) (raw : string -> field) (table : list (list cell))
    (log : list LogRecord) : Prop :=
  exists total,
    get_ds days csv area ds name var_dict mm =
      Return ({| emi_vars := kept_vars days weight missing area ds mm name total;
                 longitude := (meshgrid (lon ds) (lat ds)).1;
                 latitude := (meshgrid (lon ds) (lat ds)).2 |}, log) /\
    dict_get (kept_vars days weight missing area ds mm name total) name =
      Return (mkHourlyVar total (Some "mol km-2 hr-1")) /\
    (forall key hv,
       (key, hv) ∈ kept_vars days weight missing area ds mm name total ->
       py_in "E_" key = true) /\
    ((forall key, key ∈ var_names ds -> py_in "E_" key = false) ->
     kept_vars days weight missing area ds mm name total =
       [(name, mkHourlyVar total (Some "mol km-2 hr-1"))]) /\
    length total = 24 /\
    forall h j i (c : string -> cell),
      h < 24 -> j < length (lat ds) -> i < length (lon ds) ->
      (forall k, k ∈ kind ->
         at2 (converted days weight missing area (raw k)) j i = Some (c k)) ->
      at3 total h j i = Some (sector_sum (Some 0%R) c (factor table h) kind).

(** The end-to-end scenario: an inventory on a 2 by 2 grid with cells
    of 1e6 m2, the value 10 for [Industry] and 0 for the other sectors,
    one time step in June; and the same inventory with the sentinel in
    one cell of [Traffic]. *)
Definition grid2x2 (v : R) : field := [[Some v; Some v]; [Some v; Some v]].

Definition sector_var (f : field) : DataArray :=
  {| values := [f]; attrs := {[ "MissingValue" := (-999)%R ]};
     units_attr := None |}.

Definition area2x2 : list (list R) := [[1e6; 1e6]; [1e6; 1e6]]%R.

Definition raw_industry (k : string) : field := grid2x2 (value_industry k).

Definition ds_industry : Dataset :=
  {| ds_attrs := band_attrs 100 102 31 30; time_month := [6%Z];
     lat := [30.75%R; 30.25%R]; lon := [100.5%R; 101.5%R];
     data_vars :=
       list_to_map [("NOx_Industry", sector_var (raw_industry "Industry"));
                    ("NOx_Energy", sector_var (raw_industry "Energy"));
                    ("NOx_Traffic", sector_var (raw_industry "Traffic"));
                    ("NOx_Residential", sector_var (raw_industry "Residential"));
                    ("NOx_Fires", sector_var (raw_industry "Fires"))];
     var_names := ["NOx_Industry"; "NOx_Energy"; "NOx_Traffic"; "NOx_Residential"; "NOx_Fires"] |}.



(** ** Shapes, and further example inputs *)

(** The attributes that [resample_WRF] gives to a species variable. *)
Definition v_attrs (vname units : string) : list (string * AttrValue) :=
  [("FieldType", AInt 104); ("MemoryOrder", AStr "XYZ");
   ("description", AStr vname); ("stagger", AStr "");
   ("coordinates", AStr "XLONG XLAT"); ("units", AStr units)].

(** The dimensions of a species variable of [T] hours on a target grid
    of [ny] by [nx] cells. *)
Definition wrf_dims (T ny nx : nat) : list (string * nat) :=
  [("Time", T); ("emissions_zdim", 1); ("south_north", ny); ("west_east", nx)].

(** Every variable of the dataset under construction is [Times] or a
    species variable on the target grid. *)
Definition on_grid (T ny nx : nat) (chemi : gmap string NcVariable) : Prop :=
  map_Forall (fun _ w => dims w = wrf_dims T ny nx \/ dims w = [("Time", T)]) chemi.

(** The dataset under construction holds [Times] and, besides, only
    variables with one level and as many hours as [Times]. *)
Definition hours_of (stamps : list string) (chemi : gmap string NcVariable) : Prop :=
  chemi !! "Times" = Some (TimesVar stamps) /\
  forall k w, chemi !! k = Some w -> k <> "Times" ->
    exists data at_, w = FieldVar data at_ /\ length data = length stamps /\
      Forall (fun lev => length lev = 1) data.

(** A 4-D array whose hours all have one level of [ny] rows of [nx]
    cells. *)
Definition on_levels (ny nx : nat) (data : list (list field)) : Prop :=
  Forall (fun lev => exists rows, lev = [rows] /\ length rows = ny /\
                       Forall (fun row => length row = nx) rows) data.

(** A file system with both baseline files. *)
Definition fs_both : FileSystem :=
  {| dirs := {[ "../output_files/" ]};
     files := <["../output_files/wrfchemi_12z_d01" := baseline0]>
                {[ "../output_files/wrfchemi_00z_d01" := baseline0 ]} |}.

(** A target area of one cell, and the emissions of two species on a
    grid of one cell, constant over the 24 hours. *)
Definition area0 : AreaDefinition :=
  {| area_id := "wrf_circle"; proj := "lcc"; lat_0 := 30; lon_0 := 100;
     lat_1 := 30; lat_2 := 60; proj_a := 6370000; proj_b := 6370000;
     center := (0, 0)%R; radius := (13500, 13500)%R; shape := (1, 1)%Z |}.

Definition emi0 : EmiDataset :=
  {| emi_vars :=
       [("E_NO", mkHourlyVar (replicate 24 [[Some 1%R]]) (Some "mol km-2 hr-1"));
        ("E_SO2", mkHourlyVar (replicate 24 [[Some 2%R]]) (Some "mol km-2 hr-1"))];
     longitude := [[100%R]]; latitude := [[30%R]] |}.

(** Stand-ins for [strftime], for [str] on a float and for the
    functions of pyresample: every datetime is formatted alike, every
    number is printed alike, and a slice on the grid of one cell is
    resampled to itself. *)
Definition strftime0 : string -> Z -> string := fun _ _ => "2019-07-25_00:00:00".
Definition float_str0 : cell -> string :=
  fun c => match c with Some _ => "0.0" | None => "nan" end.
Definition nearest0 : SwathDefinition -> field -> AreaDefinition -> R -> R -> result field :=
  fun _ data _ _ _ => Return data.
Definition custom0 :
  SwathDefinition -> field -> AreaDefinition -> R -> Z -> (cell -> cell) -> R
  -> result field :=
  fun _ data _ _ _ _ _ => Return data.
Definition bilinear0 :
  field -> SwathDefinition -> AreaDefinition -> R -> Z -> Z -> bool ->
  option Z -> R -> R -> result field :=
  fun data _ _ _ _ _ _ _ _ _ => Return data.








(** * Properties *)
(** ** Lists and sums *)

Lemma at2_fmap_seq {A} (f : nat -> nat -> A) (n m j i : nat) :
  j < n -> i < m ->
  at2 ((fun j => (fun i => f j i) <$> seq 0 m) <$> seq 0 n) j i = Some (f j i).
Proof.
  intros Hj Hi. unfold at2.
  rewrite list_lookup_fmap, lookup_seq_lt by done. simpl.
  by rewrite list_lookup_fmap, lookup_seq_lt.
Qed.

Lemma at2_Some_lt {A} (a : list (list A)) j i x :
  at2 a j i = Some x -> exists row, a !! j = Some row /\ row !! i = Some x.
Proof.
  unfold at2. destruct (a !! j) as [row|]; simpl; [eauto | done].
Qed.

Lemma Rsum_app l k : Rsum (l ++ k) = (Rsum l + Rsum k)%R.
Proof. unfold Rsum. induction l as [|x l IH]; simpl; [lra | rewrite IH; lra]. Qed.

Lemma Rsum_scale c (f : nat -> R) n s :
  Rsum ((fun i => c * f i)%R <$> seq s n) = (c * Rsum (f <$> seq s n))%R.
Proof.
  unfold Rsum.
  revert s. induction n as [|n IH]; intros s; csimpl; [ring | rewrite IH; ring].
Qed.

Lemma Rsum_telescope (u : nat -> R) n s :
  Rsum ((fun i => u i - u (S i))%R <$> seq s n) = (u s - u (s + n)%nat)%R.
Proof.
  unfold Rsum.
  revert s. induction n as [|n IH]; intros s; csimpl.
  - rewrite Nat.add_0_r. lra.
  - rewrite IH. replace (S s + n)%nat with (s + S n)%nat by lia. lra.
Qed.

Lemma Rsum_ext (f g : nat -> R) n s :
  (forall i, s <= i < s + n -> f i = g i) ->
  Rsum (f <$> seq s n) = Rsum (g <$> seq s n).
Proof.
  intros H. f_equal. apply list_fmap_ext. intros i x Hx.
  apply lookup_seq in Hx as [-> ?]. apply H. lia.
Qed.

Lemma Rsum_pos (f : nat -> R) n s :
  (forall i, s <= i < s + n -> (0 <= f i)%R) ->
  (0 <= Rsum (f <$> seq s n))%R.
Proof.
  unfold Rsum.
  revert s. induction n as [|n IH]; intros s H; csimpl; [lra|].
  specialize (IH (S s)). specialize (H s) as H0.
  assert (0 <= f s)%R by (apply H0; lia).
  assert (0 <= foldr Rplus 0 (f <$> seq (S s) n))%R
    by (apply IH; intros; apply H; lia).
  lra.
Qed.

(** ** linspace *)

Lemma length_linspace a b num : length (linspace a b num) = num.
Proof. unfold linspace. by rewrite length_fmap, length_seq. Qed.

Lemma lookup_linspace a b num i :
  i < num ->
  linspace a b num !! i = Some (a + INR i * ((b - a) / INR (num - 1)))%R.
Proof.
  intros Hi. unfold linspace. by rewrite list_lookup_fmap, lookup_seq_lt.
Qed.

Lemma nth_linspace a b num i :
  i < num ->
  nth i (linspace a b num) 0%R = (a + INR i * ((b - a) / INR (num - 1)))%R.
Proof. intros Hi. by apply nth_lookup_Some, lookup_linspace. Qed.

(** The first and the last sample are the two ends. *)
Lemma linspace_first a b n : nth 0 (linspace a b (n + 1)) 0%R = a.
Proof. rewrite nth_linspace by lia. simpl. lra. Qed.

Lemma linspace_last a b n : 0 < n -> nth n (linspace a b (n + 1)) 0%R = b.
Proof.
  intros Hn. rewrite nth_linspace by lia.
  replace (n + 1 - 1)%nat with n by lia.
  assert (INR n <> 0)%R by (apply not_0_INR; lia). field. done.
Qed.

(** ** The double loop of calc_area *)

Lemma area_loop_meshgrid lon_b lat_b :
  lat_b <> [] ->
  area_loop (meshgrid lon_b lat_b).1 (meshgrid lon_b lat_b).2 =
  (fun j =>
     (fun i => cell_area (nth i lon_b 0%R) (nth (i + 1) lon_b 0%R)
                         (nth j lat_b 0%R) (nth (j + 1) lat_b 0%R))
     <$> seq 0 (length lon_b - 1)) <$> seq 0 (length lat_b - 1).
Proof.
  intros Hne. unfold area_loop, meshgrid. simpl.
  rewrite length_fmap.
  assert (Hrow : forall j, j < length lat_b ->
            nth j ((fun _ : R => lon_b) <$> lat_b) [] = lon_b).
  { intros j Hj. destruct (lookup_lt_is_Some_2 lat_b j Hj) as [y Hy].
    apply nth_lookup_Some. by rewrite list_lookup_fmap, Hy. }
  rewrite Hrow by (destruct lat_b; [done | simpl; lia]).
  apply list_fmap_ext. intros j ? [-> Hj]%lookup_seq.
  apply list_fmap_ext. intros i ? [-> Hi]%lookup_seq. simpl.
  unfold idx2. rewrite Hrow by lia.
  assert (Hlat : forall j i, j < length lat_b -> i < length lon_b ->
            nth i (nth j ((fun yv : R => (fun _ : R => yv) <$> lon_b) <$> lat_b) [])
                0%R = nth j lat_b 0%R).
  { intros j' i' Hj' Hi'.
    destruct (lookup_lt_is_Some_2 lat_b j' Hj') as [y Hy].
    destruct (lookup_lt_is_Some_2 lon_b i' Hi') as [x Hx].
    rewrite (nth_lookup_Some _ _ _ ((fun _ : R => y) <$> lon_b))
      by (by rewrite list_lookup_fmap, Hy).
    rewrite (nth_lookup_Some _ _ _ y) by (by rewrite list_lookup_fmap, Hx).
    symmetry. by apply nth_lookup_Some. }
  rewrite !Hlat by lia. done.
Qed.

(** ** Cell areas *)

Lemma cap_area_diff y1 y2 :
  (cap_area y1 - cap_area y2 =
   2 * PI * 6370000 ^ 2 * (sin (y2 * Rad_per_Deg) - sin (y1 * Rad_per_Deg)))%R.
Proof. unfold cap_area, EARTH_RADIUS. simpl. lra. Qed.

Lemma sin_deg_lt x y :
  (-90 <= x)%R -> (x < y)%R -> (y <= 90)%R ->
  (sin (x * Rad_per_Deg) < sin (y * Rad_per_Deg))%R.
Proof.
  intros Hx Hxy Hy. pose proof PI_RGT_0 as Hpi. unfold Rad_per_Deg.
  apply sin_increasing_1; nra.
Qed.

Lemma lin_step a b n j :
  0 < n -> (lin a b n (S j) - lin a b n j = (b - a) / INR n)%R.
Proof. intros Hn. unfold lin. rewrite S_INR. lra. Qed.

Lemma lin_between a b n j :
  0 < n -> j <= n -> (a <= b)%R -> (a <= lin a b n j <= b)%R.
Proof.
  intros Hn Hj Hab. unfold lin.
  assert (0 < INR n)%R by (apply lt_0_INR; lia).
  assert (0 <= INR j <= INR n)%R by (split; [apply pos_INR | apply le_INR; lia]).
  assert (Hq : (INR j * ((b - a) / INR n) = (b - a) * (INR j / INR n))%R)
    by (field; lra).
  rewrite Hq.
  assert (0 < / INR n)%R by (apply Rinv_0_lt_compat; lra).
  assert (INR n * / INR n = 1)%R by (field; lra).
  unfold Rdiv. set (t := (INR j * / INR n)%R).
  assert (0 <= t <= 1)%R by (unfold t; nra).
  nra.
Qed.

Lemma lin_between' a b n j :
  0 < n -> j <= n -> (Rmin a b <= lin a b n j <= Rmax a b)%R.
Proof.
  intros Hn Hj. destruct (Rle_dec a b) as [Hab|Hab].
  - rewrite Rmin_left, Rmax_right by lra. by apply lin_between.
  - rewrite Rmin_right, Rmax_left by lra.
    assert (Hsym : lin a b n j = lin b a n (n - j)).
    { unfold lin. rewrite minus_INR by lia.
      assert (INR n <> 0)%R by (apply not_0_INR; lia). field. done. }
    rewrite Hsym. apply lin_between; [lia | lia | lra].
Qed.

Lemma nth_linspace_lin a b n j :
  j <= n -> nth j (linspace a b (n + 1)) 0%R = lin a b n j.
Proof.
  intros Hj. rewrite nth_linspace by lia. unfold lin.
  by replace (n + 1 - 1)%nat with n by lia.
Qed.

Lemma getitem_Return {V} (d : gmap string V) key v :
  getitem d key = Return v <-> d !! key = Some v.
Proof. unfold getitem. destruct (d !! key); split; congruence. Qed.

Lemma calc_area_Return ds g :
  calc_area ds = Return g ->
  exists westb eastb northb southb,
    ds_attrs ds !! "grid_westb" = Some westb /\
    ds_attrs ds !! "grid_eastb" = Some eastb /\
    ds_attrs ds !! "grid_northb" = Some northb /\
    ds_attrs ds !! "grid_southb" = Some southb /\
    emi_lon_b g = linspace westb eastb (length (lon ds) + 1) /\
    emi_lat_b g = linspace northb southb (length (lat ds) + 1) /\
    emi_area g =
      (fun j =>
         (fun i => cell_area (lin westb eastb (length (lon ds)) i)
                             (lin westb eastb (length (lon ds)) (i + 1))
                             (lin northb southb (length (lat ds)) j)
                             (lin northb southb (length (lat ds)) (j + 1)))
         <$> seq 0 (length (lon ds))) <$> seq 0 (length (lat ds)).
Proof.
  unfold calc_area. intros H.
  destruct (getitem (ds_attrs ds) "grid_westb") as [westb|] eqn:Hw; [|done].
  destruct (getitem (ds_attrs ds) "grid_eastb") as [eastb|] eqn:He; [|done].
  destruct (getitem (ds_attrs ds) "grid_northb") as [northb|] eqn:Hn; [|done].
  destruct (getitem (ds_attrs ds) "grid_southb") as [southb|] eqn:Hs; [|done].
  apply getitem_Return in Hw, He, Hn, Hs. simpl in H.
  exists westb, eastb, northb, southb.
  injection H as <-. simpl. repeat (split; [done|]).
  pose proof (area_loop_meshgrid (linspace westb eastb (length (lon ds) + 1))
                (linspace northb southb (length (lat ds) + 1))) as Hloop.
  simpl in Hloop. rewrite Hloop; clear Hloop.
  2: { intros Hnil. apply (f_equal length) in Hnil.
       rewrite length_linspace in Hnil. simpl in Hnil. lia. }
  rewrite !length_linspace.
  replace (length (lat ds) + 1 - 1)%nat with (length (lat ds)) by lia.
  replace (length (lon ds) + 1 - 1)%nat with (length (lon ds)) by lia.
  apply list_fmap_ext. intros j ? [-> Hj]%lookup_seq.
  apply list_fmap_ext. intros i ? [-> Hi]%lookup_seq. simpl.
  by rewrite !nth_linspace_lin by lia.
Qed.

Lemma Rsum_const (c : R) n s :
  Rsum ((fun _ => c) <$> seq s n) = (INR n * c)%R.
Proof.
  unfold Rsum. revert s. induction n as [|n IH]; intros s.
  - simpl. lra.
  - rewrite S_INR. csimpl. rewrite IH. lra.
Qed.

(** The width of a longitude step of [linspace]. *)
Lemma lon_width w e m i :
  0 < m ->
  Rabs (lin w e m i - lin w e m (i + 1)) = (Rabs (e - w) / INR m)%R.
Proof.
  intros Hm. replace (i + 1)%nat with (S i) by lia.
  pose proof (lin_step w e m i Hm) as Hs.
  assert (0 < INR m)%R by (apply lt_0_INR; lia).
  replace (lin w e m i - lin w e m (S i))%R with (- ((e - w) / INR m))%R by lra.
  rewrite Rabs_Ropp. unfold Rdiv. rewrite Rabs_mult.
  rewrite (Rabs_right (/ INR m)); [done|].
  apply Rle_ge, Rlt_le, Rinv_0_lt_compat. done.
Qed.

(** The height of a latitude step, with the sign of the direction. *)
Lemma lat_cap_descending n_ s_ n j :
  0 < n -> j < n -> (s_ < n_)%R -> (-90 <= s_)%R -> (n_ <= 90)%R ->
  let u := fun j => sin (lin n_ s_ n j * Rad_per_Deg) in
  Rabs (cap_area (lin n_ s_ n j) - cap_area (lin n_ s_ n (j + 1))) =
    (2 * PI * 6370000 ^ 2 * (u j - u (S j)))%R /\ (0 < u j - u (S j))%R.
Proof.
  intros Hn Hj Hlt Hs Hno u. replace (j + 1)%nat with (S j) by lia.
  rewrite cap_area_diff.
  pose proof (lin_step n_ s_ n j Hn) as Hstep.
  pose proof (lin_between' n_ s_ n j Hn ltac:(lia)) as Hb1.
  pose proof (lin_between' n_ s_ n (S j) Hn ltac:(lia)) as Hb2.
  rewrite Rmin_right, Rmax_left in Hb1, Hb2 by lra.
  assert (0 < INR n)%R by (apply lt_0_INR; lia).
  assert (0 < / INR n)%R by (by apply Rinv_0_lt_compat).
  assert ((s_ - n_) / INR n < 0)%R by (unfold Rdiv; nra).
  assert (Hsin : (u (S j) < u j)%R) by (apply sin_deg_lt; lra).
  split; [|lra].
  pose proof PI_RGT_0.
  rewrite Rabs_left; [fold (u j) (u (S j)); lra|].
  fold (u j) (u (S j)). nra.
Qed.

Lemma lat_cap_ascending n_ s_ n j :
  0 < n -> j < n -> (n_ < s_)%R -> (-90 <= n_)%R -> (s_ <= 90)%R ->
  let u := fun j => (- sin (lin n_ s_ n j * Rad_per_Deg))%R in
  Rabs (cap_area (lin n_ s_ n j) - cap_area (lin n_ s_ n (j + 1))) =
    (2 * PI * 6370000 ^ 2 * (u j - u (S j)))%R /\ (0 < u j - u (S j))%R.
Proof.
  intros Hn Hj Hlt Hs Hno u. replace (j + 1)%nat with (S j) by lia.
  rewrite cap_area_diff.
  pose proof (lin_step n_ s_ n j Hn) as Hstep.
  pose proof (lin_between' n_ s_ n j Hn ltac:(lia)) as Hb1.
  pose proof (lin_between' n_ s_ n (S j) Hn ltac:(lia)) as Hb2.
  rewrite Rmin_left, Rmax_right in Hb1, Hb2 by lra.
  assert (0 < INR n)%R by (apply lt_0_INR; lia).
  assert (0 < (s_ - n_) / INR n)%R.
  { unfold Rdiv. apply Rmult_lt_0_compat; [lra | by apply Rinv_0_lt_compat]. }
  assert (Hsin : (u (S j) < u j)%R).
  { unfold u. apply Ropp_lt_contravar. apply sin_deg_lt; lra. }
  split; [|lra].
  pose proof PI_RGT_0.
  unfold u in *. rewrite Rabs_right; [lra|]. nra.
Qed.

(** The sum of the grid of areas made by [calc_area]. *)
Lemma Rsum2_grid (A B : nat -> R) n m :
  Rsum2 ((fun j => (fun i => A j * B i / 360.0)%R <$> seq 0 m) <$> seq 0 n) =
  (Rsum (A <$> seq 0 n) * (Rsum (B <$> seq 0 m) / 360))%R.
Proof.
  unfold Rsum2. rewrite <- list_fmap_compose.
  rewrite (Rsum_ext _ (fun j => Rsum (B <$> seq 0 m) / 360 * A j)%R).
  - rewrite Rsum_scale. lra.
  - intros j _. simpl.
    rewrite (Rsum_ext _ (fun i => A j / 360 * B i)%R) by (intros; lra).
    rewrite Rsum_scale. lra.
Qed.

Lemma lat_caps_sum n_ s_ n :
  0 < n -> n_ <> s_ -> (-90 <= n_ <= 90)%R -> (-90 <= s_ <= 90)%R ->
  Rsum ((fun j => Rabs (cap_area (lin n_ s_ n j) - cap_area (lin n_ s_ n (j + 1))))
        <$> seq 0 n) =
  (2 * PI * 6370000 ^ 2 *
   Rabs (sin (n_ * Rad_per_Deg) - sin (s_ * Rad_per_Deg)))%R.
Proof.
  intros Hn Hne Hno Hso.
  assert (Hn0 : INR n <> 0%R) by (apply not_0_INR; lia).
  assert (H0 : lin n_ s_ n 0 = n_) by (unfold lin; simpl; lra).
  assert (Hl : lin n_ s_ n n = s_) by (unfold lin; field; done).
  destruct (Rlt_dec s_ n_) as [Hlt|Hge].
  - rewrite (Rsum_ext _ (fun j => 2 * PI * 6370000 ^ 2 *
        (sin (lin n_ s_ n j * Rad_per_Deg) - sin (lin n_ s_ n (S j) * Rad_per_Deg)))%R).
    2: { intros j Hj.
         by destruct (lat_cap_descending n_ s_ n j Hn ltac:(lia) Hlt
                        ltac:(lra) ltac:(lra)) as [-> _]. }
    rewrite Rsum_scale.
    rewrite (Rsum_telescope (fun j => sin (lin n_ s_ n j * Rad_per_Deg))).
    simpl. rewrite H0, Hl.
    pose proof (sin_deg_lt s_ n_ ltac:(lra) Hlt ltac:(lra)).
    rewrite Rabs_right by lra. done.
  - assert (Hlt : (n_ < s_)%R) by lra.
    rewrite (Rsum_ext _ (fun j => 2 * PI * 6370000 ^ 2 *
        (- sin (lin n_ s_ n j * Rad_per_Deg) - - sin (lin n_ s_ n (S j) * Rad_per_Deg)))%R).
    2: { intros j Hj.
         by destruct (lat_cap_ascending n_ s_ n j Hn ltac:(lia) Hlt
                        ltac:(lra) ltac:(lra)) as [-> _]. }
    rewrite Rsum_scale.
    rewrite (Rsum_telescope (fun j => - sin (lin n_ s_ n j * Rad_per_Deg))%R).
    simpl. rewrite H0, Hl.
    pose proof (sin_deg_lt n_ s_ ltac:(lra) Hlt ltac:(lra)).
    rewrite Rabs_left by lra. lra.
Qed.

Lemma lon_widths_sum w e m :
  0 < m ->
  Rsum ((fun i => Rabs (lin w e m i - lin w e m (i + 1))) <$> seq 0 m) =
  Rabs (e - w).
Proof.
  intros Hm.
  rewrite (Rsum_ext _ (fun _ => Rabs (e - w) / INR m)%R)
    by (intros; by apply lon_width).
  rewrite Rsum_const.
  assert (INR m <> 0%R) by (apply not_0_INR; lia). field. done.
Qed.

Lemma lat_cap_pos n_ s_ n j :
  0 < n -> j < n -> n_ <> s_ -> (-90 <= n_ <= 90)%R -> (-90 <= s_ <= 90)%R ->
  (0 < Rabs (cap_area (lin n_ s_ n j) - cap_area (lin n_ s_ n (j + 1))))%R.
Proof.
  intros Hn Hj Hne Hno Hso. pose proof PI_RGT_0.
  destruct (Rlt_dec s_ n_) as [Hlt|Hge].
  - destruct (lat_cap_descending n_ s_ n j Hn Hj Hlt ltac:(lra) ltac:(lra))
      as [-> Hpos]. nra.
  - destruct (lat_cap_ascending n_ s_ n j Hn Hj ltac:(lra) ltac:(lra) ltac:(lra))
      as [-> Hpos]. nra.
Qed.

(** With its four boundary attributes present, [calc_area] returns. *)
Lemma calc_area_total ds westb eastb northb southb :
  ds_attrs ds !! "grid_westb" = Some westb ->
  ds_attrs ds !! "grid_eastb" = Some eastb ->
  ds_attrs ds !! "grid_northb" = Some northb ->
  ds_attrs ds !! "grid_southb" = Some southb ->
  exists g, calc_area ds = Return g.
Proof.
  intros Hw He Hn Hs. unfold calc_area, getitem.
  rewrite Hw, He, Hn, Hs. simpl. eauto.
Qed.

(** C3: every cell area is the absolute difference of the two
    spherical-cap areas [2 pi R^2 (1 - sin lat)] at the cell's latitude
    edges (degrees turned into radians, [R = 6370000]) times
    [|dlon| / 360]; when the boundaries partition a latitude band (the two
    latitude ends differ and lie in [-90, 90], the two longitude ends
    differ) every area is positive and the areas sum to the area of the
    band between the two ends. *)
Theorem C3_cell_area_spherical_caps (ds : Dataset) (westb eastb northb southb : R) :
  ds_attrs ds !! "grid_westb" = Some westb ->
  ds_attrs ds !! "grid_eastb" = Some eastb ->
  ds_attrs ds !! "grid_northb" = Some northb ->
  ds_attrs ds !! "grid_southb" = Some southb ->
  exists g, calc_area ds = Return g /\
    (forall j i, j < length (lat ds) -> i < length (lon ds) ->
       exists ylat1 ylat2 xlon1 xlon2,
         emi_lat_b g !! j = Some ylat1 /\ emi_lat_b g !! (j + 1) = Some ylat2 /\
         emi_lon_b g !! i = Some xlon1 /\ emi_lon_b g !! (i + 1) = Some xlon2 /\
         at2 (emi_area g) j i =
           Some (Rabs (2 * PI * 6370000 ^ 2 * (1 - sin (ylat1 * (PI / 180)))
                       - 2 * PI * 6370000 ^ 2 * (1 - sin (ylat2 * (PI / 180))))
                 * (Rabs (xlon1 - xlon2) / 360))%R) /\
    (westb <> eastb -> northb <> southb ->
     (-90 <= northb <= 90)%R -> (-90 <= southb <= 90)%R ->
     (forall j i area, at2 (emi_area g) j i = Some area -> (0 < area)%R) /\
     (lat ds <> [] -> lon ds <> [] ->
      Rsum2 (emi_area g) =
        (2 * PI * 6370000 ^ 2
         * Rabs (sin (northb * (PI / 180)) - sin (southb * (PI / 180)))
         * (Rabs (eastb - westb) / 360))%R)).
Proof.
  intros Hw He Hn Hs.
  destruct (calc_area_total ds _ _ _ _ Hw He Hn Hs) as [g Hg].
  exists g. split; [done|].
  destruct (calc_area_Return ds g Hg)
    as (w & e & n & s & Hw' & He' & Hn' & Hs' & Hlon & Hlat & Harea).
  assert (w = westb) as -> by congruence. assert (e = eastb) as -> by congruence.
  assert (n = northb) as -> by congruence. assert (s = southb) as -> by congruence.
  set (nlat := length (lat ds)) in *. set (nlon := length (lon ds)) in *.
  split.
  - intros j i Hj Hi.
    exists (lin northb southb nlat j), (lin northb southb nlat (j + 1)),
           (lin westb eastb nlon i), (lin westb eastb nlon (i + 1)).
    rewrite Hlat, Hlon, !lookup_linspace by lia.
    replace (nlat + 1 - 1)%nat with nlat by lia.
    replace (nlon + 1 - 1)%nat with nlon by lia.
    repeat (split; [done|]).
    rewrite Harea, at2_fmap_seq by done. f_equal.
    unfold cell_area, cap_area, EARTH_RADIUS, Rad_per_Deg. cbv zeta.
    replace 180.0%R with 180%R by lra. replace 6370000.0%R with 6370000%R by lra.
    match goal with
    | |- (Rabs ?x * _ / _ = Rabs ?y * _)%R => replace x with y by lra
    end. lra.
  - intros Hwe Hns Hno Hso. split.
    + intros j i area Hat. rewrite Harea in Hat.
      destruct (at2_Some_lt _ _ _ _ Hat) as (row & Hrow & Hcell).
      rewrite list_lookup_fmap in Hrow.
      destruct (seq 0 nlat !! j) as [j'|] eqn:Hj; [|done].
      apply lookup_seq in Hj as [-> Hj]. simpl in Hrow.
      injection Hrow as <-. rewrite list_lookup_fmap in Hcell.
      destruct (seq 0 nlon !! i) as [i'|] eqn:Hi; [|done].
      apply lookup_seq in Hi as [-> Hi]. simpl in Hcell.
      injection Hcell as <-. unfold cell_area.
      pose proof (lat_cap_pos northb southb nlat j ltac:(lia) Hj Hns Hno Hso).
      rewrite lon_width by lia.
      assert (0 < Rabs (eastb - westb))%R by (apply Rabs_pos_lt; lra).
      assert (0 < / INR nlon)%R by (apply Rinv_0_lt_compat, lt_0_INR; lia).
      unfold Rdiv. repeat apply Rmult_lt_0_compat; try done; lra.
    + intros Hlatne Hlonne.
      assert (0 < nlat) by (unfold nlat; destruct (lat ds); [done | simpl; lia]).
      assert (0 < nlon) by (unfold nlon; destruct (lon ds); [done | simpl; lia]).
      rewrite Harea. unfold cell_area.
      rewrite (Rsum2_grid
                 (fun j => Rabs (cap_area (lin northb southb nlat j)
                                 - cap_area (lin northb southb nlat (j + 1))))
                 (fun i => Rabs (lin westb eastb nlon i - lin westb eastb nlon (i + 1)))).
      rewrite lat_caps_sum, lon_widths_sum by done.
      unfold Rad_per_Deg. replace 180.0%R with 180%R by lra. done.
Qed.

Lemma C3_cell_area_spherical_caps_witness :
  exists g, calc_area ds_band = Return g /\
    (forall j i area, at2 (emi_area g) j i = Some area -> (0 < area)%R) /\
    Rsum2 (emi_area g) =
      (2 * PI * 6370000 ^ 2
       * Rabs (sin (31 * (PI / 180)) - sin (30 * (PI / 180)))
       * (Rabs (102 - 100) / 360))%R.
Proof.
  destruct (C3_cell_area_spherical_caps ds_band 100 102 31 30
              eq_refl eq_refl eq_refl eq_refl) as (g & Hg & _ & H).
  exists g. split; [exact Hg|].
  destruct H as [Hpos Hsum]; [lra | lra | lra | lra |].
  split; [exact Hpos|]. apply Hsum; discriminate.
Defined.

Lemma cell_area_degenerate xlon1 xlon2 ylat1 ylat2 :
  xlon1 = xlon2 \/ ylat1 = ylat2 -> cell_area xlon1 xlon2 ylat1 ylat2 = 0%R.
Proof.
  unfold cell_area. intros [-> | ->].
  - rewrite Rminus_diag, Rabs_R0. lra.
  - rewrite Rminus_diag, Rabs_R0. lra.
Qed.

(** C8, as the code has it: [calc_area] checks nothing about the cells.
    With the four boundary attributes present it returns an area field,
    and a cell whose two longitude edges or two latitude edges coincide
    has area 0 in it. *)
Theorem C8_degenerate_cell_has_area_zero (ds : Dataset) (westb eastb northb southb : R) :
  ds_attrs ds !! "grid_westb" = Some westb ->
  ds_attrs ds !! "grid_eastb" = Some eastb ->
  ds_attrs ds !! "grid_northb" = Some northb ->
  ds_attrs ds !! "grid_southb" = Some southb ->
  exists g, calc_area ds = Return g /\
    forall j i ylat1 ylat2 xlon1 xlon2,
      emi_lat_b g !! j = Some ylat1 -> emi_lat_b g !! (j + 1) = Some ylat2 ->
      emi_lon_b g !! i = Some xlon1 -> emi_lon_b g !! (i + 1) = Some xlon2 ->
      xlon1 = xlon2 \/ ylat1 = ylat2 ->
      at2 (emi_area g) j i = Some 0%R.
Proof.
  intros Hw He Hn Hs.
  destruct (calc_area_total ds _ _ _ _ Hw He Hn Hs) as [g Hg].
  exists g. split; [done|].
  destruct (calc_area_Return ds g Hg)
    as (w & e & n & s & _ & _ & _ & _ & Hlon & Hlat & Harea).
  intros j i ylat1 ylat2 xlon1 xlon2 Hy1 Hy2 Hx1 Hx2 Hdeg.
  assert (Hj : j < length (lat ds)).
  { apply lookup_lt_Some in Hy2. rewrite Hlat, length_linspace in Hy2. lia. }
  assert (Hi : i < length (lon ds)).
  { apply lookup_lt_Some in Hx2. rewrite Hlon, length_linspace in Hx2. lia. }
  rewrite Hlat, lookup_linspace in Hy1, Hy2 by lia.
  rewrite Hlon, lookup_linspace in Hx1, Hx2 by lia.
  replace (length (lat ds) + 1 - 1)%nat with (length (lat ds)) in * by lia.
  replace (length (lon ds) + 1 - 1)%nat with (length (lon ds)) in * by lia.
  rewrite Harea, at2_fmap_seq by done. f_equal.
  apply cell_area_degenerate. unfold lin.
  injection Hy1 as ->. injection Hy2 as ->.
  injection Hx1 as ->. injection Hx2 as ->. done.
Qed.

Lemma C8_degenerate_cell_has_area_zero_witness :
  exists g, calc_area ds_flat = Return g /\
    forall j i ylat1 ylat2 xlon1 xlon2,
      emi_lat_b g !! j = Some ylat1 -> emi_lat_b g !! (j + 1) = Some ylat2 ->
      emi_lon_b g !! i = Some xlon1 -> emi_lon_b g !! (i + 1) = Some xlon2 ->
      xlon1 = xlon2 \/ ylat1 = ylat2 ->
      at2 (emi_area g) j i = Some 0%R.
Proof.
  apply (C8_degenerate_cell_has_area_zero ds_flat 100 100 31 30);
    reflexivity.
Defined.

(** The claim C8 fails on [ds_flat], whose west and east boundaries
    coincide: every cell has equal longitude edges, and [calc_area]
    returns an area field without any error. *)
Lemma C8_counterexample :
  exists g, calc_area ds_flat = Return g /\
    (exists xlon, emi_lon_b g !! 0 = Some xlon /\ emi_lon_b g !! 1 = Some xlon) /\
    ~ (exists e, calc_area ds_flat = Raise e).
Proof.
  eexists. split; [reflexivity|]. split.
  - exists 100%R. split; simpl; f_equal; lra.
  - intros [e He]. discriminate He.
Qed.

(** ** Arithmetic of array elements *)

Lemma cdiv_Some x y : y <> 0%R -> cdiv (Some x) (Some y) = Some (x / y)%R.
Proof. intros Hy. unfold cdiv. by destruct (Req_dec_T y 0). Qed.

Lemma cdiv_zero x y : y = 0%R -> cdiv (Some x) (Some y) = None.
Proof. intros Hy. unfold cdiv. by destruct (Req_dec_T y 0). Qed.

Lemma cdiv_None_l y : cdiv None y = None.
Proof. done. Qed.


Lemma cadd_None_r x : cadd x None = None.
Proof. by destruct x. Qed.

Lemma cmul_None_r x : cmul x None = None.
Proof. by destruct x. Qed.

(** ** The hourly factor table *)

Lemma table_shape_ok_spec rows :
  table_shape_ok rows = true <->
  length rows = 24 /\ forall h row, rows !! h = Some row -> length row = 5.
Proof.
  unfold table_shape_ok. rewrite andb_true_iff, Nat.eqb_eq, forallb_forall.
  split; intros [H24 Hrows]; (split; [done|]).
  - intros h row Hrow. apply Nat.eqb_eq, Hrows.
    apply list_elem_of_In. by eapply list_elem_of_lookup_2.
  - intros row [h Hrow]%list_elem_of_In%list_elem_of_lookup_1.
    apply Nat.eqb_eq. eauto.
Qed.

Lemma at2_normalize rows h k x :
  at2 rows h k = Some x ->
  at2 (normalize rows) h k =
    Some (cdiv (Some x) (cdiv (Some (Rsum (column 0%R k rows))) (Some 24%R))).
Proof.
  intros (row & Hrow & Hx)%at2_Some_lt. unfold at2, normalize.
  rewrite list_lookup_fmap, Hrow. simpl.
  by rewrite list_lookup_imap, Hx.
Qed.

Lemma column_normalize rows k :
  (forall h row, rows !! h = Some row -> k < length row) ->
  column None k (normalize rows) =
  (fun x => cdiv (Some x) (cdiv (Some (Rsum (column 0%R k rows))) (Some 24%R)))
  <$> column 0%R k rows.
Proof.
  intros Hlen. unfold column at 1 3, normalize.
  rewrite <- !list_fmap_compose. apply list_fmap_ext. intros h row Hrow. simpl.
  destruct (lookup_lt_is_Some_2 row k (Hlen _ _ Hrow)) as [x Hx].
  rewrite (nth_lookup_Some _ _ _ x Hx).
  apply nth_lookup_Some. by rewrite list_lookup_imap, Hx.
Qed.

Lemma csum_div (l : list R) q :
  q <> 0%R ->
  csum ((fun x => cdiv (Some x) (Some q)) <$> l) = Some (Rsum l / q)%R.
Proof.
  intros Hq. unfold csum, Rsum. induction l as [|x l IH].
  - simpl. f_equal. lra.
  - rewrite fmap_cons. cbn [foldr]. rewrite IH, cdiv_Some by done.
    simpl. f_equal. lra.
Qed.

Lemma mean24_normalize rows k :
  (forall h row, rows !! h = Some row -> k < length row) ->
  Rsum (column 0%R k rows) <> 0%R ->
  mean24 (column None k (normalize rows)) = Some 1%R.
Proof.
  intros Hlen Hsum. rewrite column_normalize by done.
  set (S := Rsum (column 0%R k rows)) in *.
  rewrite cdiv_Some by lra.
  unfold mean24. rewrite csum_div by lra.
  rewrite cdiv_Some by lra. f_equal. fold S. field. lra.
Qed.

Lemma Rsum_fmap_mult c (l : list R) : Rsum (Rmult c <$> l) = (c * Rsum l)%R.
Proof.
  unfold Rsum. induction l as [|x l IH]; csimpl; [lra | rewrite IH; lra].
Qed.

Lemma column_scale_eq c k rows :
  (forall h row, rows !! h = Some row -> k < length row) ->
  column 0%R k (scale_column c k rows) = Rmult c <$> column 0%R k rows.
Proof.
  intros Hlen. unfold column, scale_column.
  rewrite <- !list_fmap_compose. apply list_fmap_ext. intros h row Hrow. simpl.
  destruct (lookup_lt_is_Some_2 row k (Hlen _ _ Hrow)) as [x Hx].
  rewrite (nth_lookup_Some _ _ _ x Hx).
  apply nth_lookup_Some. by rewrite list_lookup_alter_eq, Hx.
Qed.

Lemma column_scale_ne c k k' rows :
  k <> k' -> column 0%R k' (scale_column c k rows) = column 0%R k' rows.
Proof.
  intros Hne. unfold column, scale_column.
  rewrite <- !list_fmap_compose. apply list_fmap_ext. intros h row Hrow. simpl.
  by rewrite !nth_lookup, list_lookup_alter_ne.
Qed.

Lemma lookup_scale_column c k rows h :
  scale_column c k rows !! h = alter (Rmult c) k <$> rows !! h.
Proof. unfold scale_column. by rewrite list_lookup_fmap. Qed.

Lemma cdiv_scale c x S :
  c <> 0%R ->
  cdiv (Some (c * x)%R) (cdiv (Some (c * S)%R) (Some 24%R)) =
  cdiv (Some x) (cdiv (Some S) (Some 24%R)).
Proof.
  intros Hc. rewrite !(cdiv_Some _ 24) by lra.
  destruct (Req_dec_T S 0) as [->|HS].
  - rewrite !cdiv_zero; [done | lra | lra].
  - assert (S / 24 <> 0)%R by (intros ?; lra).
    assert (c * S <> 0)%R by (by apply Rmult_integral_contrapositive).
    assert (c * S / 24 <> 0)%R by (intros ?; lra).
    rewrite !cdiv_Some by done. f_equal. field. lra.
Qed.

Lemma normalize_scale_column c k rows :
  (forall h row, rows !! h = Some row -> k < length row) ->
  c <> 0%R ->
  normalize (scale_column c k rows) = normalize rows.
Proof.
  intros Hlen Hc. apply list_eq. intros h. unfold normalize.
  rewrite !list_lookup_fmap, lookup_scale_column.
  destruct (rows !! h) as [row|] eqn:Hrow; [|done]. simpl. f_equal.
  apply list_eq. intros i. rewrite !list_lookup_imap.
  destruct (decide (k = i)) as [<-|Hne].
  - rewrite list_lookup_alter_eq. destruct (row !! k) as [x|]; [|done]. simpl.
    f_equal. rewrite column_scale_eq, Rsum_fmap_mult by done.
    by apply cdiv_scale.
  - rewrite list_lookup_alter_ne by done.
    destruct (row !! i) as [x|]; [|done]. simpl.
    by rewrite column_scale_ne.
Qed.

Lemma table_shape_ok_scale c k rows :
  table_shape_ok (scale_column c k rows) = table_shape_ok rows.
Proof.
  unfold table_shape_ok, scale_column. rewrite length_fmap. f_equal.
  induction rows as [|row rows IH]; [done|]. csimpl.
  by rewrite IH, length_alter.
Qed.

Lemma csum_None (l : list cell) : None ∈ l -> csum l = None.
Proof.
  unfold csum. induction l as [|x l IH]; intros Hin.
  - by apply elem_of_nil in Hin.
  - cbn [foldr]. apply elem_of_cons in Hin as [<-|Hin]; [done|].
    rewrite IH by done. apply cadd_None_r.
Qed.

Lemma at2_normalize_zero rows h k x :
  at2 rows h k = Some x -> Rsum (column 0%R k rows) = 0%R ->
  at2 (normalize rows) h k = Some None.
Proof.
  intros Hx Hsum. rewrite (at2_normalize _ _ _ _ Hx), Hsum.
  rewrite (cdiv_Some 0 24) by lra. f_equal. apply cdiv_zero. lra.
Qed.

Lemma mean24_normalize_zero rows k :
  (forall h row, rows !! h = Some row -> k < length row) ->
  rows <> [] ->
  Rsum (column 0%R k rows) = 0%R ->
  mean24 (column None k (normalize rows)) = None.
Proof.
  intros Hlen Hne Hsum. rewrite column_normalize, Hsum by done.
  rewrite (cdiv_Some 0 24) by lra. unfold mean24. rewrite csum_None; [done|].
  destruct rows as [|row rows]; [done|]. unfold column. rewrite !fmap_cons.
  rewrite cdiv_zero by lra. apply list_elem_of_here.
Qed.

(** C4, as the code has it: a table that loads (24 rows of 5 numbers)
    is divided, sector by sector, by (the sector's sum over the 24 hours
    / 24).  The mean of the 24 normalized factors of a sector whose raw
    factors do not sum to zero is 1, and multiplying a raw sector column
    by a positive constant leaves the normalized table unchanged.  A
    sector whose raw factors sum to zero is divided by zero: none of its
    24 normalized factors is finite, and it has no mean. *)
Theorem C4_table_normalized_to_mean_one (rows : list (list R)) :
  table_shape_ok rows = true ->
  exists table, read_table (Some rows) = Return (table, []) /\
    (forall h k x, at2 rows h k = Some x ->
       at2 table h k =
         Some (cdiv (Some x) (cdiv (Some (Rsum (column 0%R k rows))) (Some 24%R)))) /\
    (forall k, k < 5 -> Rsum (column 0%R k rows) <> 0%R ->
       mean24 (column None k table) = Some 1%R) /\
    (forall k, k < 5 -> Rsum (column 0%R k rows) = 0%R ->
       (forall h, h < 24 -> at2 table h k = Some None) /\
       mean24 (column None k table) = None) /\
    (forall k c, k < 5 -> (0 < c)%R ->
       read_table (Some (scale_column c k rows)) = Return (table, [])).
Proof.
  intros Hok. exists (normalize rows). unfold read_table. rewrite Hok.
  apply table_shape_ok_spec in Hok as [H24 H5].
  assert (Hlen : forall k, k < 5 ->
            forall h row, rows !! h = Some row -> k < length row).
  { intros k Hk h row Hrow. rewrite (H5 _ _ Hrow). done. }
  split; [done|]. split; [|split; [|split]].
  - intros h k x Hx. by apply at2_normalize.
  - intros k Hk Hsum. apply mean24_normalize; [by apply Hlen | done].
  - intros k Hk Hsum. split.
    + intros h Hh.
      destruct (lookup_lt_is_Some_2 rows h ltac:(lia)) as [row Hrow].
      destruct (lookup_lt_is_Some_2 row k (Hlen k Hk h row Hrow)) as [x Hx].
      apply (at2_normalize_zero rows h k x); [|done].
      unfold at2. by rewrite Hrow.
    + apply mean24_normalize_zero; [by apply Hlen | | done].
      intros ->. simpl in H24. lia.
  - intros k c Hk Hc. rewrite table_shape_ok_scale.
    assert (Hok : table_shape_ok rows = true) by (by apply table_shape_ok_spec).
    rewrite Hok. rewrite normalize_scale_column; [done | by apply Hlen | lra].
Qed.

Lemma C4_table_normalized_to_mean_one_witness :
  exists table, read_table (Some raw_table) = Return (table, []) /\
    mean24 (column None 1 table) = Some 1%R.
Proof.
  destruct (C4_table_normalized_to_mean_one raw_table eq_refl)
    as (table & Hread & _ & Hmean & _).
  exists table. split; [exact Hread|].
  apply Hmean; [lia|]. unfold raw_table, Rsum. simpl. lra.
Defined.

(** The claim C4 has every sector of a loaded table normalized to mean
    1.  A table whose first sector is 0 at every hour loads, and the
    normalized factors of that sector are not finite: their mean is not
    1. *)
Lemma C4_counterexample :
  exists table,
    read_table (Some (replicate 24 [0; 1; 1; 1; 1]%R)) = Return (table, []) /\
    at2 table 0 0 = Some None /\
    mean24 (column None 0 table) <> Some 1%R.
Proof.
  exists (normalize (replicate 24 [0; 1; 1; 1; 1]%R)).
  assert (Hsum : Rsum (column 0%R 0 (replicate 24 [0; 1; 1; 1; 1]%R)) = 0%R)
    by (unfold Rsum; simpl; lra).
  split; [reflexivity|]. split.
  - by apply (at2_normalize_zero _ 0 0 0%R).
  - rewrite mean24_normalize_zero; [done| |done|done].
    intros h row [-> _]%lookup_replicate. simpl. lia.
Qed.

Lemma csum_replicate (n : nat) (x : R) :
  csum (replicate n (Some x)) = Some (INR n * x)%R.
Proof.
  unfold csum. induction n as [|n IH].
  - simpl. f_equal. lra.
  - rewrite S_INR. cbn [replicate foldr]. rewrite IH. simpl. f_equal. lra.
Qed.

Lemma mean24_ones : mean24 (replicate 24 (Some 1%R)) = Some 1%R.
Proof.
  unfold mean24. rewrite csum_replicate, cdiv_Some by lra.
  f_equal. simpl. lra.
Qed.

(** C9, as the code has it: when [hourly_factor.csv] cannot be opened,
    reading the table does not fail; it gives the 24 by 5 table of ones,
    whose every sector has mean 1, and the only report is one log record
    of level INFO ([logging.info]). *)
Theorem C9_missing_table_defaults_to_ones :
  exists table msg,
    read_table None = Return (table, [mkLog INFO msg]) /\
    length table = 24 /\
    (forall h k, h < 24 -> k < 5 -> at2 table h k = Some (Some 1%R)) /\
    (forall k, k < 5 -> mean24 (column None k table) = Some 1%R).
Proof.
  exists (full 24 5 (Some 1%R)). eexists.
  split; [reflexivity|]. split; [reflexivity|]. split.
  - intros h k Hh Hk. unfold at2, full.
    rewrite lookup_replicate_2 by done.
    change (replicate 5 (Some 1%R) !! k = Some (Some 1%R)).
    by apply lookup_replicate_2.
  - intros k Hk.
    assert (Hcol : column None k (full 24 5 (Some 1%R)) = replicate 24 (Some 1%R)).
    { unfold column, full. rewrite fmap_replicate. f_equal.
      apply nth_lookup_Some. by rewrite lookup_replicate_2. }
    rewrite Hcol. apply mean24_ones.
Qed.

(** The claim C9 says the defaulting is reported at warning level; the
    code reports nothing at that level. *)
Lemma C9_counterexample :
  ~ (exists table log r,
       read_table None = Return (table, log) /\ r ∈ log /\ levelname r = WARNING).
Proof.
  intros (table & log & r & Hread & Hin & Hlevel).
  injection Hread as <- <-.
  apply list_elem_of_singleton in Hin. subst r. discriminate Hlevel.
Qed.

(** ** Selecting hours *)

Lemma take_indices_seq_ok {A} (l : list A) (s n : nat) :
  s + n <= length l ->
  take_indices l (seq s n) = Return (take n (drop s l)).
Proof.
  unfold take_indices. revert s. induction n as [|n IH]; intros s Hlen.
  - by rewrite take_0.
  - cbn [seq mapR]. rewrite IH by lia.
    destruct (lookup_lt_is_Some_2 l s ltac:(lia)) as [x Hs].
    rewrite Hs, (drop_S _ _ _ Hs). done.
Qed.

Lemma take_indices_seq_short {A} (l : list A) (s n : nat) :
  0 < n -> length l < s + n ->
  take_indices l (seq s n) = Raise IndexError.
Proof.
  unfold take_indices. revert s. induction n as [|n IH]; intros s Hn Hlen; [lia|].
  cbn [seq mapR]. destruct (l !! s) as [x|] eqn:Hs; [|done].
  apply lookup_lt_Some in Hs. rewrite IH by lia. done.
Qed.

(** C6, as the code has it: the two windows are the hour indices 0..11
    and 12..23, disjoint and covering the 24 hours; on a field of 24
    hours the selections are its first and its last 12 hours; on a field
    with fewer than 24 hours the second selection raises [IndexError],
    and on a field with fewer than 12 hours the first selection does so
    already; on a field with more than 24 hours both selections succeed
    and the hours from 24 on are left out without any error. *)
Theorem C6_windows_split_the_day (data : list (list field))
    (vattrs : list (string * AttrValue)) :
  tindex = [seq 0 12; seq 12 12] /\
  (seq 0 12 ++ seq 12 12)%list = seq 0 24 /\
  (forall h, ~ (h ∈ seq 0 12 /\ h ∈ seq 12 12)) /\
  (length data = 24 ->
   isel_Time (FieldVar data vattrs) (seq 0 12) = Return (FieldVar (take 12 data) vattrs) /\
   isel_Time (FieldVar data vattrs) (seq 12 12) = Return (FieldVar (drop 12 data) vattrs) /\
   (take 12 data ++ drop 12 data)%list = data) /\
  (length data < 24 ->
   isel_Time (FieldVar data vattrs) (seq 12 12) = Raise IndexError) /\
  (length data < 12 ->
   isel_Time (FieldVar data vattrs) (seq 0 12) = Raise IndexError) /\
  (24 < length data ->
   isel_Time (FieldVar data vattrs) (seq 0 12) = Return (FieldVar (take 12 data) vattrs) /\
   isel_Time (FieldVar data vattrs) (seq 12 12) =
     Return (FieldVar (take 12 (drop 12 data)) vattrs) /\
   (take 12 data ++ take 12 (drop 12 data))%list <> data).
Proof.
  split; [done|]. split; [done|]. split.
  { intros h [H1 H2]. apply elem_of_seq in H1, H2. lia. }
  unfold isel_Time. split; [|split; [|split]].
  - intros Hlen. rewrite !take_indices_seq_ok by lia. simpl.
    rewrite drop_0. split; [done|]. split.
    + by rewrite take_ge by (rewrite length_drop; lia).
    + apply take_drop.
  - intros Hlen. rewrite take_indices_seq_short by lia. done.
  - intros Hlen. rewrite take_indices_seq_short by lia. done.
  - intros Hlen. rewrite !take_indices_seq_ok by lia. simpl.
    rewrite drop_0. split; [done|]. split; [done|].
    intros Heq. apply (f_equal length) in Heq.
    rewrite length_app, !length_take, length_drop in Heq. lia.
Qed.

Lemma C6_windows_split_the_day_witness :
  isel_Time (FieldVar (replicate 24 [[[Some 1%R]]]) []) (seq 0 12) =
    Return (FieldVar (replicate 12 [[[Some 1%R]]]) []) /\
  isel_Time (FieldVar (replicate 24 [[[Some 1%R]]]) []) (seq 12 12) =
    Return (FieldVar (replicate 12 [[[Some 1%R]]]) []).
Proof.
  destruct (C6_windows_split_the_day (replicate 24 [[[Some 1%R]]]) [])
    as (_ & _ & _ & H24 & _).
  destruct (H24 eq_refl) as (HA & HB & _). split; [exact HA | exact HB].
Defined.

(** The claim C6 has a field of any length other than 24 fail to split;
    a field of 25 hours splits without error. *)
Lemma C6_counterexample :
  exists A B,
    length (replicate 25 [[[Some 1%R]]]) <> 24 /\
    isel_Time (FieldVar (replicate 25 [[[Some 1%R]]]) []) (seq 0 12) = Return A /\
    isel_Time (FieldVar (replicate 25 [[[Some 1%R]]]) []) (seq 12 12) = Return B.
Proof. eexists _, _. split; [done|]. split; reflexivity. Qed.

(** ** Patching a baseline file *)

Lemma setitem_Return ds name v :
  map_Forall (fun _ w => sizes_agree v w = true) ds ->
  setitem ds name v = Return (<[name := v]> ds).
Proof. intros H. unfold setitem. by rewrite decide_True. Qed.

Lemma setitem_inv ds name v ds' :
  setitem ds name v = Return ds' -> ds' = <[name := v]> ds.
Proof. unfold setitem. case_decide; congruence. Qed.

Lemma setitem_Raise ds name v :
  ~ map_Forall (fun _ w => sizes_agree v w = true) ds ->
  setitem ds name v = Raise (ValueError "conflicting sizes for dimension").
Proof. intros H. unfold setitem. by rewrite decide_False. Qed.

Lemma to_netcdf_opened fs file ds :
  to_netcdf fs [file] file ds = Raise PermissionError.
Proof. unfold to_netcdf. rewrite decide_True; [done|]. apply list_elem_of_here. Qed.

Lemma replace_file_missing chemi fs stdout index file :
  files fs !! file = None ->
  replace_file chemi (fs, stdout) (index, file) =
    Return (fs, (stdout ++ ["!!! Please run mozcart.py first !!!"])%list).
Proof. intros Hfile. unfold replace_file. by rewrite Hfile. Qed.

(** An existing file makes the pass end with an exception: the last
    statement of the branch is the write, which raises. *)
Lemma replace_file_existing chemi fs stdout index file ds r :
  files fs !! file = Some ds ->
  replace_file chemi (fs, stdout) (index, file) <> Return r.
Proof.
  intros Hfile. unfold replace_file. rewrite Hfile.
  destruct (tindex !! index); [|done]. cbn [mbind result_bind].
  destruct (getitem chemi "E_NO"); [|done]. cbn [mbind result_bind].
  destruct (isel_Time _ _); [|done]. cbn [mbind result_bind].
  destruct (setitem _ _ _); [|done]. cbn [mbind result_bind].
  destruct (getitem chemi "E_SO2"); [|done]. cbn [mbind result_bind].
  destruct (isel_Time _ _); [|done]. cbn [mbind result_bind].
  destruct (setitem _ _ _); [|done]. cbn [mbind result_bind].
  by rewrite to_netcdf_opened.
Qed.

Lemma replace_file_write chemi fs stdout index file ds window v_no v_so2 no so2 :
  files fs !! file = Some ds ->
  tindex !! index = Some window ->
  chemi !! "E_NO" = Some v_no -> isel_Time v_no window = Return no ->
  chemi !! "E_SO2" = Some v_so2 -> isel_Time v_so2 window = Return so2 ->
  map_Forall (fun _ w => sizes_agree no w = true) ds ->
  map_Forall (fun _ w => sizes_agree so2 w = true) (<["E_NO" := no]> ds) ->
  replace_file chemi (fs, stdout) (index, file) = Raise PermissionError.
Proof.
  intros Hfile Hwin Hno Hsel1 Hso2 Hsel2 Hok1 Hok2.
  unfold replace_file, getitem. rewrite Hfile, Hwin, Hno. simpl.
  rewrite Hsel1. simpl. rewrite (setitem_Return _ _ _ Hok1). simpl.
  rewrite Hso2. simpl. rewrite Hsel2. simpl.
  rewrite (setitem_Return _ _ _ Hok2). simpl. by rewrite to_netcdf_opened.
Qed.






(** ** The hourly datetimes *)

Lemma datetimes_cons start end_ delta :
  (0 < delta)%Z -> (start <= end_)%Z ->
  datetimes start end_ delta = start :: datetimes (start + delta) end_ delta.
Proof.
  intros Hd Hle. unfold datetimes.
  rewrite (proj2 (Z.leb_le _ _) Hle).
  destruct (Z.leb_spec (start + delta) end_) as [Hnext|Hnext].
  - replace (end_ - start)%Z with ((end_ - (start + delta)) + 1 * delta)%Z by lia.
    rewrite Z.div_add by lia.
    assert (0 <= (end_ - (start + delta)) / delta)%Z
      by (apply Z.div_pos; lia).
    rewrite Z2Nat.inj_add by lia.
    replace (Z.to_nat ((end_ - (start + delta)) / delta) + Z.to_nat 1 + 1)
      with (S (Z.to_nat ((end_ - (start + delta)) / delta) + 1)) by lia.
    cbn [seq]. rewrite fmap_cons. f_equal; [lia|].
    rewrite <- fmap_S_seq, <- list_fmap_compose.
    apply list_fmap_ext. intros i x _. simpl. lia.
  - rewrite Z.div_small by lia. simpl. f_equal. lia.
Qed.

Lemma perdelta_datetimes delta :
  (0 < delta)%Z ->
  forall m start end_ fuel,
    Z.to_nat (end_ - start + 1) <= m -> m < fuel ->
    perdelta fuel start end_ delta = Some (datetimes start end_ delta).
Proof.
  intros Hd. induction m as [|m IH]; intros start end_ fuel Hm Hfuel.
  - destruct fuel as [|fuel]; [lia|]. cbn [perdelta].
    assert (end_ < start)%Z by lia.
    unfold datetimes. by rewrite (proj2 (Z.leb_gt _ _)) by lia.
  - destruct fuel as [|fuel]; [lia|]. cbn [perdelta].
    destruct (Z.leb_spec start end_) as [Hle|Hgt].
    + rewrite (IH (start + delta)%Z end_ fuel) by lia.
      by rewrite (datetimes_cons start end_ delta).
    + unfold datetimes. by rewrite (proj2 (Z.leb_gt _ _)) by lia.
Qed.

Example datetimes_one_day (st : Z) :
  length (datetimes st (st + 23 * one_hour) one_hour) = 24.
Proof.
  unfold datetimes. rewrite (proj2 (Z.leb_le _ _)) by (unfold one_hour; lia).
  rewrite length_fmap, length_seq.
  replace (st + 23 * one_hour - st)%Z with (23 * one_hour)%Z by lia.
  rewrite Z.div_mul by done. done.
Qed.

(** ** resample_WRF *)

Section PipelineProperties.

Context (strftime : string -> Z -> string).
Context (float_str : cell -> string).
Context (resample_nearest :
           SwathDefinition -> field -> AreaDefinition -> R -> R -> result field).
Context (resample_custom :
           SwathDefinition -> field -> AreaDefinition -> R -> Z -> (cell -> cell) -> R
           -> result field).
Context (resample_bilinear :
           field -> SwathDefinition -> AreaDefinition -> R -> Z -> Z -> bool ->
           option Z -> R -> R -> result field).
Context (cfg : Config).

Local Abbreviation resample_species' :=
  (resample_species resample_nearest resample_custom resample_bilinear cfg).
Local Abbreviation resample_WRF' :=
  (resample_WRF strftime resample_nearest resample_custom resample_bilinear cfg).
Local Abbreviation vito_init' :=
  (vito_init strftime float_str resample_nearest resample_custom resample_bilinear
     cfg).

(** A species variable never replaces [Times]. *)
Lemma resample_species_Times orig_def area_def emi chemi item chemi' :
  resample_species' orig_def area_def emi chemi item = Return chemi' ->
  chemi' !! "Times" = chemi !! "Times".
Proof.
  destruct item as [vname hv]. unfold resample_species.
  destruct (py_in "E_" vname) eqn:Hin; [|congruence].
  assert (Hne : vname <> "Times") by (intros ->; discriminate Hin).
  destruct (mapR _ _) as [slices|]; [|done]. cbn [mbind result_bind].
  case_decide; [done|].
  destruct (setitem _ _ _) as [chemi1|] eqn:Hset; [|done].
  apply setitem_inv in Hset as ->. cbn [mbind result_bind].
  destruct (dict_get _ _) as [hv'|]; [|done]. cbn [mbind result_bind].
  destruct (hv_units hv'); [|done]. cbn [mbind result_bind].
  intros [= <-]. by rewrite !lookup_insert_ne.
Qed.

Lemma foldM_resample_species_Times orig_def area_def emi items chemi chemi' :
  foldM (resample_species' orig_def area_def emi) chemi items = Return chemi' ->
  chemi' !! "Times" = chemi !! "Times".
Proof.
  revert chemi. induction items as [|item items IH]; intros chemi; cbn [foldM].
  - by intros [= <-].
  - destruct (resample_species' _ _ _ _ _) as [chemi1|] eqn:H1; [|done].
    cbn [mbind result_bind]. intros H. rewrite (IH _ H).
    by eapply resample_species_Times.
Qed.

(** C10: the [delta] given to the constructor does not reach the
    output.  For any two values of [delta], [resample_WRF] and the
    whole of [__init__] give the same result; the loop over the hours
    ends, and the [Times] variable holds the formatted datetimes from
    [st] to [et] in steps of one hour. *)
Theorem C10_output_independent_of_delta (fuel : nat) (days : Z) (world : World)
    (area_def : AreaDefinition) (emi : EmiDataset) (st et delta1 delta2 : Z) :
  resample_WRF' fuel area_def emi st et delta1 =
    resample_WRF' fuel area_def emi st et delta2 /\
  vito_init' fuel days world st et delta1 = vito_init' fuel days world st et delta2 /\
  (Z.to_nat (et - st + 1) < fuel ->
   exists r, resample_WRF' fuel area_def emi st et delta1 = Some r /\
     forall chemi, r = Return chemi ->
       chemi !! "Times" =
         Some (TimesVar (strftime "%Y-%m-%d_%H:%M:%S" <$> datetimes st et one_hour))).
Proof.
  split; [reflexivity|]. split; [reflexivity|].
  intros Hfuel. unfold resample_WRF.
  rewrite (perdelta_datetimes one_hour ltac:(done) _ st et fuel (le_n _) Hfuel).
  cbn [mbind option_bind]. eexists. split; [reflexivity|].
  intros chemi Hfold. apply foldM_resample_species_Times in Hfold.
  rewrite Hfold. apply lookup_singleton_eq.
Qed.

End PipelineProperties.

(** ** Hourly disaggregation *)

Lemma at2_zip2d {A B C} (f : A -> B -> C) a b j i x y :
  at2 a j i = Some x -> at2 b j i = Some y ->
  at2 (zip2d f a b) j i = Some (f x y).
Proof.
  intros (ra & Hra & Hx)%at2_Some_lt (rb & Hrb & Hy)%at2_Some_lt.
  unfold at2, zip2d. rewrite lookup_zip_with, Hra, Hrb. simpl.
  by rewrite lookup_zip_with, Hx, Hy.
Qed.

Lemma at2_map2d {A B} (f : A -> B) a j i x :
  at2 a j i = Some x -> at2 (map2d f a) j i = Some (f x).
Proof.
  intros (ra & Hra & Hx)%at2_Some_lt.
  unfold at2, map2d. rewrite list_lookup_fmap, Hra. simpl.
  by rewrite list_lookup_fmap, Hx.
Qed.

Lemma at2_full {A} n m (v : A) j i :
  j < n -> i < m -> at2 (full n m v) j i = Some v.
Proof.
  intros Hj Hi. unfold at2, full. rewrite lookup_replicate_2 by done.
  change (replicate m v !! i = Some v). by apply lookup_replicate_2.
Qed.

Lemma at3_Some {A} (a : list (list (list A))) h j i x :
  at3 a h j i = Some x -> exists f, a !! h = Some f /\ at2 f j i = Some x.
Proof. unfold at3. destruct (a !! h) as [f|]; simpl; [eauto | done]. Qed.

Lemma at3_add_scaled total sector factors h j i x v f :
  at3 total h j i = Some x -> at2 sector j i = Some v -> factors !! h = Some f ->
  at3 (add_scaled total sector factors) h j i = Some (cadd x (cmul v f)).
Proof.
  intros (th & Hth & Hx)%at3_Some Hv Hf. unfold at3, add_scaled.
  rewrite lookup_zip_with, Hth, Hf. simpl.
  apply at2_zip2d; [done|]. by apply (at2_map2d (fun v => cmul v f)).
Qed.

Lemma length_add_scaled total sector factors :
  length (add_scaled total sector factors) = min (length total) (length factors).
Proof. unfold add_scaled. apply length_zip_with. Qed.

Lemma sel_kind_factor table k :
  k ∈ kind ->
  exists col, sel_kind table k = Return col /\ length col = length table /\
    forall h, h < length table -> col !! h = Some (factor table h k).
Proof.
  intros Hk. unfold sel_kind, factor.
  destruct (list_find_elem_of (fun x => x = k) kind k Hk eq_refl) as [[c x] Hc].
  rewrite Hc. eexists. split; [done|]. unfold column. split.
  - by rewrite length_fmap.
  - intros h Hh. destruct (lookup_lt_is_Some_2 table h Hh) as [row Hrow].
    rewrite list_lookup_fmap, Hrow. simpl.
    by rewrite (nth_lookup_Some _ _ _ row Hrow).
Qed.

Lemma disaggregate_loop vars prefix table (sector : string -> field) ks :
  (forall k, k ∈ ks ->
     k ∈ kind /\
     exists da, vars !! (prefix +:+ "_" +:+ k) = Some da /\ values da = [sector k]) ->
  forall total, length total <= length table ->
  exists total',
    foldM (fun total k =>
             da ← getitem vars (prefix +:+ "_" +:+ k);
             factors ← sel_kind table k;
             sector ← squeeze_time (values da);
             Return (add_scaled total sector factors)) total ks = Return total' /\
    length total' = length total /\
    forall h j i x c,
      at3 total h j i = Some x ->
      (forall k, k ∈ ks -> at2 (sector k) j i = Some (c k)) ->
      at3 total' h j i = Some (sector_sum x c (factor table h) ks).
Proof.
  induction ks as [|k ks IH]; intros Hvars total Hlen.
  - exists total. split; [done|]. split; [done|]. intros h j i x c Hx _. done.
  - destruct (Hvars k ltac:(left)) as (Hk & da & Hda & Hvals).
    destruct (sel_kind_factor table k Hk) as (col & Hcol & Hcollen & Hfac).
    destruct (IH ltac:(intros k' Hk'; apply Hvars; by right)
                 (add_scaled total (sector k) col)) as (total' & Hrun & Hlen' & Hat).
    { rewrite length_add_scaled. lia. }
    exists total'. cbn [foldM]. rewrite (proj2 (getitem_Return _ _ _) Hda).
    cbn [mbind result_bind]. rewrite Hcol. cbn [mbind result_bind].
    rewrite Hvals. cbn [squeeze_time mbind result_bind].
    split; [exact Hrun|]. split.
    { rewrite Hlen', length_add_scaled. lia. }
    intros h j i x c Hx Hc. cbn [sector_sum foldl].
    apply Hat; [|intros k' Hk'; apply Hc; by right].
    apply at3_add_scaled; [done | apply Hc; by left |].
    apply Hfac. destruct (at3_Some _ _ _ _ _ Hx) as (f & Hf & _).
    apply lookup_lt_Some in Hf. lia.
Qed.

(** The hourly values of a cell sum, over the day, to the sum of the
    sector values weighted by the daily sums of their factors. *)
Lemma csum_fmap_Some (g : nat -> R) n s :
  csum ((fun h => Some (g h)) <$> seq s n) = Some (Rsum (g <$> seq s n)).
Proof.
  unfold csum, Rsum. revert s. induction n as [|n IH]; intros s; [done|].
  cbn [seq]. rewrite !fmap_cons. cbn [foldr]. by rewrite IH.
Qed.

Lemma Rsum_plus (f g : nat -> R) n s :
  Rsum ((fun h => f h + g h)%R <$> seq s n) =
  (Rsum (f <$> seq s n) + Rsum (g <$> seq s n))%R.
Proof.
  unfold Rsum. revert s. induction n as [|n IH]; intros s; csimpl;
    [lra | rewrite IH; lra].
Qed.

Lemma Rsum_lin5 (a1 a2 a3 a4 a5 : R) (t1 t2 t3 t4 t5 : nat -> R) n s :
  Rsum ((fun h => 0 + a1 * t1 h + a2 * t2 h + a3 * t3 h + a4 * t4 h + a5 * t5 h)%R
        <$> seq s n) =
  (a1 * Rsum (t1 <$> seq s n) + a2 * Rsum (t2 <$> seq s n)
   + a3 * Rsum (t3 <$> seq s n) + a4 * Rsum (t4 <$> seq s n)
   + a5 * Rsum (t5 <$> seq s n))%R.
Proof.
  unfold Rsum. revert s. induction n as [|n IH]; intros s; csimpl;
    [ring | rewrite IH; ring].
Qed.

Lemma kind_elems (P : string -> Prop) :
  (forall k, k ∈ kind -> P k) ->
  P "Fires" /\ P "Industry" /\ P "Energy" /\ P "Residential" /\ P "Traffic".
Proof.
  intros H. repeat split; apply H; unfold kind; rewrite !elem_of_cons; tauto.
Qed.

(** The value of a cell at an hour, after the loop over the sectors. *)
Lemma disaggregate_cell vars prefix table (sector : string -> field) n m :
  (forall k, k ∈ kind ->
     exists da, vars !! (prefix +:+ "_" +:+ k) = Some da /\ values da = [sector k]) ->
  length table = 24 ->
  exists total,
    disaggregate vars prefix table (replicate 24 (full n m (Some 0%R))) = Return total /\
    length total = 24 /\
    forall h j i (c : string -> cell),
      h < 24 -> j < n -> i < m ->
      (forall k, k ∈ kind -> at2 (sector k) j i = Some (c k)) ->
      at3 total h j i = Some (sector_sum (Some 0%R) c (factor table h) kind).
Proof.
  intros Hvars Htable.
  destruct (disaggregate_loop vars prefix table sector kind
              ltac:(intros k Hk; split; [done | by apply Hvars])
              (replicate 24 (full n m (Some 0%R))))
    as (total & Hrun & Hlen & Hat).
  { rewrite length_replicate. lia. }
  exists total. split; [exact Hrun|]. split.
  { by rewrite Hlen, length_replicate. }
  intros h j i c Hh Hj Hi Hc. apply Hat; [|done].
  unfold at3. rewrite lookup_replicate_2 by done. simpl. by apply at2_full.
Qed.

(** Over the 24 hours, the values of a cell whose sectors are all
    present sum to the sector values weighted by the daily sums of the
    factors: 24 times the sum of the sector values when every sector's
    factors have mean 1. *)
Lemma daily_sum_mean_one (c : string -> cell) (f : nat -> string -> cell)
    (x : string -> R) (t : nat -> string -> R) :
  (forall k, k ∈ kind -> c k = Some (x k)) ->
  (forall h k, h < 24 -> k ∈ kind -> f h k = Some (t h k)) ->
  (forall k, k ∈ kind -> (Rsum ((fun h => t h k) <$> seq 0 24) / 24 = 1)%R) ->
  csum ((fun h => sector_sum (Some 0%R) c (f h) kind) <$> seq 0 24) =
    Some (24 * Rsum (x <$> kind))%R.
Proof.
  intros Hc Hf Hmean.
  destruct (kind_elems _ Hc) as (c1 & c2 & c3 & c4 & c5).
  destruct (kind_elems _ Hmean) as (m1 & m2 & m3 & m4 & m5).
  rewrite (list_fmap_ext _
             (fun h => Some (0 + x "Fires" * t h "Fires"
                             + x "Industry" * t h "Industry"
                             + x "Energy" * t h "Energy"
                             + x "Residential" * t h "Residential"
                             + x "Traffic" * t h "Traffic")%R)).
  2: { intros i h [-> Hh]%lookup_seq.
       destruct (kind_elems _ (fun k => Hf (0 + i) k Hh)) as (f1 & f2 & f3 & f4 & f5).
       unfold sector_sum, kind. cbn [foldl].
       rewrite c1, c2, c3, c4, c5, f1, f2, f3, f4, f5. reflexivity. }
  rewrite csum_fmap_Some. f_equal.
  rewrite (Rsum_lin5 _ _ _ _ _ (fun h => t h "Fires") (fun h => t h "Industry")
             (fun h => t h "Energy") (fun h => t h "Residential")
             (fun h => t h "Traffic")).
  assert (e1 : Rsum ((fun h => t h "Fires") <$> seq 0 24) = 24%R) by lra.
  assert (e2 : Rsum ((fun h => t h "Industry") <$> seq 0 24) = 24%R) by lra.
  assert (e3 : Rsum ((fun h => t h "Energy") <$> seq 0 24) = 24%R) by lra.
  assert (e4 : Rsum ((fun h => t h "Residential") <$> seq 0 24) = 24%R) by lra.
  assert (e5 : Rsum ((fun h => t h "Traffic") <$> seq 0 24) = 24%R) by lra.
  rewrite e1, e2, e3, e4, e5. unfold kind, Rsum. csimpl. lra.
Qed.

Lemma kind_cases k :
  k ∈ kind ->
  k = "Fires" \/ k = "Industry" \/ k = "Energy" \/ k = "Residential" \/ k = "Traffic".
Proof. unfold kind. rewrite !elem_of_cons, elem_of_nil. tauto. Qed.

Lemma vars_industry_lookup k :
  k ∈ kind ->
  exists da, vars_industry !! ("NOx" +:+ "_" +:+ k) = Some da /\
             values da = [sector_industry k].
Proof.
  intros [->|[->|[->|[->| ->]]]]%kind_cases; eexists; split; reflexivity.
Qed.

Lemma factor_ones h k :
  h < 24 -> k ∈ kind -> factor (full 24 5 (Some 1%R)) h k = Some 1%R.
Proof.
  intros Hh Hk. unfold factor, full.
  rewrite (nth_lookup_Some _ _ _ (replicate 5 (Some 1%R)))
    by (by apply lookup_replicate_2).
  apply kind_cases in Hk as [->|[->|[->|[->| ->]]]]; reflexivity.
Qed.

(** C2, as the code has it: at every hour and cell the output is the
    sum over the five sectors of the sector's monthly value times the
    sector's factor at that hour; when every sector is present in the
    cell and every sector's 24 factors have mean 1, the 24 hourly values
    of the cell sum to 24 times the sum of the sector values (so their
    mean over the day is the sum of the sector values). *)
Theorem C2_hourly_sum_over_sectors (vars : gmap string DataArray) (prefix : string)
    (table : list (list cell)) (sector : string -> field) (n m : nat) :
  (forall k, k ∈ kind ->
     exists da, vars !! (prefix +:+ "_" +:+ k) = Some da /\ values da = [sector k]) ->
  length table = 24 ->
  exists total,
    disaggregate vars prefix table (replicate 24 (full n m (Some 0%R))) = Return total /\
    length total = 24 /\
    forall j i (c : string -> cell),
      j < n -> i < m ->
      (forall k, k ∈ kind -> at2 (sector k) j i = Some (c k)) ->
      (forall h, h < 24 ->
         at3 total h j i = Some (sector_sum (Some 0%R) c (factor table h) kind)) /\
      (forall (x : string -> R) (t : nat -> string -> R),
         (forall k, k ∈ kind -> c k = Some (x k)) ->
         (forall h k, h < 24 -> k ∈ kind -> factor table h k = Some (t h k)) ->
         (forall k, k ∈ kind -> (Rsum ((fun h => t h k) <$> seq 0 24) / 24 = 1)%R) ->
         csum ((fun h => default None (at3 total h j i)) <$> seq 0 24) =
           Some (24 * Rsum (x <$> kind))%R).
Proof.
  intros Hvars Htable.
  destruct (disaggregate_cell vars prefix table sector n m Hvars Htable)
    as (total & Hrun & Hlen & Hat).
  exists total. split; [exact Hrun|]. split; [exact Hlen|].
  intros j i c Hj Hi Hc. split.
  - intros h Hh. by apply Hat.
  - intros x t Hx Ht Hmean.
    rewrite (list_fmap_ext _ (fun h => sector_sum (Some 0%R) c (factor table h) kind)).
    + by apply (daily_sum_mean_one c (factor table) x t).
    + intros k h [-> Hh]%lookup_seq. by rewrite (Hat (0 + k) j i c).
Qed.

Lemma C2_hourly_sum_over_sectors_witness :
  exists total,
    disaggregate vars_industry "NOx" (full 24 5 (Some 1%R))
                 (replicate 24 (full 1 1 (Some 0%R))) = Return total /\
    length total = 24.
Proof.
  destruct (C2_hourly_sum_over_sectors vars_industry "NOx" (full 24 5 (Some 1%R))
              sector_industry 1 1 vars_industry_lookup eq_refl)
    as (total & Hrun & Hlen & _).
  exists total. split; [exact Hrun | exact Hlen].
Defined.

(** The claim C2 has the 24 hourly values of a cell sum to the plain sum
    of the sector values when the factors have mean 1.  With the table of
    ones and the value 10 in one sector, the sector values sum to 10 and
    the 24 hourly values to 240. *)
Lemma C2_counterexample :
  exists total,
    disaggregate vars_industry "NOx" (full 24 5 (Some 1%R))
                 (replicate 24 (full 1 1 (Some 0%R))) = Return total /\
    (forall k, k ∈ kind ->
       mean24 ((fun h => factor (full 24 5 (Some 1%R)) h k) <$> seq 0 24) = Some 1%R) /\
    csum ((fun k => default None (at2 (sector_industry k) 0 0)) <$> kind) = Some 10%R /\
    csum ((fun h => default None (at3 total h 0 0)) <$> seq 0 24) = Some 240%R /\
    csum ((fun h => default None (at3 total h 0 0)) <$> seq 0 24) <>
      csum ((fun k => default None (at2 (sector_industry k) 0 0)) <$> kind).
Proof.
  destruct (disaggregate_cell vars_industry "NOx" (full 24 5 (Some 1%R))
              sector_industry 1 1 vars_industry_lookup eq_refl)
    as (total & Hrun & Hlen & Hat).
  exists total. split; [exact Hrun|].
  assert (Hsec : csum ((fun k => default None (at2 (sector_industry k) 0 0)) <$> kind)
                 = Some 10%R).
  { unfold csum, kind, sector_industry, value_industry. simpl. f_equal. lra. }
  assert (Hday : csum ((fun h => default None (at3 total h 0 0)) <$> seq 0 24)
                 = Some 240%R).
  { rewrite (list_fmap_ext _
               (fun h => sector_sum (Some 0%R) (fun k => Some (value_industry k))
                           (factor (full 24 5 (Some 1%R)) h) kind)).
    - rewrite (daily_sum_mean_one _ _ value_industry (fun _ _ => 1%R)).
      + f_equal. unfold kind, Rsum, value_industry. simpl. lra.
      + done.
      + intros h k Hh Hk. by apply factor_ones.
      + intros k _. rewrite Rsum_const. simpl. lra.
    - intros k h [-> Hh]%lookup_seq.
      rewrite (Hat (0 + k) 0 0 (fun k => Some (value_industry k)));
        [done | exact Hh | lia | lia | intros; reflexivity]. }
  split; [|split; [exact Hsec|split; [exact Hday|]]].
  - intros k Hk.
    rewrite (list_fmap_ext _ (fun _ => Some 1%R))
      by (intros i h [-> Hh]%lookup_seq; by apply factor_ones).
    replace ((fun _ : nat => Some 1%R) <$> seq 0 24) with (replicate 24 (Some 1%R))
      by reflexivity.
    apply mean24_ones.
  - rewrite Hsec, Hday. intros [= H]. lra.
Qed.

(** ** get_ds *)

Lemma where_month_fmap {A B} (g : A -> B) months mm vals :
  where_month months mm (g <$> vals) = g <$> where_month months mm vals.
Proof.
  unfold where_month. revert vals.
  induction months as [|mo months IH]; intros [|v vals]; try done.
  csimpl. rewrite !filter_cons. simpl. case_decide; csimpl; by rewrite IH.
Qed.

Lemma converted_vars_lookup days weight missing area ds mm key da f :
  data_vars ds !! key = Some da ->
  where_month (time_month ds) mm (values da) = [f] ->
  exists da',
    converted_vars days weight missing area ds mm !! key = Some da' /\
    values da' = [converted days weight missing area f].
Proof.
  intros Hda Hmonth. unfold converted_vars. rewrite !lookup_fmap, Hda. simpl.
  eexists. split; [reflexivity|]. simpl.
  by rewrite where_month_fmap, Hmonth.
Qed.

(** What [drop_vars] keeps. *)

Lemma drop_vars_E key hv d :
  (key, hv) ∈ drop_vars_without_E d -> py_in "E_" key = true.
Proof.
  unfold drop_vars_without_E. intros Hin%list_elem_of_In%filter_In. by destruct Hin.
Qed.

Lemma dict_get_kept (d : list (string * HourlyVar)) name hv :
  py_in "E_" name = true ->
  dict_get (drop_vars_without_E (dict_set d name hv)) name = Return hv.
Proof.
  intros HE. unfold drop_vars_without_E.
  induction d as [|[k w] d IH]; cbn [dict_set].
  - cbn [List.filter fst]. rewrite HE. cbn [dict_get]. by rewrite String.eqb_refl.
  - destruct (String.eqb_spec k name) as [->|Hne].
    + cbn [List.filter fst]. rewrite HE. cbn [dict_get]. by rewrite String.eqb_refl.
    + cbn [List.filter fst]. destruct (py_in "E_" k); [|done].
      cbn [dict_get]. by rewrite (proj2 (String.eqb_neq _ _) Hne).
Qed.

Lemma variables_keys names (vars : gmap string DataArray) key hv :
  (key, hv) ∈ variables names vars -> key ∈ names.
Proof.
  unfold variables. intros (k & Hk & Hsome)%list_elem_of_omap.
  destruct (vars !! k); [|done]. by injection Hsome as <- _.
Qed.

Lemma kept_only_name (d : list (string * HourlyVar)) name hv :
  py_in "E_" name = true ->
  (forall key w, (key, w) ∈ d -> py_in "E_" key = false) ->
  drop_vars_without_E (dict_set d name hv) = [(name, hv)].
Proof.
  intros HE Hd. unfold drop_vars_without_E.
  induction d as [|[k w] d IH]; cbn [dict_set].
  - cbn [List.filter fst]. by rewrite HE.
  - pose proof (Hd k w ltac:(apply list_elem_of_here)) as Hk.
    destruct (String.eqb_spec k name) as [->|Hne]; [congruence|].
    cbn [List.filter fst]. rewrite Hk. apply IH.
    intros key w' Hin. apply (Hd key w'). by apply list_elem_of_further.
Qed.

Lemma kept_vars_facts days weight missing area ds mm name total :
  py_in "E_" name = true ->
  dict_get (kept_vars days weight missing area ds mm name total) name =
    Return (mkHourlyVar total (Some "mol km-2 hr-1")) /\
  (forall key hv,
     (key, hv) ∈ kept_vars days weight missing area ds mm name total ->
     py_in "E_" key = true) /\
  ((forall key, key ∈ var_names ds -> py_in "E_" key = false) ->
   kept_vars days weight missing area ds mm name total =
     [(name, mkHourlyVar total (Some "mol km-2 hr-1"))]).
Proof.
  intros HE. unfold kept_vars. split; [by apply dict_get_kept|]. split.
  - intros key hv. apply drop_vars_E.
  - intros Hnames. apply kept_only_name; [done|].
    intros key w Hin%variables_keys. by apply Hnames.
Qed.

Ltac get_ds_steps Hind Hmiss Htable :=
  unfold get_ds;
  cbv [py_last py_last2 py_split String.eqb Ascii.eqb Bool.eqb
       reverse rev_append String.append orb andb mbind result_bind
       convert_units dict_get var_dict meshgrid fst snd];
  rewrite (proj2 (getitem_Return _ _ _) Hind);
  rewrite (proj2 (getitem_Return _ _ _) Hmiss);
  rewrite ?Htable.

Lemma length_read_table csv table log :
  read_table csv = Return (table, log) -> length table = 24.
Proof.
  unfold read_table. destruct csv as [rows|].
  - destruct (table_shape_ok rows) eqn:Hok; [|done].
    intros [= <- <-]. unfold normalize. rewrite length_fmap.
    by apply table_shape_ok_spec in Hok as [-> _].
  - by intros [= <- <-].
Qed.

Lemma get_ds_E_NO (days : Z) csv (area : list (list R)) ds (mm : Z) missing
    (raw : string -> field) table log :
  (forall k, k ∈ kind ->
     exists da, data_vars ds !! sector_key "E_NO" k = Some da /\
                where_month (time_month ds) mm (values da) = [raw k]) ->
  (exists ind, data_vars ds !! sector_key "E_NO" "Industry" = Some ind /\
               attrs ind !! "MissingValue" = Some missing) ->
  read_table csv = Return (table, log) ->
  get_ds_returns days csv area ds "E_NO" 14 mm missing raw table log.
Proof.
  intros Hvars (ind & Hind & Hmiss) Htable.
  change (sector_key "E_NO" "Industry") with "NOx_Industry" in Hind.
  edestruct (disaggregate_cell (converted_vars days 14 missing area ds mm)
               "NOx" table (fun k => converted days 14 missing area (raw k))
               (length (lat ds)) (length (lon ds)))
    as (total & Hrun & Hlen & Hat).
  { intros k Hk. destruct (Hvars k Hk) as (da & Hda & Hmonth).
    eapply converted_vars_lookup; [exact Hda | exact Hmonth]. }
  { by eapply length_read_table. }
  exists total.
  destruct (kept_vars_facts days 14 missing area ds mm "E_NO" total eq_refl)
    as (Hget & HE & Honly).
  split; [|split; [exact Hget|split; [exact HE|split; [exact Honly|
    split; [exact Hlen | exact Hat]]]]].
  unfold converted_vars in Hrun. get_ds_steps Hind Hmiss Htable. by rewrite Hrun.
Qed.

Lemma get_ds_E_SO2 (days : Z) csv (area : list (list R)) ds (mm : Z) missing
    (raw : string -> field) table log :
  (forall k, k ∈ kind ->
     exists da, data_vars ds !! sector_key "E_SO2" k = Some da /\
                where_month (time_month ds) mm (values da) = [raw k]) ->
  (exists ind, data_vars ds !! sector_key "E_SO2" "Industry" = Some ind /\
               attrs ind !! "MissingValue" = Some missing) ->
  read_table csv = Return (table, log) ->
  get_ds_returns days csv area ds "E_SO2" 64 mm missing raw table log.
Proof.
  intros Hvars (ind & Hind & Hmiss) Htable.
  change (sector_key "E_SO2" "Industry") with "SO2_Industry" in Hind.
  edestruct (disaggregate_cell (converted_vars days 64 missing area ds mm)
               "SO2" table (fun k => converted days 64 missing area (raw k))
               (length (lat ds)) (length (lon ds)))
    as (total & Hrun & Hlen & Hat).
  { intros k Hk. destruct (Hvars k Hk) as (da & Hda & Hmonth).
    eapply converted_vars_lookup; [exact Hda | exact Hmonth]. }
  { by eapply length_read_table. }
  exists total.
  destruct (kept_vars_facts days 64 missing area ds mm "E_SO2" total eq_refl)
    as (Hget & HE & Honly).
  split; [|split; [exact Hget|split; [exact HE|split; [exact Honly|
    split; [exact Hlen | exact Hat]]]]].
  unfold converted_vars in Hrun. get_ds_steps Hind Hmiss Htable. by rewrite Hrun.
Qed.

Lemma get_ds_species (days : Z) csv (area : list (list R)) ds name weight (mm : Z)
    missing (raw : string -> field) table log :
  species_weight name weight ->
  (forall k, k ∈ kind ->
     exists da, data_vars ds !! sector_key name k = Some da /\
                where_month (time_month ds) mm (values da) = [raw k]) ->
  (exists ind, data_vars ds !! sector_key name "Industry" = Some ind /\
               attrs ind !! "MissingValue" = Some missing) ->
  read_table csv = Return (table, log) ->
  get_ds_returns days csv area ds name weight mm missing raw table log.
Proof.
  intros [[-> ->]|[-> ->]]; [apply get_ds_E_NO | apply get_ds_E_SO2].
Qed.

(** ** Elements through masking and conversion *)


Lemma where_ne_other missing v :
  v <> missing -> where_ne missing (Some v) = Some v.
Proof. intros Hv. unfold where_ne. by destruct (Req_dec_T v missing). Qed.

Lemma to_mol_km2_hr_None hours weight area :
  to_mol_km2_hr hours weight None area = None.
Proof. done. Qed.

Lemma to_mol_km2_hr_Some hours weight v area :
  area <> 0%R -> (hours * weight)%Z <> 0%Z ->
  to_mol_km2_hr hours weight (Some v) area =
    Some (v * 1e9 / (area / 1e6) / (IZR hours * IZR weight))%R.
Proof.
  intros Ha Hw. unfold to_mol_km2_hr. cbn [cmul].
  rewrite (cdiv_Some area) by lra.
  assert (area / 1e6 <> 0)%R by (intros ?; lra).
  rewrite cdiv_Some by done.
  assert (IZR (hours * weight) <> 0%R) by (by apply not_0_IZR).
  rewrite cdiv_Some by done. by rewrite mult_IZR.
Qed.

Lemma at2_converted days weight missing area f j i v a :
  at2 f j i = Some v -> at2 area j i = Some a ->
  at2 (converted days weight missing area f) j i =
    Some (to_mol_km2_hr (days * 24) weight (where_ne missing v) a).
Proof.
  intros Hv Ha. unfold converted. apply at2_zip2d; [|done].
  by apply (at2_map2d (where_ne missing)).
Qed.

(** C1: for NOx and SO2 the monthly value of a present cell is
    multiplied by 1e9, divided by the cell area in km2 (the area in m2
    divided by 1e6) and divided by (hours in the month x molecular
    weight), the weight being 14 for [E_NO] and 64 for [E_SO2], before
    the hourly factors are applied; the division is the one of floats,
    so that a cell of area 0 gets no finite value.  With area 1e6 m2, the
    value 10 in one sector and 0 in the others, no factor file and a
    month of 30 days, each of the 24 hourly values of [E_NO] is
    10 x 1e9 / (1e6/1e6) / (720 x 14).  The dataset that [get_ds] returns
    holds the species and every other variable of the inventory whose
    name contains [E_]. *)
Theorem C1_nox_so2_unit_conversion (days : Z) (csv : option (list (list R)))
    (area : list (list R)) (ds : Dataset) (name : string) (weight : Z) (mm : Z)
    (missing : R) (raw : string -> field) (table : list (list cell))
    (log : list LogRecord) :
  species_weight name weight ->
  (0 < days)%Z ->
  (forall k, k ∈ kind ->
     exists da, data_vars ds !! sector_key name k = Some da /\
                where_month (time_month ds) mm (values da) = [raw k]) ->
  (exists ind, data_vars ds !! sector_key name "Industry" = Some ind /\
               attrs ind !! "MissingValue" = Some missing) ->
  read_table csv = Return (table, log) ->
  exists total,
    get_ds days csv area ds name var_dict mm =
      Return ({| emi_vars := kept_vars days weight missing area ds mm name total;
                 longitude := (meshgrid (lon ds) (lat ds)).1;
                 latitude := (meshgrid (lon ds) (lat ds)).2 |}, log) /\
    dict_get (kept_vars days weight missing area ds mm name total) name =
      Return (mkHourlyVar total (Some "mol km-2 hr-1")) /\
    ((forall key, key ∈ var_names ds -> py_in "E_" key = false) ->
     kept_vars days weight missing area ds mm name total =
       [(name, mkHourlyVar total (Some "mol km-2 hr-1"))]) /\
    forall j i (v : string -> R) (a : R),
      j < length (lat ds) -> i < length (lon ds) ->
      (forall k, k ∈ kind -> at2 (raw k) j i = Some (Some (v k)) /\ v k <> missing) ->
      at2 area j i = Some a ->
      (forall h, h < 24 ->
         at3 total h j i =
           Some (sector_sum (Some 0%R)
                   (fun k => to_mol_km2_hr (days * 24) weight (Some (v k)) a)
                   (factor table h) kind)) /\
      (a <> 0%R ->
       forall k, to_mol_km2_hr (days * 24) weight (Some (v k)) a =
                 Some (v k * 1e9 / (a / 1e6) / (IZR (days * 24) * IZR weight))%R) /\
      (a = 0%R ->
       forall k, to_mol_km2_hr (days * 24) weight (Some (v k)) a = None) /\
      (name = "E_NO" -> days = 30%Z -> csv = None -> a = 1e6%R ->
       forall k0, k0 ∈ kind ->
         (forall k, k ∈ kind -> v k = if String.eqb k k0 then 10%R else 0%R) ->
         forall h, h < 24 ->
           at3 total h j i = Some (Some (10 * 1e9 / (1e6 / 1e6) / (720 * 14))%R)).
Proof.
  intros Hsp Hdays Hvars Hind Htable.
  destruct (get_ds_species days csv area ds name weight mm missing raw table log
              Hsp Hvars Hind Htable) as (total & Hrun & Hget & _ & Honly & _ & Hat).
  exists total. split; [exact Hrun|]. split; [exact Hget|]. split; [exact Honly|].
  intros j i v a Hj Hi Hv Ha.
  assert (Hw : (days * 24 * weight)%Z <> 0%Z)
    by (destruct Hsp as [[_ ->]|[_ ->]]; lia).
  assert (Hgen : forall h, h < 24 ->
            at3 total h j i =
              Some (sector_sum (Some 0%R)
                      (fun k => to_mol_km2_hr (days * 24) weight (Some (v k)) a)
                      (factor table h) kind)).
  { intros h Hh. apply Hat; [done..|]. intros k Hk.
    destruct (Hv k Hk) as [Hraw Hne].
    rewrite (at2_converted _ _ _ _ _ _ _ _ _ Hraw Ha).
    by rewrite where_ne_other. }
  split; [exact Hgen|]. split; [|split].
  - intros Ha0 k. by apply to_mol_km2_hr_Some.
  - intros -> k. unfold to_mol_km2_hr. cbn [cmul].
    rewrite (cdiv_Some 0 1e6) by lra.
    rewrite (cdiv_zero _ (0 / 1e6)) by lra. done.
  - intros -> -> -> -> k0 Hk0 Hv0 h Hh.
    assert (weight = 14%Z) as -> by (destruct Hsp as [[_ ->]|[? _]]; done).
    injection Htable as <- <-.
    rewrite (Hgen h Hh). f_equal.
    destruct (kind_elems _ Hv0) as (v1 & v2 & v3 & v4 & v5).
    unfold sector_sum, kind. cbn [foldl].
    rewrite !factor_ones by (done || (unfold kind; rewrite !elem_of_cons; tauto)).
    rewrite !to_mol_km2_hr_Some by (lra || lia).
    rewrite v1, v2, v3, v4, v5. cbn [cadd cmul]. f_equal.
    change (30 * 24)%Z with 720%Z.
    apply kind_cases in Hk0 as [->|[->|[->|[->| ->]]]]; simpl; lra.
Qed.

Lemma ds_industry_vars k :
  k ∈ kind ->
  exists da, data_vars ds_industry !! sector_key "E_NO" k = Some da /\
             where_month (time_month ds_industry) 6 (values da) = [raw_industry k].
Proof.
  intros [->|[->|[->|[->| ->]]]]%kind_cases; eexists; split; reflexivity.
Qed.


(** The sector variables are the only variables of the example
    inventories: no name contains [E_]. *)
Lemma nox_names key :
  key ∈ ["NOx_Industry"; "NOx_Energy"; "NOx_Traffic"; "NOx_Residential"; "NOx_Fires"] ->
  py_in "E_" key = false.
Proof.
  intros Hin. repeat (apply elem_of_cons in Hin as [->|Hin]; [reflexivity|]).
  by apply elem_of_nil in Hin.
Qed.

Lemma C1_nox_so2_unit_conversion_witness :
  exists total,
    get_ds 30 None area2x2 ds_industry "E_NO" var_dict 6 =
      Return ({| emi_vars := [("E_NO", mkHourlyVar total (Some "mol km-2 hr-1"))];
                 longitude := (meshgrid (lon ds_industry) (lat ds_industry)).1;
                 latitude := (meshgrid (lon ds_industry) (lat ds_industry)).2 |},
              [mkLog INFO "        hourly_factor.csv does not exist, use 1 instead"]) /\
    forall h, h < 24 ->
      at3 total h 0 0 = Some (Some (10 * 1e9 / (1e6 / 1e6) / (720 * 14))%R).
Proof.
  destruct (C1_nox_so2_unit_conversion 30 None area2x2 ds_industry "E_NO" 14 6
              (-999)%R raw_industry (full 24 5 (Some 1%R))
              [mkLog INFO "        hourly_factor.csv does not exist, use 1 instead"])
    as (total & Hrun & _ & Honly & Hcell).
  - left. split; reflexivity.
  - lia.
  - exact ds_industry_vars.
  - eexists. split; reflexivity.
  - reflexivity.
  - exists total. rewrite (Honly nox_names) in Hrun. split; [exact Hrun|].
    destruct (Hcell 0 0 value_industry 1e6%R) as (_ & _ & _ & Hscenario).
    + simpl. lia.
    + simpl. lia.
    + intros k Hk. split; [reflexivity|].
      apply kind_cases in Hk as [->|[->|[->|[->| ->]]]];
        unfold value_industry; simpl; lra.
    + reflexivity.
    + apply (Hscenario eq_refl eq_refl eq_refl eq_refl "Industry").
      * unfold kind. rewrite !elem_of_cons. tauto.
      * intros k _. reflexivity.
Defined.

(** * Further properties *)

(** ** get_info *)

(** [get_info] returns exactly for the four map projections of
    [wrf_projs], giving the projection its name ([1] lcc, [2] npstere,
    [3] merc, [6] eqc), the shape [(j, i)], the radius
    [(i*DX/2, j*DY/2)], the centre [(0, 0)] and the sphere of radius
    6370000; for any other [MAP_PROJ] it raises [KeyError]. *)
Theorem get_info_projection (geo : GeoAttrs) :
  (forall p, In (MAP_PROJ geo, p) wrf_projs ->
     get_info geo =
       Return {| area_id := "wrf_circle"; proj := p;
                 lat_0 := MOAD_CEN_LAT geo; lon_0 := STAND_LON geo;
                 lat_1 := TRUELAT1 geo; lat_2 := TRUELAT2 geo;
                 proj_a := 6370000; proj_b := 6370000;
                 center := (0, 0)%R;
                 radius := (IZR (i_parent_end geo) * DX geo / 2,
                            IZR (j_parent_end geo) * DY geo / 2)%R;
                 shape := (j_parent_end geo, i_parent_end geo) |}) /\
  ((forall p, ~ In (MAP_PROJ geo, p) wrf_projs) ->
   get_info geo = Raise (KeyError "MAP_PROJ")) /\
  (forall a, get_info geo = Return a ->
     In (MAP_PROJ geo, proj a) wrf_projs /\
     (MAP_PROJ geo = 1 \/ MAP_PROJ geo = 2 \/ MAP_PROJ geo = 3 \/ MAP_PROJ geo = 6)%Z).
Proof.
  unfold get_info, wrf_projs. split; [|split].
  - intros p Hin. simpl in Hin.
    destruct Hin as [[= <- <-]|[[= <- <-]|[[= <- <-]|[[= <- <-]|[]]]]];
      reflexivity.
  - intros Hno. cbn [wrf_projs_get].
    destruct (Z.eqb_spec 1 (MAP_PROJ geo)) as [E|_];
      [exfalso; apply (Hno "lcc"); rewrite <- E; simpl; tauto|].
    destruct (Z.eqb_spec 2 (MAP_PROJ geo)) as [E|_];
      [exfalso; apply (Hno "npstere"); rewrite <- E; simpl; tauto|].
    destruct (Z.eqb_spec 3 (MAP_PROJ geo)) as [E|_];
      [exfalso; apply (Hno "merc"); rewrite <- E; simpl; tauto|].
    destruct (Z.eqb_spec 6 (MAP_PROJ geo)) as [E|_];
      [exfalso; apply (Hno "eqc"); rewrite <- E; simpl; tauto|].
    reflexivity.
  - intros a. cbn [wrf_projs_get].
    destruct (Z.eqb_spec 1 (MAP_PROJ geo)) as [E|_];
      [intros [= <-]; rewrite <- E; simpl; tauto|].
    destruct (Z.eqb_spec 2 (MAP_PROJ geo)) as [E|_];
      [intros [= <-]; rewrite <- E; simpl; tauto|].
    destruct (Z.eqb_spec 3 (MAP_PROJ geo)) as [E|_];
      [intros [= <-]; rewrite <- E; simpl; tauto|].
    destruct (Z.eqb_spec 6 (MAP_PROJ geo)) as [E|_];
      [intros [= <-]; rewrite <- E; simpl; tauto|].
    discriminate.
Qed.

(** ** calc_area: errors and shape *)

(** [calc_area] fails only for a missing boundary attribute, and then
    with the [KeyError] of the first one missing in the order west,
    east, north, south. *)
Theorem calc_area_missing_attribute (ds : Dataset) :
  (ds_attrs ds !! "grid_westb" = None ->
   calc_area ds = Raise (KeyError "grid_westb")) /\
  (is_Some (ds_attrs ds !! "grid_westb") -> ds_attrs ds !! "grid_eastb" = None ->
   calc_area ds = Raise (KeyError "grid_eastb")) /\
  (is_Some (ds_attrs ds !! "grid_westb") -> is_Some (ds_attrs ds !! "grid_eastb") ->
   ds_attrs ds !! "grid_northb" = None ->
   calc_area ds = Raise (KeyError "grid_northb")) /\
  (is_Some (ds_attrs ds !! "grid_westb") -> is_Some (ds_attrs ds !! "grid_eastb") ->
   is_Some (ds_attrs ds !! "grid_northb") -> ds_attrs ds !! "grid_southb" = None ->
   calc_area ds = Raise (KeyError "grid_southb")) /\
  (forall e, calc_area ds = Raise e ->
     exists key, e = KeyError key /\ ds_attrs ds !! key = None /\
       In key ["grid_westb"; "grid_eastb"; "grid_northb"; "grid_southb"]).
Proof.
  unfold calc_area, getitem.
  split; [|split; [|split; [|split]]].
  - by intros ->.
  - by intros [w ->] ->.
  - by intros [w ->] [e ->] ->.
  - by intros [w ->] [e ->] [n ->] ->.
  - intros err.
    destruct (ds_attrs ds !! "grid_westb") eqn:Hw; cbn [mbind result_bind];
      [|intros [= <-]; eexists; split; [done|]; split; [done|simpl; tauto]].
    destruct (ds_attrs ds !! "grid_eastb") eqn:He; cbn [mbind result_bind];
      [|intros [= <-]; eexists; split; [done|]; split; [done|simpl; tauto]].
    destruct (ds_attrs ds !! "grid_northb") eqn:Hn; cbn [mbind result_bind];
      [|intros [= <-]; eexists; split; [done|]; split; [done|simpl; tauto]].
    destruct (ds_attrs ds !! "grid_southb") eqn:Hs; cbn [mbind result_bind];
      [|intros [= <-]; eexists; split; [done|]; split; [done|simpl; tauto]].
    discriminate.
Qed.

(** The area array of [calc_area] has one row per latitude and one
    column per longitude of the inventory, the boundary arrays have one
    element more than the axes, and they run from the west attribute to
    the east one and from the north attribute to the south one. *)
Theorem calc_area_shape (ds : Dataset) (g : Geometry) :
  calc_area ds = Return g ->
  length (emi_area g) = length (lat ds) /\
  (forall j row, emi_area g !! j = Some row -> length row = length (lon ds)) /\
  length (emi_lon_b g) = (length (lon ds) + 1)%nat /\
  length (emi_lat_b g) = (length (lat ds) + 1)%nat /\
  emi_lon g = lon ds /\ emi_lat g = lat ds /\
  ds_attrs ds !! "grid_westb" = emi_lon_b g !! 0 /\
  ds_attrs ds !! "grid_northb" = emi_lat_b g !! 0 /\
  (lon ds <> [] -> ds_attrs ds !! "grid_eastb" = emi_lon_b g !! length (lon ds)) /\
  (lat ds <> [] -> ds_attrs ds !! "grid_southb" = emi_lat_b g !! length (lat ds)).
Proof.
  intros Hg.
  destruct (calc_area_Return ds g Hg)
    as (w & e & n & s & Hw & He & Hn & Hs & Hlon & Hlat & Harea).
  assert (Hnth : forall a b m, 0 < m ->
            linspace a b (m + 1) !! m = Some b).
  { intros a b m Hm.
    pose proof (linspace_last a b m Hm) as Hl.
    destruct (lookup_lt_is_Some_2 (linspace a b (m + 1)) m) as [x Hx].
    { rewrite length_linspace. lia. }
    rewrite (nth_lookup_Some _ _ _ _ Hx) in Hl. by rewrite Hx, Hl. }
  assert (H0 : forall a b m, linspace a b (m + 1) !! 0 = Some a).
  { intros a b m. rewrite lookup_linspace by lia. f_equal. simpl. lra. }
  split; [by rewrite Harea, length_fmap, length_seq|].
  split.
  { intros j row. rewrite Harea, list_lookup_fmap.
    destruct (seq 0 (length (lat ds)) !! j); [|done].
    intros [= <-]. by rewrite length_fmap, length_seq. }
  split; [by rewrite Hlon, length_linspace|].
  split; [by rewrite Hlat, length_linspace|].
  unfold calc_area in Hg. rewrite (proj2 (getitem_Return _ _ _) Hw) in Hg.
  rewrite (proj2 (getitem_Return _ _ _) He) in Hg.
  rewrite (proj2 (getitem_Return _ _ _) Hn) in Hg.
  rewrite (proj2 (getitem_Return _ _ _) Hs) in Hg.
  injection Hg as <-. cbn [emi_lon emi_lat emi_lon_b emi_lat_b].
  split; [done|]. split; [done|].
  split; [by rewrite Hw, H0|]. split; [by rewrite Hn, H0|].
  split.
  - intros Hne. rewrite He, Hnth; [done|].
    destruct (lon ds); [done | simpl; lia].
  - intros Hne. rewrite Hs, Hnth; [done|].
    destruct (lat ds); [done | simpl; lia].
Qed.

Lemma calc_area_shape_witness :
  exists g, calc_area ds_band = Return g /\
    length (emi_area g) = 2 /\ length (emi_lon_b g) = 3.
Proof.
  eexists. split; [reflexivity|].
  destruct (calc_area_shape ds_band _ eq_refl) as (Hrows & _ & Hlon & _).
  split; [exact Hrows | exact Hlon].
Defined.

(** Whatever the boundaries, no cell area is negative, and the cells of
    one latitude row all have the same area: the longitude edges are
    evenly spaced. *)
Theorem calc_area_nonnegative_and_uniform_in_longitude (ds : Dataset) (g : Geometry) :
  calc_area ds = Return g ->
  (forall j i a, at2 (emi_area g) j i = Some a -> (0 <= a)%R) /\
  (forall j i i' a a',
     at2 (emi_area g) j i = Some a -> at2 (emi_area g) j i' = Some a' -> a = a').
Proof.
  intros Hg.
  destruct (calc_area_Return ds g Hg)
    as (w & e & n & s & _ & _ & _ & _ & _ & _ & Harea).
  assert (Hcell : forall j i a, at2 (emi_area g) j i = Some a ->
            j < length (lat ds) /\ i < length (lon ds) /\
            a = cell_area (lin w e (length (lon ds)) i)
                          (lin w e (length (lon ds)) (i + 1))
                          (lin n s (length (lat ds)) j)
                          (lin n s (length (lat ds)) (j + 1))).
  { intros j i a Hat. rewrite Harea in Hat.
    destruct (at2_Some_lt _ _ _ _ Hat) as (row & Hrow & Hc).
    rewrite list_lookup_fmap in Hrow.
    destruct (seq 0 (length (lat ds)) !! j) as [j'|] eqn:Hj; [|done].
    apply lookup_seq in Hj as [-> Hj]. injection Hrow as <-.
    rewrite list_lookup_fmap in Hc.
    destruct (seq 0 (length (lon ds)) !! i) as [i'|] eqn:Hi; [|done].
    apply lookup_seq in Hi as [-> Hi]. injection Hc as <-. done. }
  split.
  - intros j i a (_ & _ & ->)%Hcell. unfold cell_area.
    pose proof (Rabs_pos (cap_area (lin n s (length (lat ds)) j)
                          - cap_area (lin n s (length (lat ds)) (j + 1)))).
    pose proof (Rabs_pos (lin w e (length (lon ds)) i
                          - lin w e (length (lon ds)) (i + 1))).
    assert (0 <= Rabs (cap_area (lin n s (length (lat ds)) j)
                       - cap_area (lin n s (length (lat ds)) (j + 1)))
                 * Rabs (lin w e (length (lon ds)) i
                         - lin w e (length (lon ds)) (i + 1)))%R
      by (by apply Rmult_le_pos).
    lra.
  - intros j i i' a a' (_ & Hi & ->)%Hcell (_ & Hi' & ->)%Hcell.
    unfold cell_area. by rewrite !lon_width by lia.
Qed.

Lemma calc_area_nonnegative_and_uniform_in_longitude_witness :
  exists g, calc_area ds_band = Return g /\
    forall j i a, at2 (emi_area g) j i = Some a -> (0 <= a)%R.
Proof.
  eexists. split; [reflexivity|].
  exact (proj1 (calc_area_nonnegative_and_uniform_in_longitude ds_band _ eq_refl)).
Defined.

(** ** perdelta *)

Lemma elem_of_datetimes start end_ delta t :
  (0 < delta)%Z ->
  t ∈ datetimes start end_ delta <->
  exists n : nat, t = (start + Z.of_nat n * delta)%Z /\ (t <= end_)%Z.
Proof.
  intros Hd. unfold datetimes.
  destruct (Z.leb_spec start end_) as [Hle|Hgt].
  - rewrite list_elem_of_fmap. split.
    + intros (n & -> & Hn). apply elem_of_seq in Hn. exists n. split; [done|].
      assert (0 <= (end_ - start) / delta)%Z by (apply Z.div_pos; lia).
      assert (Z.of_nat n <= (end_ - start) / delta)%Z by lia.
      assert (Z.of_nat n * delta <= end_ - start)%Z; [|lia].
      transitivity ((end_ - start) / delta * delta)%Z; [nia|].
      rewrite Z.mul_comm. apply Z.mul_div_le. lia.
    + intros (n & -> & Hn). exists n. split; [done|]. apply elem_of_seq.
      assert (Z.of_nat n <= (end_ - start) / delta)%Z.
      { apply Z.div_le_lower_bound; lia. }
      lia.
  - split; [by intros ?%elem_of_nil|].
    intros (n & -> & Hn). nia.
Qed.

Lemma perdelta_fuel delta :
  (0 < delta)%Z ->
  forall fuel start end_,
    (Z.max 0 ((end_ - start) / delta + 1) < Z.of_nat fuel)%Z ->
    perdelta fuel start end_ delta = Some (datetimes start end_ delta).
Proof.
  intros Hd. induction fuel as [|fuel IH]; intros start end_ Hfuel; [lia|].
  cbn [perdelta]. destruct (Z.leb_spec start end_) as [Hle|Hgt].
  - rewrite (datetimes_cons start end_ delta) by done.
    rewrite IH; [done|].
    replace (end_ - start)%Z with ((end_ - (start + delta)) + 1 * delta)%Z
      in Hfuel by lia.
    rewrite Z.div_add in Hfuel by lia.
    assert (-1 <= (end_ - (start + delta)) / delta)%Z; [|lia].
    apply Z.div_le_lower_bound; lia.
  - unfold datetimes. by rewrite (proj2 (Z.leb_gt _ _)) by lia.
Qed.

(** With a positive step, a [start] that is a datetime and an [end_]
    that leaves room for one more step before [datetime.max], the
    generator ends after one more test of the loop condition than it has
    values to give: it yields exactly the datetimes [start + n * delta]
    that are not after [end_], in increasing order, and no [curr += delta]
    leaves the range of datetimes. *)
Theorem perdelta_yields_the_steps_up_to_end (fuel : nat) (start end_ delta : Z) :
  (0 < delta)%Z ->
  (datetime_min <= start)%Z -> (end_ + delta <= datetime_max)%Z ->
  (Z.max 0 ((end_ - start) / delta + 1) < Z.of_nat fuel)%Z ->
  exists l, perdelta fuel start end_ delta = Some l /\
    (forall t, t ∈ l <->
       exists n : nat, t = (start + Z.of_nat n * delta)%Z /\ (t <= end_)%Z) /\
    (forall i j x y, l !! i = Some x -> l !! j = Some y -> i < j -> (x < y)%Z) /\
    (forall t, t ∈ l -> (datetime_min <= t)%Z /\ (t + delta <= datetime_max)%Z).
Proof.
  intros Hd Hmin Hmax Hfuel. exists (datetimes start end_ delta).
  split; [by apply perdelta_fuel|].
  split; [intros t; by apply elem_of_datetimes|].
  split.
  - intros i j x y. unfold datetimes.
    destruct (Z.leb_spec start end_); [|done].
    rewrite !list_lookup_fmap.
    destruct (seq 0 _ !! i) as [i'|] eqn:Hi; [|done].
    destruct (seq 0 _ !! j) as [j'|] eqn:Hj; [|done].
    apply lookup_seq in Hi as [-> _]. apply lookup_seq in Hj as [-> _].
    intros [= <-] [= <-] Hij. nia.
  - intros t Ht. apply elem_of_datetimes in Ht as (n & -> & Hle); [|done]. nia.
Qed.

Lemma perdelta_yields_the_steps_up_to_end_witness :
  exists l, perdelta 30 0 (23 * one_hour) one_hour = Some l /\
    (forall t, t ∈ l <->
       exists n : nat, t = (0 + Z.of_nat n * one_hour)%Z /\ (t <= 23 * one_hour)%Z) /\
    (forall i j x y, l !! i = Some x -> l !! j = Some y -> i < j -> (x < y)%Z) /\
    (forall t, t ∈ l -> (datetime_min <= t)%Z /\ (t + one_hour <= datetime_max)%Z).
Proof.
  apply perdelta_yields_the_steps_up_to_end; reflexivity || (vm_compute; discriminate).
Defined.

(** With a zero step the loop of the generator never ends when [start]
    is not after [end_]: [curr] stays at [start], so that no addition
    leaves the range of datetimes, and no amount of fuel gives a
    result. *)
Theorem perdelta_never_ends_without_progress (fuel : nat) (start end_ : Z) :
  (start <= end_)%Z ->
  perdelta fuel start end_ 0 = None.
Proof.
  intros Hle. induction fuel as [|fuel IH]; [done|].
  cbn [perdelta]. rewrite (proj2 (Z.leb_le _ _) Hle).
  by rewrite Z.add_0_r, IH.
Qed.

Lemma perdelta_never_ends_without_progress_witness :
  perdelta 1000 0 10 0 = None.
Proof. apply perdelta_never_ends_without_progress; lia. Defined.

(** ** resample_WRF: methods, hours and the stacked slices *)

Lemma mapR_Return {A B} (f : A -> result B) (g : A -> B) (l : list A) :
  (forall x, x ∈ l -> f x = Return (g x)) -> mapR f l = Return (g <$> l).
Proof.
  induction l as [|x l IH]; intros Hf; [done|].
  cbn [mapR]. rewrite Hf by apply list_elem_of_here.
  cbn [mbind result_bind]. rewrite IH; [done|].
  intros y Hy. apply Hf. by apply list_elem_of_further.
Qed.

Lemma omap_fmap_None {A B} (l : list A) :
  omap (fun s : option B => s) ((fun _ => None) <$> l) = [].
Proof. by induction l. Qed.

Lemma omap_fmap_Some {A B} (g : A -> B) (l : list A) :
  omap (fun s : option B => s) ((fun x => Some (g x)) <$> l) = g <$> l.
Proof. induction l as [|x l IH]; [done|]. csimpl. by rewrite IH. Qed.

Section ResampleMethods.

Context (strftime : string -> Z -> string).
Context (resample_nearest :
           SwathDefinition -> field -> AreaDefinition -> R -> R -> result field).
Context (resample_custom :
           SwathDefinition -> field -> AreaDefinition -> R -> Z -> (cell -> cell) -> R
           -> result field).
Context (resample_bilinear :
           field -> SwathDefinition -> AreaDefinition -> R -> Z -> Z -> bool ->
           option Z -> R -> R -> result field).
Context (cfg : Config).

Local Abbreviation resample_slice' :=
  (resample_slice resample_nearest resample_custom resample_bilinear cfg).
Local Abbreviation resample_species' :=
  (resample_species resample_nearest resample_custom resample_bilinear cfg).
Local Abbreviation resample_WRF' :=
  (resample_WRF strftime resample_nearest resample_custom resample_bilinear cfg).

Lemma resample_slice_unsupported od ad sl :
  resample_method cfg <> "nearest" -> resample_method cfg <> "idw" ->
  resample_method cfg <> "bilinear" ->
  resample_slice' od ad sl = Return None.
Proof.
  intros H1 H2 H3. unfold resample_slice.
  by rewrite !(proj2 (String.eqb_neq _ _)) by done.
Qed.

Lemma resample_species_skip od ad emi chemi vname hv :
  py_in "E_" vname = false ->
  resample_species' od ad emi chemi (vname, hv) = Return chemi.
Proof. intros HE. unfold resample_species. by rewrite HE. Qed.

Lemma resample_species_unsupported od ad emi chemi vname hv :
  resample_method cfg <> "nearest" -> resample_method cfg <> "idw" ->
  resample_method cfg <> "bilinear" ->
  py_in "E_" vname = true ->
  resample_species' od ad emi chemi (vname, hv) =
    Raise (ValueError "need at least one array to concatenate").
Proof.
  intros H1 H2 H3 HE. unfold resample_species. rewrite HE.
  rewrite (mapR_Return _ (fun _ => None))
    by (intros; by apply resample_slice_unsupported).
  cbn [mbind result_bind]. by rewrite omap_fmap_None, decide_True.
Qed.

Lemma foldM_resample_unsupported od ad emi items chemi :
  resample_method cfg <> "nearest" -> resample_method cfg <> "idw" ->
  resample_method cfg <> "bilinear" ->
  (exists vname hv, (vname, hv) ∈ items /\ py_in "E_" vname = true) ->
  foldM (resample_species' od ad emi) chemi items =
    Raise (ValueError "need at least one array to concatenate").
Proof.
  intros H1 H2 H3. revert chemi.
  induction items as [|[v h] items IH]; intros chemi (vname & hv & Hin & HE).
  - by apply elem_of_nil in Hin.
  - cbn [foldM]. destruct (py_in "E_" v) eqn:Hv.
    + by rewrite resample_species_unsupported.
    + rewrite resample_species_skip by done. cbn [mbind result_bind]. apply IH.
      apply elem_of_cons in Hin as [[= -> ->]|Hin]; [congruence|eauto].
Qed.

(** A resampling method other than [nearest], [idw] and [bilinear] is
    not refused as such: no slice is resampled, and the stacking of the
    empty list of slices of the first species raises a [ValueError]. *)
Theorem resample_WRF_unsupported_method (fuel : nat) (area_def : AreaDefinition)
    (emi : EmiDataset) (st et delta : Z) :
  resample_method cfg <> "nearest" -> resample_method cfg <> "idw" ->
  resample_method cfg <> "bilinear" ->
  (Z.max 0 ((et - st) / one_hour + 1) < Z.of_nat fuel)%Z ->
  (exists vname hv, (vname, hv) ∈ emi_vars emi /\ py_in "E_" vname = true) ->
  resample_WRF' fuel area_def emi st et delta =
    Some (Raise (ValueError "need at least one array to concatenate")).
Proof.
  intros H1 H2 H3 Hfuel Hemi. unfold resample_WRF.
  rewrite (perdelta_fuel one_hour) by done. cbn [mbind option_bind].
  by rewrite foldM_resample_unsupported.
Qed.

End ResampleMethods.

Lemma resample_WRF_unsupported_method_witness :
  resample_WRF (fun _ _ => "") (fun _ d _ _ _ => Return d)
    (fun _ d _ _ _ _ _ => Return d) (fun d _ _ _ _ _ _ _ _ _ => Return d)
    {| yyyy := 2019; mm := 7; dd := 25; resample_method := "cubic";
       domain := "d01"; output_dir := "../output_files/" |}
    30 {| area_id := "wrf_circle"; proj := "lcc"; lat_0 := 0; lon_0 := 0;
          lat_1 := 0; lat_2 := 0; proj_a := 6370000; proj_b := 6370000;
          center := (0, 0)%R; radius := (1, 1)%R; shape := (1, 1)%Z |}
    {| emi_vars := [("E_NO", mkHourlyVar [[[Some 1%R]]] (Some "mol km-2 hr-1"))];
       longitude := [[100%R]]; latitude := [[30%R]] |}
    0 (23 * one_hour) 1 =
  Some (Raise (ValueError "need at least one array to concatenate")).
Proof.
  apply resample_WRF_unsupported_method; [done | done | done | reflexivity |].
  eexists _, _. split; [apply list_elem_of_here | reflexivity].
Defined.

Lemma dims_stacked (g : field -> field) (hours : list field) at_ ny nx :
  hours <> [] -> 0 < ny ->
  (forall sl, sl ∈ hours ->
     length (g sl) = ny /\ Forall (fun row => length row = nx) (g sl)) ->
  dims (FieldVar ((fun sl : field => [reverse (g sl)]) <$> hours) at_) =
    wrf_dims (length hours) ny nx.
Proof.
  intros Hne Hny Hg. destruct hours as [|sl0 rest]; [done|].
  destruct (Hg sl0 ltac:(apply list_elem_of_here)) as [Hlen Hrows].
  unfold dims, wrf_dims. rewrite length_fmap. csimpl.
  rewrite length_reverse, Hlen, head_reverse.
  destruct (last (g sl0)) as [row|] eqn:Hlast.
  - apply last_Some_elem_of in Hlast.
    rewrite Forall_forall in Hrows. simpl. by rewrite (Hrows row Hlast).
  - apply last_None in Hlast. rewrite Hlast in Hlen. simpl in Hlen. lia.
Qed.

Lemma sizes_agree_wrf v w T ny nx :
  dims v = wrf_dims T ny nx ->
  dims w = wrf_dims T ny nx \/ dims w = [("Time", T)] ->
  sizes_agree v w = true.
Proof.
  intros Hv [Hw|Hw]; unfold sizes_agree; rewrite Hv, Hw; unfold wrf_dims;
    cbn; by rewrite !Nat.eqb_refl.
Qed.

Lemma sizes_agree_Time data at_ stamps :
  sizes_agree (FieldVar data at_) (TimesVar stamps) = true ->
  length data = length stamps.
Proof.
  unfold sizes_agree. cbn. rewrite !andb_true_r. apply Nat.eqb_eq.
Qed.

Lemma dict_get_NoDup {V} (d : list (string * V)) key v :
  NoDup d.*1 -> (key, v) ∈ d -> dict_get d key = Return v.
Proof.
  induction d as [|[k w] d IH]; intros Hnd Hin; [by apply elem_of_nil in Hin|].
  apply NoDup_cons in Hnd as [Hk Hnd]. cbn [dict_get].
  apply elem_of_cons in Hin as [[= <- <-]|Hin].
  - by rewrite String.eqb_refl.
  - destruct (String.eqb_spec k key) as [->|_]; [|by apply IH].
    exfalso. apply Hk. apply list_elem_of_fmap. by exists (key, v).
Qed.

Lemma length_mapR {A B} (f : A -> result B) l l' :
  mapR f l = Return l' -> length l' = length l.
Proof.
  revert l'. induction l as [|x l IH]; intros l'; cbn [mapR].
  - by intros [= <-].
  - destruct (f x); [|done]. cbn [mbind result_bind].
    destruct (mapR f l) as [ys|]; [|done]. cbn [mbind result_bind].
    intros [= <-]. cbn. by rewrite (IH ys).
Qed.

Lemma perdelta_Some delta fuel start end_ l :
  (0 < delta)%Z -> perdelta fuel start end_ delta = Some l ->
  l = datetimes start end_ delta.
Proof.
  intros Hd. revert start l. induction fuel as [|fuel IH]; intros start l; [done|].
  cbn [perdelta]. destruct (Z.leb_spec start end_) as [Hle|Hgt].
  - destruct (perdelta fuel _ _ _) as [l'|] eqn:Hl'; [|done].
    intros [= <-]. rewrite (datetimes_cons start end_ delta) by done.
    f_equal. by apply IH.
  - intros [= <-]. unfold datetimes. by rewrite (proj2 (Z.leb_gt _ _)) by lia.
Qed.

Section ResampleRun.

Context (strftime : string -> Z -> string).
Context (resample_nearest :
           SwathDefinition -> field -> AreaDefinition -> R -> R -> result field).
Context (resample_custom :
           SwathDefinition -> field -> AreaDefinition -> R -> Z -> (cell -> cell) -> R
           -> result field).
Context (resample_bilinear :
           field -> SwathDefinition -> AreaDefinition -> R -> Z -> Z -> bool ->
           option Z -> R -> R -> result field).
Context (cfg : Config).

Local Abbreviation resample_slice' :=
  (resample_slice resample_nearest resample_custom resample_bilinear cfg).
Local Abbreviation resample_species' :=
  (resample_species resample_nearest resample_custom resample_bilinear cfg).
Local Abbreviation resample_WRF' :=
  (resample_WRF strftime resample_nearest resample_custom resample_bilinear cfg).

Lemma resample_species_Return od ad emi chemi vname hv u (g : field -> field) ny nx :
  py_in "E_" vname = true ->
  (forall sl, sl ∈ hv_values hv ->
     resample_slice' od ad sl = Return (Some (g sl)) /\
     length (g sl) = ny /\ Forall (fun row => length row = nx) (g sl)) ->
  hv_values hv <> [] -> 0 < ny ->
  on_grid (length (hv_values hv)) ny nx chemi ->
  dict_get (emi_vars emi) vname = Return hv -> hv_units hv = Some u ->
  resample_species' od ad emi chemi (vname, hv) =
    Return (<[vname := FieldVar ((fun sl : field => [reverse (g sl)]) <$> hv_values hv)
                         (v_attrs vname u)]> chemi) /\
  on_grid (length (hv_values hv)) ny nx
    (<[vname := FieldVar ((fun sl : field => [reverse (g sl)]) <$> hv_values hv)
                         (v_attrs vname u)]> chemi).
Proof.
  intros HE Hg Hne Hny Hgrid Hget Hu.
  assert (Hdims : forall at_,
    dims (FieldVar ((fun sl : field => [reverse (g sl)]) <$> hv_values hv) at_) =
      wrf_dims (length (hv_values hv)) ny nx).
  { intros at_. apply dims_stacked; [done..|]. intros sl Hsl. by apply Hg. }
  split.
  - unfold resample_species. rewrite HE.
    rewrite (mapR_Return _ (fun sl => Some (g sl))) by (intros sl Hsl; by apply Hg).
    cbn [mbind result_bind]. rewrite omap_fmap_Some, <- list_fmap_compose.
    change ((fun sl : field => [reverse sl]) ∘ g)
      with (fun sl : field => [reverse (g sl)]).
    rewrite decide_False by (by destruct (hv_values hv)).
    rewrite setitem_Return.
    2:{ intros k w Hk. eapply sizes_agree_wrf; [apply Hdims|]. by apply (Hgrid k). }
    cbn [mbind result_bind]. rewrite Hget. cbn [mbind result_bind].
    rewrite Hu. cbn [mbind result_bind]. by rewrite insert_insert_eq.
  - apply map_Forall_insert_2; [left; apply Hdims | done].
Qed.

Lemma foldM_resample_species_Return od ad emi (g : field -> field) T ny nx items :
  0 < T -> 0 < ny -> NoDup items.*1 ->
  (forall vname hv, (vname, hv) ∈ items -> py_in "E_" vname = true ->
     dict_get (emi_vars emi) vname = Return hv /\
     length (hv_values hv) = T /\ is_Some (hv_units hv) /\
     forall sl, sl ∈ hv_values hv ->
       resample_slice' od ad sl = Return (Some (g sl)) /\
       length (g sl) = ny /\ Forall (fun row => length row = nx) (g sl)) ->
  forall chemi, on_grid T ny nx chemi ->
  exists chemi',
    foldM (resample_species' od ad emi) chemi items = Return chemi' /\
    on_grid T ny nx chemi' /\
    (forall vname hv u, (vname, hv) ∈ items -> py_in "E_" vname = true ->
       hv_units hv = Some u ->
       chemi' !! vname =
         Some (FieldVar ((fun sl : field => [reverse (g sl)]) <$> hv_values hv)
                        (v_attrs vname u))) /\
    (forall k, (forall hv, (k, hv) ∈ items -> py_in "E_" k = false) ->
       chemi' !! k = chemi !! k).
Proof.
  intros HT Hny. induction items as [|[v h] items IH]; intros Hnd Hitems chemi Hgrid.
  - exists chemi. cbn [foldM]. split; [done|]. split; [done|].
    split; [|done]. intros vname hv u Hin. by apply elem_of_nil in Hin.
  - rewrite fmap_cons in Hnd. apply NoDup_cons in Hnd as [Hv Hnd]. cbn [foldM].
    assert (Hrest : forall vname hv, (vname, hv) ∈ items -> py_in "E_" vname = true ->
       dict_get (emi_vars emi) vname = Return hv /\
       length (hv_values hv) = T /\ is_Some (hv_units hv) /\
       forall sl, sl ∈ hv_values hv ->
         resample_slice' od ad sl = Return (Some (g sl)) /\
         length (g sl) = ny /\ Forall (fun row => length row = nx) (g sl)).
    { intros vname hv Hin. apply Hitems. by apply list_elem_of_further. }
    assert (Hfresh : forall hv, (v, hv) ∈ items -> False).
    { intros hv Hin. apply Hv. apply list_elem_of_fmap. by exists (v, hv). }
    destruct (py_in "E_" v) eqn:HE.
    + destruct (Hitems v h ltac:(apply list_elem_of_here) HE)
        as (Hget & Hlen & [u Hu] & Hg).
      assert (Hne : hv_values h <> []).
      { intros Hnil. rewrite Hnil in Hlen. simpl in Hlen. lia. }
      rewrite <- Hlen in Hgrid.
      destruct (resample_species_Return od ad emi chemi v h u g ny nx
                  HE Hg Hne Hny Hgrid Hget Hu) as [Hstep Hgrid1].
      rewrite Hstep. cbn [mbind result_bind]. rewrite Hlen in Hgrid1.
      destruct (IH Hnd Hrest _ Hgrid1) as (chemi' & Hfold & Hgrid' & Hvars & Hother).
      exists chemi'. split; [done|]. split; [done|]. split.
      * intros vname hv u' Hin HE' Hu'.
        apply elem_of_cons in Hin as [[= -> ->]|Hin]; [|by apply Hvars].
        rewrite Hother by (intros hv Hin; by destruct (Hfresh hv)).
        rewrite lookup_insert_eq. congruence.
      * intros k Hk. rewrite Hother.
        -- apply lookup_insert_ne. intros <-.
           specialize (Hk h ltac:(apply list_elem_of_here)). congruence.
        -- intros hv Hin. apply (Hk hv). by apply list_elem_of_further.
    + rewrite resample_species_skip by done. cbn [mbind result_bind].
      destruct (IH Hnd Hrest _ Hgrid) as (chemi' & Hfold & Hgrid' & Hvars & Hother).
      exists chemi'. split; [done|]. split; [done|]. split.
      * intros vname hv u' Hin HE' Hu'.
        apply elem_of_cons in Hin as [[= -> ->]|Hin]; [congruence|by eapply Hvars].
      * intros k Hk. apply Hother. intros hv Hin. apply (Hk hv).
        by apply list_elem_of_further.
Qed.

Lemma length_datetimes_pos st et delta :
  (st <= et)%Z -> 0 < length (datetimes st et delta).
Proof.
  intros Hle. unfold datetimes. rewrite (proj2 (Z.leb_le _ _) Hle).
  rewrite length_fmap, length_seq. lia.
Qed.

Lemma resample_slice_Some_or_None od ad :
  (forall sl, resample_slice' od ad sl = Return None) \/
  (forall sl o, resample_slice' od ad sl = Return o -> is_Some o).
Proof.
  unfold resample_slice.
  destruct (String.eqb _ "nearest");
    [|destruct (String.eqb _ "idw"); [|destruct (String.eqb _ "bilinear")]];
    [right|right|right|by left];
    intros sl o; (destruct (_ : result field); [|done]); by intros [= <-].
Qed.

Lemma length_omap_is_Some {A} (l : list (option A)) :
  Forall is_Some l -> length (omap (fun s : option A => s) l) = length l.
Proof.
  induction 1 as [|x l [y ->] _ IH]; [done|]. csimpl. by rewrite IH.
Qed.

Lemma mapR_Forall {A B} (f : A -> result B) (P : B -> Prop) l l' :
  (forall x y, f x = Return y -> P y) -> mapR f l = Return l' -> Forall P l'.
Proof.
  intros Hf. revert l'. induction l as [|x l IH]; intros l'; cbn [mapR].
  - by intros [= <-].
  - destruct (f x) as [y|] eqn:Hy; [|done]. cbn [mbind result_bind].
    destruct (mapR f l) as [ys|]; [|done]. cbn [mbind result_bind].
    intros [= <-]. constructor; [by eapply Hf | by apply IH].
Qed.

Lemma resample_species_hours od ad emi stamps chemi vname hv chemi' :
  hours_of stamps chemi ->
  resample_species' od ad emi chemi (vname, hv) = Return chemi' ->
  hours_of stamps chemi' /\
  (forall k, is_Some (chemi !! k) -> is_Some (chemi' !! k)) /\
  (py_in "E_" vname = true ->
   length (hv_values hv) = length stamps /\ is_Some (chemi' !! vname)).
Proof.
  intros [Htimes Hvars]. unfold resample_species.
  destruct (py_in "E_" vname) eqn:HE; [|by intros [= <-]].
  assert (Hne : vname <> "Times") by (intros ->; discriminate HE).
  destruct (mapR _ _) as [slices|] eqn:Hmap; [|done]. cbn [mbind result_bind].
  case_decide as Hnil; [done|].
  destruct (setitem _ _ _) as [chemi1|] eqn:Hset; [|done].
  cbn [mbind result_bind].
  destruct (dict_get _ _) as [hv'|]; [|done]. cbn [mbind result_bind].
  destruct (hv_units hv') as [u|]; [|done]. cbn [mbind result_bind].
  intros [= <-]. pose proof Hset as Hagree.
  unfold setitem in Hagree. case_decide as Hall; [|done]. clear Hagree.
  apply setitem_inv in Hset as ->. rewrite insert_insert_eq.
  pose proof (Hall "Times" _ Htimes) as Hagree. cbn beta in Hagree.
  apply sizes_agree_Time in Hagree. rewrite length_fmap in Hagree.
  assert (Hlen : length (omap (fun s : option field => s) slices) =
                 length (hv_values hv)).
  { destruct (resample_slice_Some_or_None od ad) as [Hnone|Hsome].
    - destruct Hnil. rewrite (mapR_Return _ (fun _ => None)) in Hmap by done.
      injection Hmap as <-. apply omap_fmap_None.
    - rewrite length_omap_is_Some; [by eapply length_mapR|].
      eapply mapR_Forall; [|done]. apply Hsome. }
  split; [split|split].
  - by rewrite lookup_insert_ne.
  - intros k w Hk Hkt. apply lookup_insert_Some in Hk as [[<- <-]|[_ Hk]];
      [|by eapply Hvars].
    eexists _, _. split; [done|]. rewrite length_fmap. split; [done|].
    apply Forall_fmap, Forall_true. done.
  - intros k Hk. destruct (decide (vname = k)) as [->|Hk'].
    + rewrite lookup_insert_eq. by eexists.
    + by rewrite lookup_insert_ne.
  - intros _. split; [congruence|]. rewrite lookup_insert_eq. by eexists.
Qed.

Lemma foldM_resample_species_hours od ad emi stamps items chemi chemi' :
  hours_of stamps chemi ->
  foldM (resample_species' od ad emi) chemi items = Return chemi' ->
  hours_of stamps chemi' /\
  forall vname hv, (vname, hv) ∈ items -> py_in "E_" vname = true ->
    length (hv_values hv) = length stamps /\ is_Some (chemi' !! vname).
Proof.
  revert chemi. induction items as [|[v h] items IH]; intros chemi Hinv; cbn [foldM].
  - intros [= <-]. split; [done|]. intros vname hv Hin. by apply elem_of_nil in Hin.
  - destruct (resample_species' _ _ _ _ _) as [chemi1|] eqn:Hstep; [|done].
    cbn [mbind result_bind]. intros Hfold.
    destruct (resample_species_hours _ _ _ _ _ _ _ _ Hinv Hstep)
      as (Hinv1 & Hkeep & Hhead).
    destruct (IH _ Hinv1 Hfold) as [Hinv' Htail]. split; [done|].
    intros vname hv Hin HE.
    apply elem_of_cons in Hin as [[= -> ->]|Hin]; [|by apply Htail].
    destruct (Hhead HE) as [Hlen Hsome]. split; [done|].
    clear Hstep Hhead Htail Hinv Hinv1 Hinv' Hkeep IH.
    revert chemi1 Hsome Hfold. induction items as [|[v' h'] items IH];
      intros chemi1 Hsome; cbn [foldM].
    + by intros [= <-].
    + destruct (resample_species' _ _ _ _ _) as [chemi2|] eqn:Hstep; [|done].
      cbn [mbind result_bind]. apply IH.
      unfold resample_species in Hstep.
      destruct (py_in "E_" v'); [|by injection Hstep as <-].
      destruct (mapR _ _); [|done]. cbn [mbind result_bind] in Hstep.
      case_decide; [done|]. destruct (setitem _ _ _) as [c|] eqn:Hset; [|done].
      apply setitem_inv in Hset as ->. cbn [mbind result_bind] in Hstep.
      destruct (dict_get _ _) as [hv'|]; [|done]. cbn [mbind result_bind] in Hstep.
      destruct (hv_units hv'); [|done]. cbn [mbind result_bind] in Hstep.
      injection Hstep as <-. rewrite insert_insert_eq.
      destruct (decide (v' = v)) as [->|Hne].
      * rewrite lookup_insert_eq. by eexists.
      * by rewrite lookup_insert_ne.
Qed.

Lemma resample_WRF_Return (fuel : nat) (area_def : AreaDefinition)
    (emi : EmiDataset) (st et delta : Z) (g : field -> field) (ny nx : nat) :
  (st <= et)%Z ->
  (Z.max 0 ((et - st) / one_hour + 1) < Z.of_nat fuel)%Z ->
  0 < ny ->
  NoDup (emi_vars emi).*1 ->
  (forall vname hv, (vname, hv) ∈ emi_vars emi -> py_in "E_" vname = true ->
     length (hv_values hv) = length (datetimes st et one_hour) /\
     is_Some (hv_units hv) /\
     forall sl, sl ∈ hv_values hv ->
       resample_slice' {| lons := longitude emi; lats := latitude emi |} area_def sl =
         Return (Some (g sl)) /\
       length (g sl) = ny /\ Forall (fun row => length row = nx) (g sl)) ->
  exists chemi,
    resample_WRF' fuel area_def emi st et delta = Some (Return chemi) /\
    chemi !! "Times" =
      Some (TimesVar (strftime "%Y-%m-%d_%H:%M:%S" <$> datetimes st et one_hour)) /\
    (forall vname hv u, (vname, hv) ∈ emi_vars emi -> py_in "E_" vname = true ->
       hv_units hv = Some u ->
       chemi !! vname =
         Some (FieldVar ((fun sl : field => [reverse (g sl)]) <$> hv_values hv)
                        (v_attrs vname u))) /\
    (forall k, is_Some (chemi !! k) ->
       k = "Times" \/ exists hv, (k, hv) ∈ emi_vars emi /\ py_in "E_" k = true).
Proof.
  intros Hle Hfuel Hny Hnd Hemi. unfold resample_WRF.
  rewrite (perdelta_fuel one_hour) by done. cbn [mbind option_bind].
  set (stamps := strftime "%Y-%m-%d_%H:%M:%S" <$> datetimes st et one_hour).
  destruct (foldM_resample_species_Return
              {| lons := longitude emi; lats := latitude emi |} area_def emi g
              (length (datetimes st et one_hour)) ny nx (emi_vars emi)
              (length_datetimes_pos st et one_hour Hle) Hny Hnd)
    with (chemi := ({[ "Times" := TimesVar stamps ]} : gmap string NcVariable))
    as (chemi' & Hfold & _ & Hvars & Hother).
  - intros vname hv Hin HE. destruct (Hemi vname hv Hin HE) as (Hlen & Hu & Hg).
    split; [by apply dict_get_NoDup|done].
  - intros k w [<- <-]%lookup_singleton_Some. right.
    unfold dims, stamps. by rewrite length_fmap.
  - exists chemi'. split; [by rewrite Hfold|]. split; [|split; [done|]].
    + rewrite Hother; [apply lookup_singleton_eq|]. by intros hv _.
    + intros k Hk. destruct (decide (k = "Times")) as [->|Hne]; [by left|]. right.
      destruct (py_in "E_" k) eqn:HE.
      * destruct (decide (k ∈ (emi_vars emi).*1)) as [Hin|Hnin].
        -- apply list_elem_of_fmap in Hin as ([k' hv] & -> & Hin). by exists hv.
        -- rewrite Hother in Hk.
           ++ rewrite lookup_singleton_ne in Hk by done. by destruct Hk.
           ++ intros hv Hin. destruct Hnin. apply list_elem_of_fmap. by exists (k, hv).
      * rewrite Hother in Hk by done.
        rewrite lookup_singleton_ne in Hk by done. by destruct Hk.
Qed.

(** When every slice of every species is resampled to a grid of [ny] by
    [nx] cells, and every species has one slice for each hour from [st]
    to [et], [resample_WRF] returns: the dataset holds [Times] and, for
    each species, a variable with the attributes of a WRF-Chem emission
    variable and the units of the species; hour [t] of the variable is
    the resampled slice [t] of the species under a single level, row [j]
    of the slice being row [ny - 1 - j] of the variable; the dataset
    holds nothing else. *)
Theorem resample_WRF_stacks_the_hours (fuel : nat) (area_def : AreaDefinition)
    (emi : EmiDataset) (st et delta : Z) (g : field -> field) (ny nx : nat) :
  (st <= et)%Z ->
  (Z.max 0 ((et - st) / one_hour + 1) < Z.of_nat fuel)%Z ->
  0 < ny ->
  NoDup (emi_vars emi).*1 ->
  (forall vname hv, (vname, hv) ∈ emi_vars emi -> py_in "E_" vname = true ->
     length (hv_values hv) = length (datetimes st et one_hour) /\
     is_Some (hv_units hv) /\
     forall sl, sl ∈ hv_values hv ->
       resample_slice' {| lons := longitude emi; lats := latitude emi |} area_def sl =
         Return (Some (g sl)) /\
       length (g sl) = ny /\ Forall (fun row => length row = nx) (g sl)) ->
  exists chemi,
    resample_WRF' fuel area_def emi st et delta = Some (Return chemi) /\
    chemi !! "Times" =
      Some (TimesVar (strftime "%Y-%m-%d_%H:%M:%S" <$> datetimes st et one_hour)) /\
    (forall vname hv u, (vname, hv) ∈ emi_vars emi -> py_in "E_" vname = true ->
       hv_units hv = Some u ->
       exists data,
         chemi !! vname = Some (FieldVar data (v_attrs vname u)) /\
         length data = length (datetimes st et one_hour) /\
         forall t sl, hv_values hv !! t = Some sl ->
           exists rows, data !! t = Some [rows] /\ length rows = ny /\
             forall j row, g sl !! j = Some row -> rows !! (ny - 1 - j) = Some row) /\
    (forall k, is_Some (chemi !! k) ->
       k = "Times" \/ exists hv, (k, hv) ∈ emi_vars emi /\ py_in "E_" k = true).
Proof.
  intros Hle Hfuel Hny Hnd Hemi.
  destruct (resample_WRF_Return fuel area_def emi st et delta g ny nx
              Hle Hfuel Hny Hnd Hemi) as (chemi & Hrun & Htimes & Hvars & Hdom).
  exists chemi. split; [done|]. split; [done|]. split; [|done].
  intros vname hv u Hin HE Hu. eexists. split; [by apply Hvars|].
  destruct (Hemi vname hv Hin HE) as (Hlen & _ & Hg).
  split; [by rewrite length_fmap|].
  intros t sl Ht. exists (reverse (g sl)).
  destruct (Hg sl (list_elem_of_lookup_2 _ _ _ Ht)) as (_ & Hrows & _).
  split; [by rewrite list_lookup_fmap, Ht|].
  split; [by rewrite length_reverse|].
  intros j row Hj. pose proof (lookup_lt_Some _ _ _ Hj) as Hlt.
  rewrite reverse_lookup by (rewrite Hrows; lia).
  rewrite Hrows. replace (ny - S (ny - 1 - j)) with j by lia. done.
Qed.

(** A run of [resample_WRF] that returns has given every species as
    many hours as there are hourly datetimes from [st] to [et]: the
    variable of a species shares the dimension [Time] with [Times]. *)
Theorem resample_WRF_one_stamp_per_hour (fuel : nat) (area_def : AreaDefinition)
    (emi : EmiDataset) (st et delta : Z) (chemi : gmap string NcVariable) :
  resample_WRF' fuel area_def emi st et delta = Some (Return chemi) ->
  forall vname hv, (vname, hv) ∈ emi_vars emi -> py_in "E_" vname = true ->
    length (hv_values hv) = length (datetimes st et one_hour) /\
    exists data at_,
      chemi !! vname = Some (FieldVar data at_) /\
      length data = length (datetimes st et one_hour) /\
      Forall (fun lev => length lev = 1) data.
Proof.
  unfold resample_WRF. intros Hrun.
  destruct (perdelta fuel st et one_hour) as [l|] eqn:Hl; [|done].
  apply (perdelta_Some one_hour) in Hl as ->; [|done].
  cbn [mbind option_bind] in Hrun. injection Hrun as Hrun.
  intros vname hv Hin HE.
  assert (Hinv0 : hours_of (strftime "%Y-%m-%d_%H:%M:%S" <$> datetimes st et one_hour)
                    {[ "Times" := TimesVar (strftime "%Y-%m-%d_%H:%M:%S" <$>
                                              datetimes st et one_hour) ]}).
  { split; [apply lookup_singleton_eq|].
    intros k w [<- <-]%lookup_singleton_Some. done. }
  destruct (foldM_resample_species_hours _ _ _ _ _ _ _ Hinv0 Hrun) as (Hinv & Hitems).
  destruct (Hitems vname hv Hin HE) as [Hlen Hsome].
  rewrite length_fmap in Hlen. split; [done|].
  destruct Hsome as [w Hw]. destruct Hinv as [Htimes Hvars].
  destruct (Hvars vname w Hw) as (data & at_ & -> & Hdata & Hlev).
  { intros ->. discriminate HE. }
  rewrite length_fmap in Hdata. by exists data, at_.
Qed.

End ResampleRun.

Lemma emi0_resampled vname hv :
  (vname, hv) ∈ emi_vars emi0 -> py_in "E_" vname = true ->
  length (hv_values hv) = length (datetimes 0 (23 * one_hour) one_hour) /\
  is_Some (hv_units hv) /\
  forall sl, sl ∈ hv_values hv ->
    resample_slice nearest0 custom0 bilinear0 cfg0
      {| lons := longitude emi0; lats := latitude emi0 |} area0 sl =
      Return (Some sl) /\
    length sl = 1 /\ Forall (fun row => length row = 1) sl.
Proof.
  intros Hin _. unfold emi0 in Hin. cbn [emi_vars] in Hin.
  apply elem_of_cons in Hin as [[= -> ->]|Hin];
    [|apply elem_of_cons in Hin as [[= -> ->]|Hin]; [|by apply elem_of_nil in Hin]].
  all: cbn [hv_values hv_units]; split; [reflexivity|]; split; [by eexists|].
  all: intros sl Hsl.
  all: repeat (apply elem_of_cons in Hsl as [->|Hsl];
               [split; [reflexivity|split; [reflexivity|by repeat constructor]]|]).
  all: by apply elem_of_nil in Hsl.
Qed.

Lemma emi0_NoDup : NoDup (emi_vars emi0).*1.
Proof. cbn. apply NoDup_cons. split; [|apply NoDup_singleton].
  rewrite list_elem_of_singleton. done. Qed.

Lemma resample_WRF_stacks_the_hours_witness :
  exists chemi,
    resample_WRF strftime0 nearest0 custom0 bilinear0 cfg0 30 area0 emi0
      0 (23 * one_hour) 1 = Some (Return chemi) /\
    is_Some (chemi !! "E_SO2").
Proof.
  destruct (resample_WRF_stacks_the_hours strftime0 nearest0 custom0 bilinear0 cfg0
              30 area0 emi0 0 (23 * one_hour) 1 (fun sl => sl) 1 1)
    as (chemi & Hrun & _ & Hvars & _).
  - unfold one_hour. lia.
  - reflexivity.
  - lia.
  - apply emi0_NoDup.
  - apply emi0_resampled.
  - exists chemi. split; [exact Hrun|].
    destruct (Hvars "E_SO2" (mkHourlyVar (replicate 24 [[Some 2%R]])
                               (Some "mol km-2 hr-1")) "mol km-2 hr-1")
      as (data & Hdata & _).
    + unfold emi0. cbn [emi_vars]. apply list_elem_of_further, list_elem_of_here.
    + reflexivity.
    + reflexivity.
    + rewrite Hdata. by eexists.
Defined.

Lemma resample_WRF_one_stamp_per_hour_witness :
  length (replicate 24 [[Some 1%R]]) = length (datetimes 0 (23 * one_hour) one_hour).
Proof.
  destruct (resample_WRF_Return strftime0 nearest0 custom0 bilinear0 cfg0
              30 area0 emi0 0 (23 * one_hour) 1 (fun sl => sl) 1 1)
    as (chemi & Hrun & _).
  - unfold one_hour. lia.
  - reflexivity.
  - lia.
  - apply emi0_NoDup.
  - apply emi0_resampled.
  - apply (resample_WRF_one_stamp_per_hour strftime0 nearest0 custom0 bilinear0 cfg0
             30 area0 emi0 0 (23 * one_hour) 1 chemi Hrun "E_NO"
             (mkHourlyVar (replicate 24 [[Some 1%R]]) (Some "mol km-2 hr-1"))).
    + unfold emi0. cbn [emi_vars]. apply list_elem_of_here.
    + reflexivity.
Defined.

(** ** Absent cells, from the inventory to the resampled field *)






Section Resampling.

Context (strftime : string -> Z -> string).
Context (resample_nearest :
           SwathDefinition -> field -> AreaDefinition -> R -> R -> result field).
Context (resample_custom :
           SwathDefinition -> field -> AreaDefinition -> R -> Z -> (cell -> cell) -> R
           -> result field).
Context (resample_bilinear :
           field -> SwathDefinition -> AreaDefinition -> R -> Z -> Z -> bool ->
           option Z -> R -> R -> result field).
Context (cfg : Config).

Local Abbreviation resample_slice' :=
  (resample_slice resample_nearest resample_custom resample_bilinear cfg).
Local Abbreviation resample_WRF' :=
  (resample_WRF strftime resample_nearest resample_custom resample_bilinear cfg).



End Resampling.





(** ** replace_var *)

Lemma append_inj_l (p s t : string) : p +:+ s = p +:+ t -> s = t.
Proof. induction p as [|a p IH]; [done|]. cbn. intros [= H]. by apply IH. Qed.

Lemma wrfchemi_files_differ (dir dom : string) :
  dir +:+ "wrfchemi_00z_" +:+ dom <> dir +:+ "wrfchemi_12z_" +:+ dom.
Proof. intros H%append_inj_l. discriminate H. Qed.

(** A pass of the loop that returns has met no file: it has printed the
    message and changed nothing. *)
Lemma replace_file_Return_inv chemi fs out index file fs' out' :
  replace_file chemi (fs, out) (index, file) = Return (fs', out') ->
  files fs !! file = None /\ fs' = fs /\
  out' = (out ++ ["!!! Please run mozcart.py first !!!"])%list.
Proof.
  intros Hrun. destruct (files fs !! file) as [ds|] eqn:Hfile.
  - by destruct (replace_file_existing chemi fs out index file ds (fs', out') Hfile).
  - rewrite replace_file_missing in Hrun by done. by injection Hrun as <- <-.
Qed.

Lemma replace_file_no_E_NO chemi fs out index file ds :
  files fs !! file = Some ds -> index < 2 -> chemi !! "E_NO" = None ->
  replace_file chemi (fs, out) (index, file) = Raise (KeyError "E_NO").
Proof.
  intros Hfile Hindex Hno. unfold replace_file, getitem. rewrite Hfile.
  destruct index as [|[|index]]; [| |lia];
    cbn [tindex lookup list_lookup mbind result_bind]; by rewrite Hno.
Qed.

Lemma replace_file_other_length chemi fs out file ds stamps no at_ :
  files fs !! file = Some ds ->
  ds !! "Times" = Some (TimesVar stamps) ->
  length stamps <> 12 ->
  chemi !! "E_NO" = Some (FieldVar no at_) ->
  12 <= length no ->
  replace_file chemi (fs, out) (0, file) =
    Raise (ValueError "conflicting sizes for dimension").
Proof.
  intros Hfile Htimes Hlen Hno Hhours. unfold replace_file, getitem.
  rewrite Hfile. cbn [tindex lookup list_lookup mbind result_bind]. rewrite Hno.
  cbn [mbind result_bind isel_Time].
  rewrite take_indices_seq_ok by (simpl; lia). cbn [fmap result_fmap mbind result_bind].
  rewrite setitem_Raise; [done|].
  intros Hall. pose proof (Hall "Times" _ Htimes) as Hagree. cbn beta in Hagree.
  apply sizes_agree_Time in Hagree. rewrite length_take, drop_0 in Hagree. lia.
Qed.

Section ReplaceVar.

Context (cfg : Config).

Local Abbreviation chem1 := (output_dir cfg +:+ "wrfchemi_00z_" +:+ domain cfg).
Local Abbreviation chem2 := (output_dir cfg +:+ "wrfchemi_12z_" +:+ domain cfg).

Lemma replace_var_unfold chemi fs :
  replace_var cfg chemi fs =
    (s ← replace_file chemi
           (if decide (output_dir cfg ∈ dirs fs) then fs
            else {| dirs := {[ output_dir cfg ]} ∪ dirs fs; files := files fs |}, [])
           (0, chem1);
     replace_file chemi s (1, chem2)).
Proof.
  unfold replace_var. cbn [foldM zip zip_with seq].
  destruct (replace_file _ _ _) as [s|]; [|done]. cbn [mbind result_bind].
  by destruct (replace_file _ _ _).
Qed.

(** With neither baseline file, [replace_var] makes the output directory
    if it is missing and prints its message twice. *)
Lemma replace_var_missing chemi fs :
  files fs !! chem1 = None -> files fs !! chem2 = None ->
  replace_var cfg chemi fs =
    Return (if decide (output_dir cfg ∈ dirs fs) then fs
            else {| dirs := {[ output_dir cfg ]} ∪ dirs fs; files := files fs |},
            ["!!! Please run mozcart.py first !!!";
             "!!! Please run mozcart.py first !!!"]).
Proof.
  intros H1 H2. rewrite replace_var_unfold.
  set (fs0 := if decide (output_dir cfg ∈ dirs fs) then fs
              else {| dirs := {[ output_dir cfg ]} ∪ dirs fs; files := files fs |}).
  assert (Hfiles : files fs0 = files fs) by (unfold fs0; by case_decide).
  clearbody fs0.
  rewrite replace_file_missing by (by rewrite Hfiles). cbn [mbind result_bind].
  by rewrite replace_file_missing by (by rewrite Hfiles).
Qed.

(** A run of [replace_var] that returns has found neither file. *)
Lemma replace_var_Return_inv chemi fs fs' stdout :
  replace_var cfg chemi fs = Return (fs', stdout) ->
  files fs !! chem1 = None /\ files fs !! chem2 = None /\
  fs' = (if decide (output_dir cfg ∈ dirs fs) then fs
         else {| dirs := {[ output_dir cfg ]} ∪ dirs fs; files := files fs |}) /\
  stdout = ["!!! Please run mozcart.py first !!!";
            "!!! Please run mozcart.py first !!!"].
Proof.
  rewrite replace_var_unfold.
  set (fs0 := if decide (output_dir cfg ∈ dirs fs) then fs
              else {| dirs := {[ output_dir cfg ]} ∪ dirs fs; files := files fs |}).
  assert (Hfiles : files fs0 = files fs) by (unfold fs0; by case_decide).
  clearbody fs0.
  destruct (replace_file chemi (fs0, []) (0, chem1)) as [[fs1 out1]|] eqn:H1; [|done].
  cbn [mbind result_bind]. intros H2.
  apply replace_file_Return_inv in H1 as (Hf1 & -> & ->).
  apply replace_file_Return_inv in H2 as (Hf2 & -> & ->).
  rewrite Hfiles in Hf1, Hf2. done.
Qed.

(** [replace_var] returns exactly when neither of the two [wrfchemi]
    files exists, and it has then written nothing: it has made the
    output directory if that was missing, has left every file as it was
    and created none, and has printed its message twice.  With one of the
    files in place the run ends with an exception. *)
Theorem replace_var_writes_nothing (chemi : gmap string NcVariable) (fs : FileSystem) :
  (files fs !! chem1 = None -> files fs !! chem2 = None ->
   exists fs', replace_var cfg chemi fs =
                 Return (fs', ["!!! Please run mozcart.py first !!!";
                               "!!! Please run mozcart.py first !!!"])) /\
  (forall fs' stdout,
     replace_var cfg chemi fs = Return (fs', stdout) ->
     files fs !! chem1 = None /\ files fs !! chem2 = None /\
     dirs fs' = {[ output_dir cfg ]} ∪ dirs fs /\
     files fs' = files fs /\
     stdout = ["!!! Please run mozcart.py first !!!";
               "!!! Please run mozcart.py first !!!"]) /\
  (is_Some (files fs !! chem1) \/ is_Some (files fs !! chem2) ->
   exists e, replace_var cfg chemi fs = Raise e).
Proof.
  split; [|split].
  - intros H1 H2. eexists. by apply replace_var_missing.
  - intros fs' stdout Hrun.
    apply replace_var_Return_inv in Hrun as (H1 & H2 & -> & ->).
    split; [done|]. split; [done|]. split; [|split; [|done]].
    + case_decide as Hin; [|done].
      symmetry. apply subseteq_union_1_L. by apply singleton_subseteq_l.
    + by case_decide.
  - intros Hsome. destruct (replace_var cfg chemi fs) as [[fs' out]|e] eqn:Hrun;
      [|by exists e].
    apply replace_var_Return_inv in Hrun as (H1 & H2 & _).
    rewrite H1, H2 in Hsome. by destruct Hsome as [[? [=]]|[? [=]]].
Qed.

(** When one of the two [wrfchemi] files exists and the resampled
    dataset has no [E_NO], [replace_var] raises a [KeyError]. *)
Theorem replace_var_needs_E_NO (chemi : gmap string NcVariable) (fs : FileSystem) :
  chemi !! "E_NO" = None ->
  is_Some (files fs !! chem1) \/ is_Some (files fs !! chem2) ->
  replace_var cfg chemi fs = Raise (KeyError "E_NO").
Proof.
  intros Hno Hfile. rewrite replace_var_unfold.
  set (fs0 := if decide (output_dir cfg ∈ dirs fs) then fs
              else {| dirs := {[ output_dir cfg ]} ∪ dirs fs; files := files fs |}).
  assert (Hfiles : files fs0 = files fs) by (unfold fs0; by case_decide).
  clearbody fs0.
  destruct (files fs !! chem1) as [ds|] eqn:H1.
  - by rewrite (replace_file_no_E_NO _ _ _ _ _ ds) by (rewrite ?Hfiles; done || lia).
  - rewrite replace_file_missing by (by rewrite Hfiles).
    cbn [mbind result_bind]. destruct Hfile as [[? [=]]|[ds H2]].
    by rewrite (replace_file_no_E_NO _ _ _ _ _ ds) by (rewrite ?Hfiles; done || lia).
Qed.

(** A first [wrfchemi] file whose [Times] has not 12 entries is not
    patched: giving it the 12 hours of [E_NO] raises a [ValueError]. *)
Theorem replace_var_baseline_of_other_length (chemi : gmap string NcVariable)
    (fs : FileSystem) (ds : gmap string NcVariable) (stamps : list string)
    (no : list (list field)) (at_ : list (string * AttrValue)) :
  files fs !! chem1 = Some ds ->
  ds !! "Times" = Some (TimesVar stamps) ->
  length stamps <> 12 ->
  chemi !! "E_NO" = Some (FieldVar no at_) ->
  12 <= length no ->
  replace_var cfg chemi fs = Raise (ValueError "conflicting sizes for dimension").
Proof.
  intros Hfile Htimes Hlen Hno Hhours. rewrite replace_var_unfold.
  set (fs0 := if decide (output_dir cfg ∈ dirs fs) then fs
              else {| dirs := {[ output_dir cfg ]} ∪ dirs fs; files := files fs |}).
  assert (Hfiles : files fs0 = files fs) by (unfold fs0; by case_decide).
  clearbody fs0.
  by rewrite (replace_file_other_length _ _ _ _ ds stamps no at_)
    by (rewrite ?Hfiles; done).
Qed.

End ReplaceVar.

Lemma dims_on_levels data at_ ny nx :
  data <> [] -> 0 < ny -> on_levels ny nx data ->
  dims (FieldVar data at_) = wrf_dims (length data) ny nx.
Proof.
  intros Hne Hny Hdata. destruct data as [|lev data]; [done|].
  apply Forall_cons in Hdata as [(rows & -> & Hlen & Hrows) _].
  destruct rows as [|row rows]; [simpl in Hlen; lia|].
  apply Forall_cons in Hrows as [Hrow _].
  unfold dims, wrf_dims. simpl. simpl in Hlen. by rewrite Hlen, Hrow.
Qed.

Lemma sizes_agree_window data at_ ny nx (ds : gmap string NcVariable) :
  length data = 12 -> 0 < ny -> on_levels ny nx data -> on_grid 12 ny nx ds ->
  map_Forall (fun _ w => sizes_agree (FieldVar data at_) w = true) ds.
Proof.
  intros Hlen Hny Hdata Hgrid k w Hk.
  apply (sizes_agree_wrf _ _ 12 ny nx); [|by apply (Hgrid k)].
  rewrite <- Hlen. apply dims_on_levels; [|done..].
  intros ->. simpl in Hlen. lia.
Qed.

Lemma on_grid_insert data at_ ny nx name (ds : gmap string NcVariable) :
  length data = 12 -> 0 < ny -> on_levels ny nx data -> on_grid 12 ny nx ds ->
  on_grid 12 ny nx (<[name := FieldVar data at_]> ds).
Proof.
  intros Hlen Hny Hdata Hgrid. apply map_Forall_insert_2; [|done]. left.
  rewrite <- Hlen. apply dims_on_levels; [|done..].
  intros ->. simpl in Hlen. lia.
Qed.

(** A pass of the loop on a baseline file of 12 hours on the grid of
    the resampled species: both assignments go through, and the write
    raises. *)
Lemma replace_file_window chemi fs out index s file ds no so2 a_no a_so2 ny nx :
  files fs !! file = Some ds ->
  tindex !! index = Some (seq s 12) ->
  chemi !! "E_NO" = Some (FieldVar no a_no) ->
  chemi !! "E_SO2" = Some (FieldVar so2 a_so2) ->
  s + 12 <= length no -> s + 12 <= length so2 ->
  0 < ny -> on_levels ny nx no -> on_levels ny nx so2 ->
  on_grid 12 ny nx ds ->
  replace_file chemi (fs, out) (index, file) = Raise PermissionError.
Proof.
  intros Hfile Hwin Hno Hso2 Hlno Hlso2 Hny Huno Huso2 Hgrid.
  assert (Hw : forall data, s + 12 <= length data -> on_levels ny nx data ->
            length (take 12 (drop s data)) = 12 /\
            on_levels ny nx (take 12 (drop s data))).
  { intros data Hlen Hdata. split.
    - rewrite length_take, length_drop. lia.
    - by apply Forall_take, Forall_drop. }
  destruct (Hw no Hlno Huno) as [Hl1 Hu1]. destruct (Hw so2 Hlso2 Huso2) as [Hl2 Hu2].
  eapply replace_file_write; [done | done | done | | done | | |].
  - cbn [isel_Time]. by rewrite take_indices_seq_ok.
  - cbn [isel_Time]. by rewrite take_indices_seq_ok.
  - by eapply sizes_agree_window.
  - eapply sizes_agree_window; [done..|]. by apply on_grid_insert.
Qed.

Section ReplaceVarRun.

Context (cfg : Config).

Local Abbreviation chem1 := (output_dir cfg +:+ "wrfchemi_00z_" +:+ domain cfg).
Local Abbreviation chem2 := (output_dir cfg +:+ "wrfchemi_12z_" +:+ domain cfg).

Lemma replace_var_PermissionError (chemi : gmap string NcVariable) (fs : FileSystem)
    (ds : gmap string NcVariable) (no so2 : list (list field))
    (a_no a_so2 : list (string * AttrValue)) (ny nx : nat) :
  chemi !! "E_NO" = Some (FieldVar no a_no) ->
  chemi !! "E_SO2" = Some (FieldVar so2 a_so2) ->
  24 <= length no -> 24 <= length so2 ->
  0 < ny -> on_levels ny nx no -> on_levels ny nx so2 ->
  on_grid 12 ny nx ds ->
  files fs !! chem1 = Some ds \/
  (files fs !! chem1 = None /\ files fs !! chem2 = Some ds) ->
  replace_var cfg chemi fs = Raise PermissionError.
Proof.
  intros Hno Hso2 Hlno Hlso2 Hny Huno Huso2 Hgrid Hfile.
  rewrite replace_var_unfold.
  set (fs0 := if decide (output_dir cfg ∈ dirs fs) then fs
              else {| dirs := {[ output_dir cfg ]} ∪ dirs fs; files := files fs |}).
  assert (Hfiles : files fs0 = files fs) by (unfold fs0; by case_decide).
  clearbody fs0. destruct Hfile as [H1|[H1 H2]].
  - by rewrite (replace_file_window chemi fs0 [] 0 0 chem1 ds no so2 a_no a_so2 ny nx)
      by (rewrite ?Hfiles; done || lia).
  - rewrite replace_file_missing by (by rewrite Hfiles). cbn [mbind result_bind].
    by rewrite (replace_file_window chemi fs0 _ 1 12 chem2 ds no so2 a_no a_so2 ny nx)
      by (rewrite ?Hfiles; done || lia).
Qed.

(** A baseline file cannot be patched.  With the two species resampled
    for at least 24 hours and the first of the [wrfchemi] files that
    exists on the target grid with 12 hours, the window of 12 hours of
    [E_NO] and [E_SO2] is assigned to the dataset read from the file,
    and writing that dataset to the file it was read from raises
    [PermissionError]: [replace_var] ends there, and no file is
    changed. *)
Theorem replace_var_cannot_write_back (chemi : gmap string NcVariable) (fs : FileSystem)
    (ds : gmap string NcVariable) (no so2 : list (list field))
    (a_no a_so2 : list (string * AttrValue)) (ny nx : nat) :
  chemi !! "E_NO" = Some (FieldVar no a_no) ->
  chemi !! "E_SO2" = Some (FieldVar so2 a_so2) ->
  24 <= length no -> 24 <= length so2 ->
  0 < ny -> on_levels ny nx no -> on_levels ny nx so2 ->
  on_grid 12 ny nx ds ->
  files fs !! chem1 = Some ds \/
  (files fs !! chem1 = None /\ files fs !! chem2 = Some ds) ->
  replace_var cfg chemi fs = Raise PermissionError.
Proof. apply replace_var_PermissionError. Qed.

End ReplaceVarRun.

Lemma on_levels_replicate n (c : cell) :
  on_levels 1 1 (replicate n [[[c]]]).
Proof.
  apply Forall_replicate. exists [[c]]. split; [done|]. split; [done|].
  by repeat constructor.
Qed.

Lemma baseline0_on_grid : on_grid 12 1 1 baseline0.
Proof.
  intros k w Hk. unfold baseline0 in Hk.
  apply lookup_insert_Some in Hk as [[_ <-]|[_ Hk]]; [by left|].
  apply lookup_insert_Some in Hk as [[_ <-]|[_ Hk]]; [by left|].
  apply lookup_singleton_Some in Hk as [_ <-]. by right.
Qed.

Lemma replace_var_cannot_write_back_witness :
  replace_var cfg0 chemi0 fs_both = Raise PermissionError.
Proof.
  apply (replace_var_cannot_write_back cfg0 chemi0 fs_both baseline0
           (replicate 24 [[[Some 1%R]]]) (replicate 24 [[[Some 2%R]]]) [] [] 1 1).
  - reflexivity.
  - reflexivity.
  - rewrite length_replicate. lia.
  - rewrite length_replicate. lia.
  - lia.
  - apply on_levels_replicate.
  - apply on_levels_replicate.
  - apply baseline0_on_grid.
  - left. reflexivity.
Defined.

Lemma replace_var_writes_nothing_witness :
  exists fs',
    replace_var cfg0 chemi0 fs_empty =
      Return (fs', ["!!! Please run mozcart.py first !!!";
                    "!!! Please run mozcart.py first !!!"]) /\
    dirs fs' = {[ output_dir cfg0 ]} ∪ dirs fs_empty /\
    files fs' = files fs_empty.
Proof.
  destruct (replace_var_writes_nothing cfg0 chemi0 fs_empty) as (Hret & Hinv & _).
  destruct (Hret eq_refl eq_refl) as [fs' Hrun].
  exists fs'. split; [exact Hrun|].
  destruct (Hinv fs' _ Hrun) as (_ & _ & Hdirs & Hfiles & _).
  split; [exact Hdirs | exact Hfiles].
Defined.

Lemma replace_var_needs_E_NO_witness :
  replace_var cfg0 {[ "Times" := TimesVar [] ]} fs_baseline = Raise (KeyError "E_NO").
Proof.
  apply replace_var_needs_E_NO; [reflexivity|]. left. by eexists.
Defined.

Lemma replace_var_baseline_of_other_length_witness :
  replace_var cfg0 chemi0
    {| dirs := ∅;
       files := {[ "../output_files/wrfchemi_00z_d01" :=
                     {[ "Times" := TimesVar (replicate 24 "2019-07-25") ]} ]} |} =
    Raise (ValueError "conflicting sizes for dimension").
Proof.
  apply (replace_var_baseline_of_other_length cfg0 chemi0 _
           {[ "Times" := TimesVar (replicate 24 "2019-07-25") ]}
           (replicate 24 "2019-07-25") (replicate 24 [[[Some 1%R]]]) []).
  - reflexivity.
  - reflexivity.
  - rewrite length_replicate. lia.
  - reflexivity.
  - rewrite length_replicate. lia.
Defined.

(** ** get_ds: the paths that raise *)

(** [get_ds] for [E_PM25] with the molecular weights of [read_vito]
    never returns: the branch of PM2.5 looks its weight up in a
    dictionary from which it has been commented out. *)
Theorem get_ds_PM25_is_disabled (days : Z) (csv : option (list (list R)))
    (area : list (list R)) (ds : Dataset) (mm : Z) :
  exists key,
    get_ds days csv area ds "E_PM25" var_dict mm = Raise (KeyError key) /\
    (key = "PM25_Industry" \/ key = "MissingValue" \/ key = "E_PM25") /\
    (key = "E_PM25" <->
     exists ind, data_vars ds !! "PM25_Industry" = Some ind /\
                 is_Some (attrs ind !! "MissingValue")).
Proof.
  unfold get_ds.
  cbv [py_last py_last2 py_split String.eqb Ascii.eqb Bool.eqb
       reverse rev_append String.append orb andb mbind result_bind
       convert_units dict_get var_dict meshgrid fst snd getitem].
  destruct (data_vars ds !! "PM25_Industry") as [ind|] eqn:Hind.
  - destruct (attrs ind !! "MissingValue") as [missing|] eqn:Hmiss.
    + exists "E_PM25". split; [done|]. split; [tauto|]. split; [|done].
      intros _. exists ind. split; [done|]. by eexists.
    + exists "MissingValue". split; [done|]. split; [tauto|]. split; [done|].
      intros (ind' & [= <-] & [m Hm]). congruence.
  - exists "PM25_Industry". split; [done|]. split; [tauto|]. split; [done|].
    intros (ind' & [=] & _).
Qed.

Lemma squeeze_time_several (vals : list field) :
  1 < length vals ->
  squeeze_time vals =
    Raise (ValueError "cannot select a dimension to squeeze out which has length greater than one").
Proof. intros Hlen. destruct vals as [|f [|f' vals]]; simpl in Hlen; [lia..|done]. Qed.

Lemma length_where_month {A} (months : list Z) (mm : Z) (vals : list A) :
  length vals = length months ->
  length (where_month months mm vals) = length (filter (fun m => m = mm) months).
Proof.
  unfold where_month. rewrite length_fmap. revert vals.
  induction months as [|m months IH]; intros [|v vals] Hlen; try done.
  cbn [zip zip_with]. rewrite !filter_cons. cbn [fst].
  case_decide; cbn [length]; rewrite IH by (simpl in Hlen; lia); done.
Qed.

Lemma disaggregate_squeeze vars prefix table zeros da e :
  vars !! (prefix +:+ "_" +:+ "Fires") = Some da ->
  squeeze_time (values da) = Raise e ->
  disaggregate vars prefix table zeros = Raise e.
Proof.
  intros Hda Hsq. unfold disaggregate, kind. cbn [foldM].
  rewrite (proj2 (getitem_Return _ _ _) Hda). cbn [mbind result_bind].
  destruct (sel_kind_factor table "Fires") as (col & -> & _).
  { unfold kind. rewrite !elem_of_cons. tauto. }
  cbn [mbind result_bind]. by rewrite Hsq.
Qed.

Ltac get_ds_prelude Hind Hmiss :=
  unfold get_ds;
  cbv [py_last py_last2 py_split String.eqb Ascii.eqb Bool.eqb
       reverse rev_append String.append orb andb mbind result_bind
       convert_units dict_get var_dict meshgrid fst snd];
  rewrite (proj2 (getitem_Return _ _ _) Hind);
  rewrite (proj2 (getitem_Return _ _ _) Hmiss).

Lemma get_ds_squeeze (days : Z) csv (area : list (list R)) ds name weight (mm : Z)
    ind missing fires table log e :
  species_weight name weight ->
  data_vars ds !! sector_key name "Industry" = Some ind ->
  attrs ind !! "MissingValue" = Some missing ->
  data_vars ds !! sector_key name "Fires" = Some fires ->
  read_table csv = Return (table, log) ->
  (forall g : field -> field,
     squeeze_time (g <$> where_month (time_month ds) mm (values fires)) = Raise e) ->
  get_ds days csv area ds name var_dict mm = Raise e.
Proof.
  intros [[-> ->]|[-> ->]] Hind Hmiss Hfires Htable Hsq.
  - change (sector_key "E_NO" "Industry") with "NOx_Industry" in Hind.
    change (sector_key "E_NO" "Fires") with "NOx_Fires" in Hfires.
    get_ds_prelude Hind Hmiss. rewrite Htable.
    erewrite disaggregate_squeeze; [done | |].
    + change ("NOx" +:+ "_" +:+ "Fires") with "NOx_Fires".
      rewrite !lookup_fmap, Hfires. reflexivity.
    + cbn [arith sel_month map_values values].
      rewrite where_month_fmap, <- list_fmap_compose. apply Hsq.
  - change (sector_key "E_SO2" "Industry") with "SO2_Industry" in Hind.
    change (sector_key "E_SO2" "Fires") with "SO2_Fires" in Hfires.
    get_ds_prelude Hind Hmiss. rewrite Htable.
    erewrite disaggregate_squeeze; [done | |].
    + change ("SO2" +:+ "_" +:+ "Fires") with "SO2_Fires".
      rewrite !lookup_fmap, Hfires. reflexivity.
    + cbn [arith sel_month map_values values].
      rewrite where_month_fmap, <- list_fmap_compose. apply Hsq.
Qed.

(** [get_ds] needs exactly one time step in the selected month.  With
    none, the first sector of the loop has a [time] axis of length 0 and
    squeezing it raises [IndexError]; with several, the axis cannot be
    squeezed and a [ValueError] is raised. *)
Theorem get_ds_needs_one_time_step (days : Z) (csv : option (list (list R)))
    (area : list (list R)) (ds : Dataset) (name : string) (weight : Z) (mm : Z)
    (ind fires : DataArray) (missing : R) (table : list (list cell))
    (log : list LogRecord) :
  species_weight name weight ->
  data_vars ds !! sector_key name "Industry" = Some ind ->
  attrs ind !! "MissingValue" = Some missing ->
  data_vars ds !! sector_key name "Fires" = Some fires ->
  length (values fires) = length (time_month ds) ->
  read_table csv = Return (table, log) ->
  (length (filter (fun m => m = mm) (time_month ds)) = 0 ->
   get_ds days csv area ds name var_dict mm = Raise IndexError) /\
  (1 < length (filter (fun m => m = mm) (time_month ds)) ->
   get_ds days csv area ds name var_dict mm =
     Raise (ValueError "cannot select a dimension to squeeze out which has length greater than one")).
Proof.
  intros Hw Hind Hmiss Hfires Hsteps Htable. split; intros Hlen.
  - eapply get_ds_squeeze; [done..|]. intros g.
    rewrite <- (length_where_month _ _ (values fires)) in Hlen by done.
    apply nil_length_inv in Hlen. by rewrite Hlen.
  - eapply get_ds_squeeze; [done..|]. intros g.
    apply squeeze_time_several. by rewrite length_fmap, length_where_month.
Qed.

Lemma get_ds_needs_one_time_step_witness :
  get_ds 31 None area2x2 ds_industry "E_NO" var_dict 7 = Raise IndexError /\
  get_ds 30 None area2x2
    {| ds_attrs := ds_attrs ds_industry; time_month := [6%Z; 6%Z];
       lat := lat ds_industry; lon := lon ds_industry;
       data_vars := (fun da => {| values := values da ++ values da; attrs := attrs da;
                                  units_attr := units_attr da |}) <$>
                      data_vars ds_industry;
       var_names := var_names ds_industry |} "E_NO" var_dict 6 =
    Raise (ValueError "cannot select a dimension to squeeze out which has length greater than one").
Proof.
  split.
  - eapply (get_ds_needs_one_time_step 31 None area2x2 ds_industry "E_NO" 14 7).
    + by left.
    + reflexivity.
    + reflexivity.
    + reflexivity.
    + reflexivity.
    + reflexivity.
    + reflexivity.
  - eapply (get_ds_needs_one_time_step 30 None area2x2 _ "E_NO" 14 6).
    + by left.
    + reflexivity.
    + reflexivity.
    + reflexivity.
    + reflexivity.
    + reflexivity.
    + vm_compute. lia.
Defined.

(** Only a missing [hourly_factor.csv] is replaced by factors of one: a
    file that is there but does not hold 24 rows of 5 columns makes
    [get_ds] raise a [ValueError]. *)
Theorem get_ds_malformed_table (days : Z) (rows : list (list R))
    (area : list (list R)) (ds : Dataset) (name : string) (weight : Z) (mm : Z)
    (ind : DataArray) (missing : R) :
  species_weight name weight ->
  data_vars ds !! sector_key name "Industry" = Some ind ->
  attrs ind !! "MissingValue" = Some missing ->
  table_shape_ok rows = false ->
  get_ds days (Some rows) area ds name var_dict mm =
    Raise (ValueError "conflicting sizes for dimensions").
Proof.
  intros [[-> ->]|[-> ->]] Hind Hmiss Hshape.
  - change (sector_key "E_NO" "Industry") with "NOx_Industry" in Hind.
    get_ds_prelude Hind Hmiss. unfold read_table. by rewrite Hshape.
  - change (sector_key "E_SO2" "Industry") with "SO2_Industry" in Hind.
    get_ds_prelude Hind Hmiss. unfold read_table. by rewrite Hshape.
Qed.

Lemma get_ds_malformed_table_witness :
  get_ds 30 (Some (replicate 23 [1; 1; 1; 1; 1]%R)) area2x2 ds_industry "E_NO"
    var_dict 6 =
    Raise (ValueError "conflicting sizes for dimensions").
Proof.
  eapply (get_ds_malformed_table 30 _ area2x2 ds_industry "E_NO" 14 6).
  - by left.
  - reflexivity.
  - reflexivity.
  - reflexivity.
Defined.

(** ** read_vito *)

Lemma mapR_getitem_Raise {V} (d : gmap string V) pre key post :
  (forall n, n ∈ pre -> is_Some (d !! n)) -> d !! key = None ->
  mapR (fun n => da ← getitem d n; Return (n, da)) (pre ++ key :: post) =
    Raise (KeyError key).
Proof.
  intros Hpre Hkey. induction pre as [|n pre IH]; cbn [app mapR].
  - unfold getitem. by rewrite Hkey.
  - destruct (Hpre n ltac:(apply list_elem_of_here)) as [da Hda].
    rewrite (proj2 (getitem_Return _ _ _) Hda). cbn [mbind result_bind].
    rewrite IH; [done|]. intros m Hm. apply Hpre. by apply list_elem_of_further.
Qed.








Section ReadVito.

Context (float_str : cell -> string).

Local Abbreviation read_vito' := (read_vito float_str).
Local Abbreviation read_species' := (read_species float_str).


Lemma read_vito_unfold days csv mm ds :
  read_vito' days csv mm ds =
    (self ← read_species' days csv mm ds (None, []) "E_NO";
     read_species' days csv mm ds self "E_SO2").
Proof.
  unfold read_vito. cbn [fmap list_fmap var_dict fst foldM].
  destruct (read_species _ _ _ _ _ _ "E_NO") as [s|]; [|done]. cbn [mbind result_bind].
  by destruct (read_species _ _ _ _ _ _ "E_SO2").
Qed.

Lemma read_species_select_Raise days csv mm ds self name e :
  select ds (sector_key name <$> types) = Raise e ->
  read_species' days csv mm ds self name = Raise e.
Proof. intros Hsel. unfold read_species. by rewrite Hsel. Qed.

(** The species are read in the order [E_NO], [E_SO2], and the sectors
    of a species are selected in the order of [types]: when a sector of
    NOx is missing from the inventory, [read_vito] raises the [KeyError]
    of the first missing one, before any area is computed. *)
Theorem read_vito_missing_sector (days : Z) (csv : option (list (list R))) (mm : Z)
    (ds : Dataset) (pre : list string) (t : string) (post : list string) :
  types = (pre ++ t :: post)%list ->
  (forall t', t' ∈ pre -> is_Some (data_vars ds !! sector_key "E_NO" t')) ->
  data_vars ds !! sector_key "E_NO" t = None ->
  read_vito' days csv mm ds = Raise (KeyError (sector_key "E_NO" t)).
Proof.
  intros Htypes Hpre Ht. rewrite read_vito_unfold.
  rewrite (read_species_select_Raise _ _ _ _ _ _ (KeyError (sector_key "E_NO" t)));
    [done|].
  unfold select. rewrite Htypes, fmap_app, fmap_cons.
  rewrite mapR_getitem_Raise; [done| |done].
  intros n (t' & -> & Ht')%list_elem_of_fmap. by apply Hpre.
Qed.

End ReadVito.

Lemma read_vito_missing_sector_witness :
  read_vito float_str0 31 None 7 ds_band = Raise (KeyError "NOx_Industry").
Proof.
  apply (read_vito_missing_sector float_str0 31 None 7 ds_band []
           "Industry" ["Energy"; "Traffic"; "Residential"; "Fires"]).
  - reflexivity.
  - intros t' Ht'. by apply elem_of_nil in Ht'.
  - reflexivity.
Defined.


Section ReadVitoRun.

Context (float_str : cell -> string).

Local Abbreviation read_vito' := (read_vito float_str).



End ReadVitoRun.



(** ** __init__ *)

Section Init.

Context (strftime : string -> Z -> string).
Context (float_str : cell -> string).
Context (resample_nearest :
           SwathDefinition -> field -> AreaDefinition -> R -> R -> result field).
Context (resample_custom :
           SwathDefinition -> field -> AreaDefinition -> R -> Z -> (cell -> cell) -> R
           -> result field).
Context (resample_bilinear :
           field -> SwathDefinition -> AreaDefinition -> R -> Z -> Z -> bool ->
           option Z -> R -> R -> result field).
Context (cfg : Config).

Local Abbreviation vito_init' :=
  (vito_init strftime float_str resample_nearest resample_custom resample_bilinear
     cfg).

(** The constructor reads before it resamples and writes: a missing
    [geo_em] file, a projection that is not one of the four of
    [wrf_projs], a missing inventory and any exception of [read_vito]
    end the run with that exception, in this order, whatever the
    datetimes are and before the loop over them is entered. *)
Theorem vito_init_fails_before_resampling (fuel : nat) (days : Z) (world : World)
    (st et delta : Z) :
  (geo_em world = None ->
   vito_init' fuel days world st et delta = Some (Raise OSError)) /\
  (forall geo, geo_em world = Some geo ->
     (~ exists p, In (MAP_PROJ geo, p) wrf_projs) ->
     vito_init' fuel days world st et delta = Some (Raise (KeyError "MAP_PROJ"))) /\
  (forall geo area_def, geo_em world = Some geo -> get_info geo = Return area_def ->
     vito_nc world = None ->
     vito_init' fuel days world st et delta = Some (Raise OSError)) /\
  (forall geo area_def ds e, geo_em world = Some geo ->
     get_info geo = Return area_def -> vito_nc world = Some ds ->
     read_vito float_str days (hourly_factor_csv world) (mm cfg) ds = Raise e ->
     vito_init' fuel days world st et delta = Some (Raise e)).
Proof.
  unfold vito_init. split; [|split; [|split]].
  - by intros ->.
  - intros geo -> Hproj. cbn [mbind result_bind].
    assert (Hinfo : get_info geo = Raise (KeyError "MAP_PROJ")); [|by rewrite Hinfo].
    unfold get_info, wrf_projs in *. cbn [wrf_projs_get].
    destruct (Z.eqb_spec 1 (MAP_PROJ geo)) as [H1|_];
      [destruct Hproj; exists "lcc"; rewrite <- H1; simpl; tauto|].
    destruct (Z.eqb_spec 2 (MAP_PROJ geo)) as [H2|_];
      [destruct Hproj; exists "npstere"; rewrite <- H2; simpl; tauto|].
    destruct (Z.eqb_spec 3 (MAP_PROJ geo)) as [H3|_];
      [destruct Hproj; exists "merc"; rewrite <- H3; simpl; tauto|].
    destruct (Z.eqb_spec 6 (MAP_PROJ geo)) as [H6|_];
      [destruct Hproj; exists "eqc"; rewrite <- H6; simpl; tauto|].
    done.
  - intros geo area_def -> Hinfo ->. cbn [mbind result_bind]. by rewrite Hinfo.
  - intros geo area_def ds e -> Hinfo -> Hread. cbn [mbind result_bind].
    rewrite Hinfo. cbn [mbind result_bind]. by rewrite Hread.
Qed.

End Init.

(** ** The sign of the hourly flux *)

Lemma sector_sum_nonneg (ks : list string) (c t : string -> cell) (x : R) :
  (0 <= x)%R ->
  (forall k, k ∈ ks -> exists a b, c k = Some a /\ t k = Some b /\ (0 <= a)%R /\ (0 <= b)%R) ->
  exists y, sector_sum (Some x) c t ks = Some y /\ (0 <= y)%R.
Proof.
  unfold sector_sum. revert x. induction ks as [|k ks IH]; intros x Hx Hks.
  - by exists x.
  - destruct (Hks k ltac:(apply list_elem_of_here)) as (a & b & Ha & Hb & Ha0 & Hb0).
    cbn [foldl]. rewrite Ha, Hb. cbn [cmul cadd]. apply IH.
    + nra.
    + intros k' Hk'. apply Hks. by apply list_elem_of_further.
Qed.

Lemma to_mol_km2_hr_nonneg days weight v a :
  (0 < days)%Z -> (0 < weight)%Z -> (0 <= v)%R -> (0 < a)%R ->
  exists y, to_mol_km2_hr (days * 24) weight (Some v) a = Some y /\ (0 <= y)%R.
Proof.
  intros Hd Hw Hv Ha. rewrite to_mol_km2_hr_Some by (lra || nia).
  eexists. split; [done|].
  assert (0 < IZR (days * 24) * IZR weight)%R.
  { apply Rmult_lt_0_compat; apply IZR_lt; lia. }
  assert (0 < a / 1e6)%R by (apply Rdiv_lt_0_compat; lra).
  apply Rmult_le_pos; [apply Rmult_le_pos; [lra|]|];
    left; by apply Rinv_0_lt_compat.
Qed.

(** Emissions that are not negative stay so: in a cell of positive
    area where every sector has a value that is not negative and is not
    the fill value, and with hourly factors that are not negative, the
    flux that [get_ds] computes for the species is a number, and it is
    not negative, at every hour. *)
Theorem get_ds_flux_is_not_negative (days : Z) (csv : option (list (list R)))
    (area : list (list R)) (ds : Dataset) (name : string) (weight : Z) (mm : Z)
    (missing : R) (raw : string -> field) (table : list (list cell))
    (log : list LogRecord) (j i : nat) (a : R) :
  species_weight name weight ->
  (forall k, k ∈ kind ->
     exists da, data_vars ds !! sector_key name k = Some da /\
                where_month (time_month ds) mm (values da) = [raw k]) ->
  (exists ind, data_vars ds !! sector_key name "Industry" = Some ind /\
               attrs ind !! "MissingValue" = Some missing) ->
  read_table csv = Return (table, log) ->
  (forall h k, h < 24 -> k ∈ kind -> exists f, factor table h k = Some f /\ (0 <= f)%R) ->
  (0 < days)%Z ->
  j < length (lat ds) -> i < length (lon ds) ->
  at2 area j i = Some a -> (0 < a)%R ->
  (forall k, k ∈ kind ->
     exists v, at2 (raw k) j i = Some (Some v) /\ (0 <= v)%R /\ v <> missing) ->
  exists total,
    get_ds days csv area ds name var_dict mm =
      Return ({| emi_vars := kept_vars days weight missing area ds mm name total;
                 longitude := (meshgrid (lon ds) (lat ds)).1;
                 latitude := (meshgrid (lon ds) (lat ds)).2 |}, log) /\
    dict_get (kept_vars days weight missing area ds mm name total) name =
      Return (mkHourlyVar total (Some "mol km-2 hr-1")) /\
    forall h, h < 24 -> exists y, at3 total h j i = Some (Some y) /\ (0 <= y)%R.
Proof.
  intros Hw Hvars Hind Htable Hfactor Hdays Hj Hi Ha Hapos Hraw.
  destruct (get_ds_species days csv area ds name weight mm missing raw table log
              Hw Hvars Hind Htable) as (total & Hrun & Hget & _ & _ & _ & Hcell).
  exists total. split; [done|]. split; [done|]. intros h Hh.
  assert (Hweight : (0 < weight)%Z) by (destruct Hw as [[_ ->]|[_ ->]]; lia).
  set (c := fun k => to_mol_km2_hr (days * 24) weight
                       (match at2 (raw k) j i with
                        | Some v => where_ne missing v
                        | None => None
                        end) a).
  assert (Hc : forall k, k ∈ kind -> exists y, c k = Some y /\ (0 <= y)%R).
  { intros k Hk. destruct (Hraw k Hk) as (v & Hv & Hv0 & Hvm). unfold c.
    rewrite Hv, where_ne_other by done. by apply to_mol_km2_hr_nonneg. }
  rewrite (Hcell h j i c Hh Hj Hi).
  - destruct (sector_sum_nonneg kind c (factor table h) 0%R) as (y & -> & Hy);
      [lra| |by exists y].
    intros k Hk. destruct (Hc k Hk) as (x & Hx & Hx0).
    destruct (Hfactor h k Hh Hk) as (f & Hf & Hf0). by exists x, f.
  - intros k Hk. destruct (Hraw k Hk) as (v & Hv & _).
    rewrite (at2_converted days weight missing area (raw k) j i (Some v) a) by done.
    unfold c. by rewrite Hv.
Qed.

Lemma get_ds_flux_is_not_negative_witness :
  exists total,
    get_ds 30 None area2x2 ds_industry "E_NO" var_dict 6 =
      Return ({| emi_vars := kept_vars 30 14 (-999) area2x2 ds_industry 6 "E_NO" total;
                 longitude := (meshgrid (lon ds_industry) (lat ds_industry)).1;
                 latitude := (meshgrid (lon ds_industry) (lat ds_industry)).2 |},
              [mkLog INFO "        hourly_factor.csv does not exist, use 1 instead"]) /\
    dict_get (kept_vars 30 14 (-999) area2x2 ds_industry 6 "E_NO" total) "E_NO" =
      Return (mkHourlyVar total (Some "mol km-2 hr-1")) /\
    forall h, h < 24 -> exists y, at3 total h 0 0 = Some (Some y) /\ (0 <= y)%R.
Proof.
  apply (get_ds_flux_is_not_negative 30 None area2x2 ds_industry "E_NO" 14 6
           (-999)%R raw_industry (full 24 5 (Some 1%R)) _ 0 0 1e6%R).
  - by left.
  - exact ds_industry_vars.
  - eexists. split; reflexivity.
  - reflexivity.
  - intros h k Hh Hk. exists 1%R. split; [by apply factor_ones|lra].
  - lia.
  - simpl. lia.
  - simpl. lia.
  - reflexivity.
  - lra.
  - intros k Hk. exists (value_industry k). split; [reflexivity|].
    apply kind_cases in Hk as [->|[->|[->|[->| ->]]]];
      unfold value_industry; simpl; split; lra.
Defined.

(** ** replace_var on its own output *)

Section ReplaceVarAgain.

Context (cfg : Config).

(** A run of [replace_var] that returns has changed no file, and
    running it a second time changes nothing either: on the file system
    that the first run has left, a second run with the same resampled
    dataset returns too, leaves the file system as it is and prints the
    same messages. *)
Theorem replace_var_twice (chemi : gmap string NcVariable) (fs fs' : FileSystem)
    (stdout : list string) :
  replace_var cfg chemi fs = Return (fs', stdout) ->
  replace_var cfg chemi fs' = Return (fs', stdout) /\
  files fs' = files fs.
Proof.
  intros Hrun. apply replace_var_Return_inv in Hrun as (H1 & H2 & -> & ->).
  set (fs0 := if decide (output_dir cfg ∈ dirs fs) then fs
              else {| dirs := {[ output_dir cfg ]} ∪ dirs fs; files := files fs |}).
  assert (Hdirs : output_dir cfg ∈ dirs fs0).
  { unfold fs0. case_decide; [done|]. cbn [dirs].
    apply elem_of_union_l. by apply elem_of_singleton. }
  assert (Hfiles : files fs0 = files fs) by (unfold fs0; by case_decide).
  clearbody fs0. split; [|done].
  rewrite (replace_var_missing cfg chemi fs0) by (by rewrite Hfiles).
  by rewrite decide_True.
Qed.

End ReplaceVarAgain.

Lemma replace_var_twice_witness :
  exists fs',
    replace_var cfg0 chemi0 fs_empty =
      Return (fs', ["!!! Please run mozcart.py first !!!";
                    "!!! Please run mozcart.py first !!!"]) /\
    replace_var cfg0 chemi0 fs' =
      Return (fs', ["!!! Please run mozcart.py first !!!";
                    "!!! Please run mozcart.py first !!!"]) /\
    files fs' = files fs_empty.
Proof.
  eexists. split; [by apply (replace_var_missing cfg0 chemi0 fs_empty)|].
  apply (replace_var_twice cfg0 chemi0 fs_empty).
  by apply (replace_var_missing cfg0 chemi0 fs_empty).
Defined.

(** ** The whole run *)


Section Run.

Context (strftime : string -> Z -> string).
Context (float_str : cell -> string).
Context (resample_nearest :
           SwathDefinition -> field -> AreaDefinition -> R -> R -> result field).
Context (resample_custom :
           SwathDefinition -> field -> AreaDefinition -> R -> Z -> (cell -> cell) -> R
           -> result field).
Context (resample_bilinear :
           field -> SwathDefinition -> AreaDefinition -> R -> Z -> Z -> bool ->
           option Z -> R -> R -> result field).
Context (cfg : Config).

Local Abbreviation resample_slice' :=
  (resample_slice resample_nearest resample_custom resample_bilinear cfg).
Local Abbreviation vito_init' :=
  (vito_init strftime float_str resample_nearest resample_custom resample_bilinear
     cfg).
Local Abbreviation chem1 := (output_dir cfg +:+ "wrfchemi_00z_" +:+ domain cfg).
Local Abbreviation chem2 := (output_dir cfg +:+ "wrfchemi_12z_" +:+ domain cfg).


End Run.

